(** * NUM assistant: the custom actions of [actions.py]

    A shallow embedding of the Rasa custom actions in [src/actions.py]
    (tuition calculator, GPA form and calculator, campus location
    resolver) together with the properties stated about them.

    Conventions
    - A Python [str] is a list of Unicode code points ([str]); literals are
      written as UTF-8 text and decoded by [u].
    - A Python [float] is an IEEE 754 binary64 value, taken from the
      specification of floating-point arithmetic of the core library
      ([spec_float] at precision 53 and maximal exponent 1024): every
      operation below rounds exactly as the interpreter does.
    - A dynamically typed value (a slot, a YAML node) is a [pyval].
    - An action or a validation hook runs in the monad [Act]: it may raise
      an exception and it records the messages handed to the dispatcher.
    - What the actions read from their environment is a parameter: the
      documents [pricing.yml] and [locations.yml], the state of
      [tuition.db], the tracker.

    Limits of the model
    - Case folding covers Basic Latin and Cyrillic; digits are the ASCII
      digits.
    - Of [tuition.db] the model keeps the rows of the two tables and the
      AUTOINCREMENT sequence of [users]; the ids and the times of the runs
      are left out.
    - The keys of a mapping are strings.
    - A reply assembled from numbers is kept as those numbers, not as the
      text printed from them. *)

From Stdlib Require Import String Ascii.
From Stdlib Require Import ZArith NArith List Bool Lia.
From Stdlib Require Import DecimalString.
From Stdlib Require Import Floats.
Import ListNotations.

Set Warnings "-inexact-float,-register-all".
Set Implicit Arguments.

Local Open Scope Z_scope.

(* ===================================================================== *)
(** * Text                                                               *)
(* ===================================================================== *)

(** A character is a Unicode code point. *)
Definition char := N.
Definition str := list char.

Definition char_eqb (a b : char) : bool := N.eqb a b.

Fixpoint str_eqb (a b : str) : bool :=
  match a, b with
  | [], [] => true
  | x :: a', y :: b' => char_eqb x y && str_eqb a' b'
  | _, _ => false
  end.

(** Decoding of a UTF-8 byte sequence (the encoding of the source file). *)
Fixpoint utf8_decode (bs : list N) : str :=
  match bs with
  | [] => []
  | b0 :: t0 =>
    if (b0 <? 128)%N then b0 :: utf8_decode t0
    else
      match t0 with
      | [] => []
      | b1 :: t1 =>
        if (b0 <? 224)%N
        then ((b0 - 192) * 64 + (b1 - 128))%N :: utf8_decode t1
        else
          match t1 with
          | [] => []
          | b2 :: t2 =>
            if (b0 <? 240)%N
            then ((b0 - 224) * 4096 + (b1 - 128) * 64 + (b2 - 128))%N
                   :: utf8_decode t2
            else
              match t2 with
              | [] => []
              | b3 :: t3 =>
                ((b0 - 240) * 262144 + (b1 - 128) * 4096
                 + (b2 - 128) * 64 + (b3 - 128))%N :: utf8_decode t3
              end
          end
      end
  end.

(** [u "..."] is the Python string literal with that text. *)
Definition u (s : string) : str :=
  utf8_decode (map N_of_ascii (list_ascii_of_string s)).

(** ** Character classes *)

(** [str.isspace] on one character, which is also what [\s] matches in a
    [str] pattern. *)
Definition is_space (c : char) : bool :=
  ((9 <=? c) && (c <=? 13) || (28 <=? c) && (c <=? 32)
   || (c =? 133) || (c =? 160) || (c =? 5760)
   || (8192 <=? c) && (c <=? 8202)
   || (c =? 8232) || (c =? 8233) || (c =? 8239) || (c =? 8287)
   || (c =? 12288))%N.

(** [\d], restricted to the ASCII digits: the decimal digits of other
    scripts, which Python also accepts, are outside the modelled alphabet. *)
Definition is_digit (c : char) : bool := ((48 <=? c) && (c <=? 57))%N.

Definition digit_value (c : char) : Z := Z.of_N c - 48.

(** [str.lower] on one character, for Basic Latin and the Cyrillic blocks
    (the alphabets of the assistant's users); any other character is left
    as it is. *)
Definition lower (c : char) : char :=
  (if (65 <=? c) && (c <=? 90) then c + 32
   else if (1024 <=? c) && (c <=? 1039) then c + 80
   else if (1040 <=? c) && (c <=? 1071) then c + 32
   else if (1120 <=? c) && (c <=? 1153) && N.even c then c + 1
   else if (1162 <=? c) && (c <=? 1215) && N.even c then c + 1
   else if c =? 1216 then 1231
   else if (1217 <=? c) && (c <=? 1230) && N.odd c then c + 1
   else if (1232 <=? c) && (c <=? 1327) && N.even c then c + 1
   else c)%N.

Definition str_lower (s : str) : str := map lower s.

(** ** [str] methods *)

Fixpoint lstrip (s : str) : str :=
  match s with
  | [] => []
  | c :: s' => if is_space c then lstrip s' else s
  end.

Definition rstrip (s : str) : str := rev (lstrip (rev s)).

(** [s.strip()] *)
Definition strip (s : str) : str := rstrip (lstrip s).

(** [s.replace(a, b)] for one-character [a] and [b]. *)
Definition replace_char (a b : char) (s : str) : str :=
  map (fun c => if char_eqb c a then b else c) s.

Fixpoint is_prefix (p s : str) : bool :=
  match p, s with
  | [], _ => true
  | x :: p', y :: s' => char_eqb x y && is_prefix p' s'
  | _ :: _, [] => false
  end.

(** [needle in hay] *)
Fixpoint contains (needle hay : str) : bool :=
  is_prefix needle hay
  || match hay with
     | [] => false
     | _ :: hay' => contains needle hay'
     end.

(** [sep.join(lines)] *)
Fixpoint join (sep : str) (lines : list str) : str :=
  match lines with
  | [] => []
  | [l] => l
  | l :: rest => l ++ sep ++ join sep rest
  end.

(** ** Integers and text *)

(** [str(n)] for an [int]. *)
Definition str_of_int (n : Z) : str :=
  map N_of_ascii (list_ascii_of_string (NilZero.string_of_int (Z.to_int n))).

(** The digits of an integer literal after its sign: decimal digits, where
    single underscores may separate digits. [after_digit] tells whether the
    previous character was a digit. *)
Fixpoint int_digits (acc : Z) (after_digit : bool) (s : str) : option Z :=
  match s with
  | [] => if after_digit then Some acc else None
  | c :: s' =>
    if is_digit c then int_digits (10 * acc + digit_value c) true s'
    else if (c =? 95)%N && after_digit
         then match s' with
              | d :: _ => if is_digit d then int_digits acc false s' else None
              | [] => None
              end
         else None
  end.

(** The white space [int] and [float] drop around a number: that of
    [str.isspace] without the separators U+001C to U+001F. *)
Definition is_number_space (c : char) : bool :=
  is_space c && negb ((28 <=? c) && (c <=? 31))%N.

Fixpoint lstrip_number (s : str) : str :=
  match s with
  | [] => []
  | c :: s' => if is_number_space c then lstrip_number s' else s
  end.

Definition strip_number (s : str) : str :=
  rev (lstrip_number (rev (lstrip_number s))).

(** [int(s)] for a [str]: [None] stands for [ValueError]. *)
Definition int_of_str (s : str) : option Z :=
  match strip_number s with
  | [] => None
  | c :: s' =>
    if (c =? 45)%N then option_map Z.opp (int_digits 0 false s')
    else if (c =? 43)%N then int_digits 0 false s'
    else int_digits 0 false (c :: s')
  end.

(* ===================================================================== *)
(** * Floating-point numbers                                             *)
(* ===================================================================== *)

(** The exceptions the actions meet. *)
Inductive exn :=
| TypeError | ValueError | OverflowError | KeyError | IndexError
| AttributeError | ZeroDivisionError
| OtherError (what : str).

(** A computation that returns a value or raises. *)
Definition result (A : Type) := (exn + A)%type.

Definition float := spec_float.
Definition prec : Z := 53.
Definition emax : Z := 1024.

Definition fadd : float -> float -> float := SFadd prec emax.
Definition fmul : float -> float -> float := SFmul prec emax.
Definition fdiv : float -> float -> float := SFdiv prec emax.
(** [a <= b] and [a < b]; every comparison with a NaN is false. *)
Definition fleb : float -> float -> bool := SFleb.
Definition fltb : float -> float -> bool := SFltb.

Definition is_finite (x : float) : bool :=
  match x with
  | S754_zero _ | S754_finite _ _ _ => true
  | S754_infinity _ | S754_nan => false
  end.

(** The binary64 value nearest to [num / den] (ties to even), for
    [0 <= num] and [0 < den], with the sign [neg]. *)
Definition float_of_ratio (neg : bool) (num den : Z) : float :=
  if num =? 0 then S754_zero neg
  else
    let '(q, e, l) := SFdiv_core_binary prec emax num 0 den 0 in
    binary_round_aux prec emax neg q e l.

(** The decimal [m * 10^e10] rounded to binary64: how a decimal literal
    or a decimal text is read. *)
Definition float_of_decimal (neg : bool) (m e10 : Z) : float :=
  if 0 <=? e10 then float_of_ratio neg (m * 10 ^ e10) 1
  else float_of_ratio neg m (10 ^ (- e10)).

(** The literal [m / 10^k], as in [3.7 = dec 37 1]. *)
Definition dec (m : Z) (k : Z) : float :=
  float_of_decimal (m <? 0) (Z.abs m) (- k).

(** [float(n)] for an [int]. *)
Definition float_of_int (n : Z) : result float :=
  match binary_normalize prec emax n 0 false with
  | S754_infinity _ => inl OverflowError
  | x => inr x
  end.

(** An [int] literal used where a [float] is expected. *)
Definition fint (n : Z) : float := binary_normalize prec emax n 0 false.

(** [int(x)]: truncation toward zero. *)
Definition int_of_float (x : float) : result Z :=
  match x with
  | S754_nan => inl ValueError
  | S754_infinity _ => inl OverflowError
  | S754_zero _ => inr 0
  | S754_finite s m e => inr (cond_Zopp s (Z.shiftl (Zpos m) e))
  end.

(** [|x| * k] rounded to the nearest integer, ties to even, for a finite
    [x] and a positive integer [k]. *)
Definition scaled_round (k : Z) (x : float) : Z :=
  match x with
  | S754_finite _ m e =>
    if 0 <=? e then k * Zpos m * 2 ^ e
    else
      let n := k * Zpos m in
      let d := 2 ^ (- e) in
      let q := n / d in
      let r := n mod d in
      match 2 * r ?= d with
      | Lt => q
      | Eq => if Z.even q then q else q + 1
      | Gt => q + 1
      end
  | _ => 0
  end.

Definition sign_bit (x : float) : bool :=
  match x with
  | S754_zero s | S754_infinity s | S754_finite s _ _ => s
  | S754_nan => false
  end.

(** A finite [x] rounded to the nearest integer, ties to even. *)
Definition rounded (x : float) : Z := cond_Zopp (sign_bit x) (scaled_round 1 x).

(** [round(x)] with no second argument: the nearest [int]. *)
Definition py_round (x : float) : result Z :=
  match x with
  | S754_nan => inl ValueError
  | S754_infinity _ => inl OverflowError
  | _ => inr (rounded x)
  end.

(** A [float] of the interpreter: a [spec_float] in canonical form. *)
Definition valid_float (x : float) : bool := SpecFloat.valid_binary prec emax x.

(** The decimal digits of [n], left-padded with zeros to [width]. *)
Fixpoint zero_pad (width : nat) (s : str) : str :=
  match width with
  | O => s
  | S w => if (Nat.ltb (List.length s) width) then zero_pad w (48%N :: s) else s
  end.

(** [format(x, ".<nd>f")]: fixed notation with [nd] decimals. *)
Definition format_fixed (nd : nat) (x : float) : str :=
  match x with
  | S754_nan => u "nan"
  | S754_infinity s => if s then u "-inf" else u "inf"
  | _ =>
    let p := 10 ^ Z.of_nat nd in
    let q := scaled_round p x in
    (if sign_bit x then u "-" else [])
      ++ str_of_int (q / p)
      ++ match nd with
         | O => []
         | _ => u "." ++ zero_pad nd (str_of_int (q mod p))
         end
  end.

(** ** Reading a float from text *)

(** A run of decimal digits in which single underscores may separate
    digits: the accumulated value, the number of digits read and the rest
    of the text. *)
Fixpoint digit_run (acc : Z) (count : Z) (after_digit : bool) (s : str)
  : Z * Z * str :=
  match s with
  | [] => (acc, count, [])
  | c :: s' =>
    if is_digit c
    then digit_run (10 * acc + digit_value c) (count + 1) true s'
    else if (c =? 95)%N && after_digit
         then match s' with
              | d :: _ => if is_digit d then digit_run acc count false s'
                          else (acc, count, s)
              | [] => (acc, count, s)
              end
         else (acc, count, s)
  end.

(** The exponent part [e<sign><digits>], or nothing. [None]: malformed. *)
Definition exponent_part (s : str) : option Z :=
  match s with
  | [] => Some 0
  | c :: s1 =>
    if (c =? 101)%N || (c =? 69)%N then
      let '(neg, s2) :=
        match s1 with
        | d :: s2 => if (d =? 45)%N then (true, s2)
                     else if (d =? 43)%N then (false, s2) else (false, s1)
        | [] => (false, s1)
        end in
      let '(v, n, rest) := digit_run 0 0 false s2 in
      match rest with
      | [] => if 0 <? n then Some (if neg then - v else v) else None
      | _ :: _ => None
      end
    else None
  end.

(** An unsigned decimal number: digits, an optional point and fraction,
    an optional exponent. *)
Definition unsigned_float (neg : bool) (s : str) : option float :=
  let '(m1, n1, r1) := digit_run 0 0 false s in
  let '(m2, n2, r2) :=
    match r1 with
    | c :: r => if (c =? 46)%N then digit_run m1 0 false r else (m1, 0, r1)
    | [] => (m1, 0, r1)
    end in
  if 0 <? n1 + n2 then
    match exponent_part r2 with
    | Some e => Some (float_of_decimal neg m2 (e - n2))
    | None => None
    end
  else None.

(** [float(s)] for a [str]; [None] stands for [ValueError]. *)
Definition float_of_str (s : str) : option float :=
  let t := strip_number s in
  let '(neg, body) :=
    match t with
    | c :: t' => if (c =? 45)%N then (true, t')
                 else if (c =? 43)%N then (false, t') else (false, t)
    | [] => (false, t)
    end in
  let l := str_lower body in
  if str_eqb l (u "inf") || str_eqb l (u "infinity")
  then Some (S754_infinity neg)
  else if str_eqb l (u "nan") then Some S754_nan
  else unsigned_float neg body.

(* ===================================================================== *)
(** * Dynamically typed values                                           *)
(* ===================================================================== *)

(** What a slot or a node of a YAML document may hold. The keys of a
    mapping are strings: every key the actions look up is one. A [VDict]
    keeps its items in insertion order. *)
Inductive pyval :=
| VNone
| VBool (b : bool)
| VInt (n : Z)
| VFloat (x : float)
| VStr (s : str)
| VList (items : list pyval)
| VDict (items : list (str * pyval)).

Definition pydict := list (str * pyval).

(** Truth value testing, as in [if v:], [not v], [v or default]. *)
Definition truthy (v : pyval) : bool :=
  match v with
  | VNone => false
  | VBool b => b
  | VInt n => negb (n =? 0)
  | VFloat x => match x with S754_zero _ => false | _ => true end
  | VStr s => match s with [] => false | _ => true end
  | VList l => match l with [] => false | _ => true end
  | VDict d => match d with [] => false | _ => true end
  end.

(** [v or default] *)
Definition py_or (v default : pyval) : pyval :=
  if truthy v then v else default.

(** [d.get(key)] on the items of a mapping. *)
Fixpoint dict_find (d : pydict) (key : str) : option pyval :=
  match d with
  | [] => None
  | (k, v) :: d' => if str_eqb k key then Some v else dict_find d' key
  end.

(** [d.get(key, default)]; the default of the default is [None]. *)
Definition dict_get (d : pydict) (key : str) (default : pyval) : pyval :=
  match dict_find d key with
  | Some v => v
  | None => default
  end.

(** [isinstance(v, int)], with the integer it denotes: [bool] is a subclass
    of [int], and [True] equals [1] wherever values are compared or
    hashed. *)
Definition as_int (v : pyval) : option Z :=
  match v with
  | VInt n => Some n
  | VBool b => Some (if b then 1 else 0)
  | _ => None
  end.

(** [float(v)] *)
Definition py_float (v : pyval) : result float :=
  match v with
  | VFloat x => inr x
  | VInt n => float_of_int n
  | VBool b => inr (fint (if b then 1 else 0))
  | VStr s => match float_of_str s with
              | Some x => inr x
              | None => inl ValueError
              end
  | VNone | VList _ | VDict _ => inl TypeError
  end.

(** [int(v)] *)
Definition py_int (v : pyval) : result Z :=
  match v with
  | VInt n => inr n
  | VBool b => inr (if b then 1 else 0)
  | VFloat x => int_of_float x
  | VStr s => match int_of_str s with
              | Some n => inr n
              | None => inl ValueError
              end
  | VNone | VList _ | VDict _ => inl TypeError
  end.

(** [c[key]] *)
Definition py_getitem (c key : pyval) : result pyval :=
  match c with
  | VDict d =>
    match key with
    | VStr k => match dict_find d k with
                | Some v => inr v
                | None => inl KeyError
                end
    | VList _ | VDict _ => inl TypeError
    | _ => inl KeyError
    end
  | VList l =>
    match as_int key with
    | Some i =>
      let j := if i <? 0 then i + Z.of_nat (List.length l) else i in
      if j <? 0 then inl IndexError
      else match nth_error l (Z.to_nat j) with
           | Some v => inr v
           | None => inl IndexError
           end
    | None => inl TypeError
    end
  | VStr s =>
    match as_int key with
    | Some i =>
      let j := if i <? 0 then i + Z.of_nat (List.length s) else i in
      if j <? 0 then inl IndexError
      else match nth_error s (Z.to_nat j) with
           | Some ch => inr (VStr [ch])
           | None => inl IndexError
           end
    | None => inl TypeError
    end
  | VNone | VBool _ | VInt _ | VFloat _ => inl TypeError
  end.

(** [for x in v]: the items the loop visits. *)
Definition py_iter (v : pyval) : result (list pyval) :=
  match v with
  | VList l => inr l
  | VDict d => inr (map (fun kv => VStr (fst kv)) d)
  | VStr s => inr (map (fun ch => VStr [ch]) s)
  | VNone | VBool _ | VInt _ | VFloat _ => inl TypeError
  end.

(** ** Equality and membership *)

(** [x == n] for a float and an integer: the comparison is exact. *)
Definition float_eq_int (x : float) (n : Z) : bool :=
  match x with
  | S754_zero _ => n =? 0
  | S754_finite s m e =>
    if 0 <=? e then n =? cond_Zopp s (Zpos m) * 2 ^ e
    else n * 2 ^ (- e) =? cond_Zopp s (Zpos m)
  | S754_infinity _ | S754_nan => false
  end.

(** [a == b] *)
Fixpoint py_eq (a b : pyval) : bool :=
  match a, b with
  | VNone, VNone => true
  | VStr s1, VStr s2 => str_eqb s1 s2
  | VList l1, VList l2 =>
    (fix all2 (l1 l2 : list pyval) : bool :=
       match l1, l2 with
       | [], [] => true
       | x :: l1', y :: l2' => py_eq x y && all2 l1' l2'
       | _, _ => false
       end) l1 l2
  | VDict d1, VDict d2 =>
    (List.length d1 =? List.length d2)%nat
    && (fix sub (d : pydict) : bool :=
          match d with
          | [] => true
          | (k, v) :: d' =>
            match dict_find d2 k with
            | Some v' => py_eq v v'
            | None => false
            end && sub d'
          end) d1
  | VFloat x, VFloat y => SFeqb x y
  | VFloat x, (VInt _ | VBool _) =>
    match as_int b with Some n => float_eq_int x n | None => false end
  | (VInt _ | VBool _), VFloat y =>
    match as_int a with Some n => float_eq_int y n | None => false end
  | (VInt _ | VBool _), (VInt _ | VBool _) =>
    match as_int a, as_int b with
    | Some n, Some m => n =? m
    | _, _ => false
    end
  | _, _ => false
  end.

(** [item in container] *)
Definition py_in (item container : pyval) : result bool :=
  match container with
  | VDict d =>
    match item with
    | VStr k => inr (match dict_find d k with Some _ => true | None => false end)
    | VList _ | VDict _ => inl TypeError
    | _ => inr false
    end
  | VList l => inr (existsb (fun x => py_eq x item) l)
  | VStr s =>
    match item with
    | VStr x => inr (contains x s)
    | _ => inl TypeError
    end
  | VNone | VBool _ | VInt _ | VFloat _ => inl TypeError
  end.

(** [item in names] for a set of strings. *)
Definition in_set (item : pyval) (names : list str) : result bool :=
  match item with
  | VStr k => inr (existsb (str_eqb k) names)
  | VList _ | VDict _ => inl TypeError
  | _ => inr false
  end.

(** [v.keys()] *)
Definition keys_method (v : pyval) : result (list str) :=
  match v with
  | VDict d => inr (map fst d)
  | _ => inl AttributeError
  end.


Section Str.
(** [repr] of a float, a list or a mapping: text whose exact shape no
    action depends on. *)
Variable repr_of : pyval -> str.

(** [str(v)], also what an f-string prints for [{v}]. *)
Definition py_str (v : pyval) : str :=
  match v with
  | VStr s => s
  | VInt n => str_of_int n
  | VBool b => if b then u "True" else u "False"
  | VNone => u "None"
  | VFloat _ | VList _ | VDict _ => repr_of v
  end.
End Str.

(* ===================================================================== *)
(** * The dialogue framework                                             *)
(* ===================================================================== *)

(** The slots the actions read and write. *)
Inductive slot_name :=
| admission_group | faculty | general_credits | major_credits
| number_of_courses | current_course_index | current_credit
| current_score | courses
| pending_number | place_type.

Definition slot_eqb (a b : slot_name) : bool :=
  match a, b with
  | admission_group, admission_group | faculty, faculty
  | general_credits, general_credits | major_credits, major_credits
  | number_of_courses, number_of_courses
  | current_course_index, current_course_index
  | current_credit, current_credit | current_score, current_score
  | courses, courses | pending_number, pending_number
  | place_type, place_type => true
  | _, _ => false
  end.

(** The tracker of one conversation, as the actions see it. *)
Record Tracker := {
  sender_id : str;
  slots : slot_name -> pyval;
  latest_text : option str;     (* latest_message.get("text") *)
  latest_intent : option str;   (* latest_message["intent"]["name"] *)
}.

(** [tracker.get_slot(name)] *)
Definition get_slot (t : Tracker) (name : slot_name) : pyval := slots t name.

(** [SlotSet(name, value)] *)
Inductive event := SlotSet (name : slot_name) (value : pyval).

Definition apply_event (t : Tracker) (e : event) : Tracker :=
  let '(SlotSet k v) := e in
  {| sender_id := sender_id t;
     slots := fun k' => if slot_eqb k' k then v else slots t k';
     latest_text := latest_text t;
     latest_intent := latest_intent t |}.

(** The framework applies the events an action returns, in order. *)
Definition apply_events (t : Tracker) (es : list event) : Tracker :=
  fold_left apply_event es t.

(** A validation hook returns a dictionary of slot values, which the
    framework turns into [SlotSet] events. *)
Definition slot_dict := list (slot_name * pyval).

Definition events_of (d : slot_dict) : list event :=
  map (fun kv => SlotSet (fst kv) (snd kv)) d.

(** A line of the GPA report: [f"{i}. {cr:g}кр - {sc:g}% → {letter} ({gpa:.1f})"]. *)
Record GradeLine := {
  line_index : Z;
  line_credit : float;
  line_score : float;
  line_letter : str;
  line_points : float;
}.

(** What the dispatcher is asked to utter. Messages assembled from
    numbers keep the numbers: the text is a rendering of them. *)
Inductive message :=
| Text (text : str)
| Response (template : str)
| DbFailure (e : exn)
    (* f"(DB хадгалалт амжилтгүй: {e})" *)
| TuitionBreakdown (group_label faculty_name : str)
    (gen_cr : float) (gen_rate gen_amount : Z)
    (maj_cr : float) (maj_rate maj_amount : Z)
    (total : Z)
    (* the choice, the two products and "Нийт төлөх төлбөр: {fmt(total)}" *)
| GpaReport (lines : list GradeLine) (total_credits gpa : float).
    (* the lines, "Нийт кредит: {total_credits:g}", "Нийт GPA: {gpa:.2f}" *)

(** An action: the exception it raised or the value it returned, and the
    messages it gave to the dispatcher. *)
Definition Act (A : Type) := (result A * list message)%type.

Definition ret {A} (a : A) : Act A := (inr a, []).

Definition raise {A} (e : exn) : Act A := (inl e, []).

Definition bind {A B} (c : Act A) (k : A -> Act B) : Act B :=
  match c with
  | (inl e, out) => (inl e, out)
  | (inr a, out) => let '(r, out') := k a in (r, out ++ out')
  end.

(** [dispatcher.utter_message(...)] *)
Definition utter (m : message) : Act unit := (inr tt, [m]).

(** A computation that may raise, run inside an action. *)
Definition lift {A} (r : result A) : Act A := (r, []).

Notation "x <- c ;; k" := (bind c (fun x => k))
  (at level 61, c at next level, right associativity).
Notation "c ;;; k" := (bind c (fun _ => k))
  (at level 61, right associativity).

(** The same sequencing for computations that only may raise. *)
Definition rbind {A B} (c : result A) (k : A -> result B) : result B :=
  match c with
  | inl e => inl e
  | inr a => k a
  end.

Notation "x <-r c ;; k" := (rbind c (fun x => k))
  (at level 61, c at next level, right associativity).

(* ===================================================================== *)
(** * Regular expressions                                                *)
(* ===================================================================== *)

(** The patterns of the location helpers are sequences of character
    classes under a greedy repetition, with one capturing group and the
    anchors [^] and [$]. *)
Inductive item :=
| Bos                                                  (* ^ *)
| Eos                                                  (* $ *)
| Rep (c : char -> bool) (lo : nat) (hi : option nat)   (* c{lo,hi} *)
| Group (c : char -> bool) (lo : nat) (hi : option nat). (* (c{lo,hi}) *)

(** The length of the longest prefix of [s] in the class [c], at most [hi]. *)
Fixpoint count_prefix (c : char -> bool) (hi : option nat) (s : str) : nat :=
  match hi, s with
  | Some O, _ => O
  | _, [] => O
  | _, x :: s' =>
    if c x then S (count_prefix c (option_map Nat.pred hi) s') else O
  end.

(** Backtracking of a greedy repetition: the longest run first, then
    shorter ones, down to [lo]. *)
Fixpoint try_lengths {R} (k lo : nat) (cont : nat -> option R) : option R :=
  if Nat.ltb k lo then None
  else
    match cont k with
    | Some r => Some r
    | None =>
      match k with
      | O => None
      | S k' => try_lengths k' lo cont
      end
    end.

(** Matching of a pattern at the current position: [at_start] tells
    whether this position is the start of the text, [g] is the text of
    group 1 so far. The result is the text of group 1. *)
Fixpoint match_here (p : list item) (at_start : bool) (g : str) (s : str)
  : option str :=
  match p with
  | [] => Some g
  | Bos :: p' => if at_start then match_here p' at_start g s else None
  | Eos :: p' =>
    match s with
    | [] => match_here p' at_start g s
    | [c] => if (c =? 10)%N then match_here p' at_start g s else None
    | _ => None
    end
  | Rep c lo hi :: p' =>
    try_lengths (count_prefix c hi s) lo
      (fun k => match_here p' (at_start && Nat.eqb k 0) g (skipn k s))
  | Group c lo hi :: p' =>
    try_lengths (count_prefix c hi s) lo
      (fun k => match_here p' (at_start && Nat.eqb k 0) (firstn k s) (skipn k s))
  end.

(** [pattern.match(s)], reduced to group 1 of the match object. *)
Definition re_match (p : list item) (s : str) : option str :=
  match_here p true [] s.

Fixpoint search_from (p : list item) (at_start : bool) (s : str) : option str :=
  match match_here p at_start [] s with
  | Some g => Some g
  | None =>
    match s with
    | [] => None
    | _ :: s' => search_from p false s'
    end
  end.

(** [pattern.search(s)]: the leftmost match. *)
Definition re_search (p : list item) (s : str) : option str :=
  search_from p true s.

(** The first character of a one-character literal. *)
Definition ch (s : string) : char := hd 0%N (u s).

(** A literal character under [re.IGNORECASE]. *)
Definition ci (l : char) : char -> bool :=
  fun x => char_eqb (lower x) (lower l).

Definition lit (l : char) : item := Rep (ci l) 1 (Some 1%nat).

(* ===================================================================== *)
(** * Tuition                                                            *)
(* ===================================================================== *)

(** ** The store of tuition runs ([tuition.db]) *)

(** A row of [tuition_runs] ([id] and [created_at] left out). *)
Record TuitionRun := {
  user_id : Z;
  run_admission_group : str;
  run_faculty : str;
  run_general_credits : float;
  run_major_credits : float;
  run_general_rate : float;
  run_major_rate : float;
  total_tuition : float;
}.

(** The two tables: [users] with its unique [sender_id], and the
    append-only [tuition_runs]. [user_seq] is the row that
    [sqlite_sequence] keeps for the AUTOINCREMENT key of [users]: the
    largest id an INSERT has asked for so far. *)
Record Database := {
  users : list (Z * str);
  user_seq : Z;
  tuition_runs : list TuitionRun;
}.

(** The store at the time of a turn: it works, or opening it or one of
    its statements raises [e]. *)
Inductive Store :=
| Online (db : Database)
| Failing (e : exn).

Fixpoint find_user (us : list (Z * str)) (sender : str) : option Z :=
  match us with
  | [] => None
  | (id, s) :: us' => if str_eqb s sender then Some id else find_user us' sender
  end.

(** The id an INSERT into [users] asks for: one more than the largest
    of the sequence and the ids in the table. *)
Definition next_user_id (db : Database) : Z :=
  1 + Z.max (user_seq db)
            (fold_right (fun r m => Z.max (fst r) m) 0 (users db)).

(** [ensure_user]: INSERT OR IGNORE, then SELECT the id. The INSERT asks
    for an id and moves the sequence to it also when the row is ignored
    because the sender is registered. *)
Definition ensure_user (db : Database) (sender : str) : Z * Database :=
  let id := next_user_id db in
  match find_user (users db) sender with
  | Some uid => (uid, {| users := users db;
                         user_seq := id;
                         tuition_runs := tuition_runs db |})
  | None => (id, {| users := users db ++ [(id, sender)];
                    user_seq := id;
                    tuition_runs := tuition_runs db |})
  end.

(** The body of the [with get_conn() as conn:] block: on an exception the
    transaction is rolled back and the store is as before. *)
Definition save_run (store : Store) (sender : str) (row : Z -> TuitionRun)
  : result unit * Store :=
  match store with
  | Failing e => (inl e, store)
  | Online db =>
    let '(uid, db1) := ensure_user db sender in
    (inr tt, Online {| users := users db1;
                       user_seq := user_seq db1;
                       tuition_runs := tuition_runs db1 ++ [row uid] |})
  end.

(** [fmt(n)]: [f"{int(round(n)):,}"], kept as the integer it prints. *)
Definition fmt (n : float) : result Z := py_round n.

Definition msg_tuition_missing : str :=
  u "Мэдээлэл дутуу байна. Дахиад 'төлбөр бодоорой' гэж эхлүүлнэ үү.".

Definition msg_pricing_not_found : str :=
  u "Уучлаарай, сонгосон өгөгдлийн үнэ хүснэгтээс олдсонгүй.".

Definition msg_general_credits : str :=
  u "Ерөнхий суурь кредитийг 0-ээс их эсвэл тэнцүү тоогоор оруулна уу.".

Definition msg_major_credits : str :=
  u "Мэргэжлийн суурь/мэргэших кредитийг 0-ээс их эсвэл тэнцүү тоогоор оруулна уу.".

(** The label of an admission group. *)
Definition group_label (g : str) : str :=
  if str_eqb g (u "before_2024_2025") then u "2024–2025 оноос өмнө"
  else if str_eqb g (u "2024_2025") then u "2024–2025"
  else if str_eqb g (u "2025_2026") then u "2025–2026"
  else g.

Section Tuition.
Variable repr_of : pyval -> str.

(** [_to_float] *)
Definition _to_float (value : pyval) : option float :=
  match value with
  | VNone => None
  | VInt _ | VFloat _ | VBool _ =>
    match py_float value with
    | inr x => Some x
    | inl _ => None
    end
  | _ =>
    float_of_str
      (replace_char (ch ",") (ch ".") (strip (py_str repr_of value)))
  end.

(** [_to_float(v) or 0.0] *)
Definition float_or_zero (v : pyval) : float :=
  match _to_float v with
  | Some x => if truthy (VFloat x) then x else S754_zero false
  | None => S754_zero false
  end.

(** [ValidateTuitionForm.validate_general_credits] *)
Definition validate_general_credits (slot_value : pyval) : Act slot_dict :=
  match _to_float slot_value with
  | Some v =>
    if fltb v (fint 0) then
      utter (Text msg_general_credits) ;;; ret [(general_credits, VNone)]
    else ret [(general_credits, VFloat v)]
  | None =>
    utter (Text msg_general_credits) ;;; ret [(general_credits, VNone)]
  end.

(** [ValidateTuitionForm.validate_major_credits] *)
Definition validate_major_credits (slot_value : pyval) : Act slot_dict :=
  match _to_float slot_value with
  | Some v =>
    if fltb v (fint 0) then
      utter (Text msg_major_credits) ;;; ret [(major_credits, VNone)]
    else ret [(major_credits, VFloat v)]
  | None =>
    utter (Text msg_major_credits) ;;; ret [(major_credits, VNone)]
  end.

(** The rates of [pricing[group][faculty]]:
    [float(rates["general"])] and [float(rates["major"])]. *)
Definition lookup_rates (pricing group fac : pyval) : result (float * float) :=
  by_group <-r py_getitem pricing group ;;
  rates <-r py_getitem by_group fac ;;
  g <-r py_getitem rates (VStr (u "general")) ;;
  gen_rate <-r py_float g ;;
  m <-r py_getitem rates (VStr (u "major")) ;;
  maj_rate <-r py_float m ;;
  inr (gen_rate, maj_rate).

(** [ActionCalculateTuition.run]. [pricing_doc] is the document that
    [_load_pricing] reads from [pricing.yml]; the result carries the
    store after the turn. *)
Definition ActionCalculateTuition_run
    (pricing_doc : pyval) (store : Store) (tracker : Tracker)
  : Act (list event) * Store :=
  let pricing := py_or pricing_doc (VDict []) in
  let group := get_slot tracker admission_group in
  let fac := get_slot tracker faculty in
  let gen_cr := float_or_zero (get_slot tracker general_credits) in
  let maj_cr := float_or_zero (get_slot tracker major_credits) in
  if negb (truthy group) || negb (truthy fac) then
    (utter (Text msg_tuition_missing) ;;; ret [], store)
  else
    match lookup_rates pricing group fac with
    | inl _ =>
      (utter (Text msg_pricing_not_found) ;;; ret [], store)
    | inr (gen_rate, maj_rate) =>
      let total := fadd (fmul gen_cr gen_rate) (fmul maj_cr maj_rate) in
      let '(saved, store') :=
        save_run store (sender_id tracker)
          (fun uid =>
             {| user_id := uid;
                run_admission_group := py_str repr_of group;
                run_faculty := py_str repr_of fac;
                run_general_credits := gen_cr;
                run_major_credits := maj_cr;
                run_general_rate := gen_rate;
                run_major_rate := maj_rate;
                total_tuition := total |}) in
      ((match saved with
        | inl e => utter (DbFailure e)
        | inr _ => ret tt
        end ;;;
        gen_rate_s <- lift (fmt gen_rate) ;;
        gen_amount_s <- lift (fmt (fmul gen_cr gen_rate)) ;;
        maj_rate_s <- lift (fmt maj_rate) ;;
        maj_amount_s <- lift (fmt (fmul maj_cr maj_rate)) ;;
        total_s <- lift (fmt total) ;;
        utter (TuitionBreakdown
                 (group_label (py_str repr_of group)) (py_str repr_of fac)
                 gen_cr gen_rate_s gen_amount_s
                 maj_cr maj_rate_s maj_amount_s total_s) ;;;
        ret []),
       store')
    end.
End Tuition.

(** ** The choices of the tuition form *)

Definition msg_choose_group : str := u "Сонголтоо товч дээр дарж сонгоорой.".
Definition msg_group_first : str := u "Эхлээд элсэлтийн оноо сонгоорой.".
Definition msg_choose_faculty : str :=
  u "Бүрэлдэхүүн/салбараа товч дээр дарж сонгоорой.".

Definition intent_to_group : list (str * str) :=
  [(u "choose_admission_before_2024_2025", u "before_2024_2025");
   (u "choose_admission_2024_2025", u "2024_2025");
   (u "choose_admission_2025_2026", u "2025_2026")].

Definition allowed : list str :=
  [u "before_2024_2025"; u "2024_2025"; u "2025_2026"].

(** [intent_to_group[intent]] when [intent in intent_to_group] *)
Fixpoint table_find (table : list (str * str)) (key : str) : option str :=
  match table with
  | [] => None
  | (k, v) :: rest => if str_eqb k key then Some v else table_find rest key
  end.

(** [ValidateTuitionForm.validate_admission_group] *)
Definition validate_admission_group (slot_value : pyval) (tracker : Tracker)
  : Act slot_dict :=
  match match latest_intent tracker with
        | Some intent => table_find intent_to_group intent
        | None => None
        end with
  | Some group => ret [(admission_group, VStr group)]
  | None =>
    member <- lift (in_set slot_value allowed) ;;
    if member then ret [(admission_group, slot_value)]
    else utter (Text msg_choose_group) ;;; ret [(admission_group, VNone)]
  end.

(** [ValidateTuitionForm.validate_faculty]; [pricing_doc] is the document
    [_load_pricing] reads. *)
Definition validate_faculty (pricing_doc slot_value : pyval)
           (tracker : Tracker) : Act slot_dict :=
  let pricing := py_or pricing_doc (VDict []) in
  let group := get_slot tracker admission_group in
  known <- lift (if truthy group then py_in group pricing else inr false) ;;
  if negb known then
    utter (Text msg_group_first) ;;; ret [(faculty, VNone)]
  else
    by_group <- lift (py_getitem pricing group) ;;
    faculties <- lift (keys_method by_group) ;;
    member <- lift (in_set slot_value faculties) ;;
    if member then ret [(faculty, slot_value)]
    else utter (Text msg_choose_faculty) ;;; ret [(faculty, VNone)].


(* ===================================================================== *)
(** * GPA                                                                *)
(* ===================================================================== *)

Record GradeMap := { letter : str; gpa : float }.

(** [score_to_grade] *)
Definition score_to_grade (score : float) : GradeMap :=
  let s := score in
  if fleb (fint 90) s then {| letter := u "A+"; gpa := dec 40 1 |}
  else if fleb (fint 85) s && fleb s (fint 89)
  then {| letter := u "A-"; gpa := dec 37 1 |}
  else if fleb (fint 80) s && fleb s (fint 84)
  then {| letter := u "B+"; gpa := dec 33 1 |}
  else if fleb (fint 75) s && fleb s (fint 79)
  then {| letter := u "B"; gpa := dec 30 1 |}
  else if fleb (fint 70) s && fleb s (fint 74)
  then {| letter := u "C-"; gpa := dec 19 1 |}
  else if fleb (fint 65) s && fleb s (fint 69)
  then {| letter := u "C"; gpa := dec 20 1 |}
  else if fleb (fint 60) s && fleb s (fint 64)
  then {| letter := u "D"; gpa := dec 10 1 |}
  else {| letter := u "F"; gpa := dec 0 1 |}.

Definition msg_count_not_number : str := u "Тоогоор оруулна уу. Жишээ: 2".
Definition msg_count_range : str := u "Хичээлийн тоо 1-50 хооронд байх ёстой.".
Definition msg_credit_not_number : str :=
  u "Кредитийг тоогоор оруулна уу. Жишээ: 3".
Definition msg_credit_range : str := u "Кредит 0-30 хооронд байх ёстой.".
Definition msg_score_not_number : str := u "Дүнг тоогоор оруулна уу. Жишээ: 95".
Definition msg_score_range : str := u "Дүн 0-100 хооронд байх ёстой.".
Definition msg_no_courses : str :=
  u "Хичээлийн мэдээлэл алга байна. Дахин эхлүүлье.".

Definition k_credit : str := u "credit".
Definition k_score : str := u "score".

(** [{"credit": credit, "score": s}] *)
Definition course_entry (credit s : float) : pyval :=
  VDict [(k_credit, VFloat credit); (k_score, VFloat s)].

(** [int(float(slot_value))], the course count that is validated. *)
Definition course_count_of (slot_value : pyval) : result Z :=
  x <-r py_float slot_value ;; int_of_float x.

(** [ValidateGpaForm.validate_number_of_courses] *)
Definition validate_number_of_courses (slot_value : pyval) : Act slot_dict :=
  match course_count_of slot_value with
  | inl _ =>
    utter (Text msg_count_not_number) ;;;
    ret [(number_of_courses, VNone)]
  | inr n =>
    if negb ((1 <=? n) && (n <=? 50)) then
      utter (Text msg_count_range) ;;;
      ret [(number_of_courses, VNone)]
    else
      ret [(number_of_courses, VInt n);
           (current_course_index, VInt 1);
           (courses, VList [])]
  end.

(** [ValidateGpaForm.validate_current_credit] *)
Definition validate_current_credit (slot_value : pyval) : Act slot_dict :=
  match py_float slot_value with
  | inl _ =>
    utter (Text msg_credit_not_number) ;;;
    ret [(current_credit, VNone)]
  | inr c =>
    if negb (fltb (fint 0) c && fleb c (fint 30)) then
      utter (Text msg_credit_range) ;;;
      ret [(current_credit, VNone)]
    else
      ret [(current_credit, VFloat c)]
  end.

(** [ValidateGpaForm.validate_current_score] *)
Definition validate_current_score (slot_value : pyval) (tracker : Tracker)
  : Act slot_dict :=
  match py_float slot_value with
  | inl _ =>
    utter (Text msg_score_not_number) ;;;
    ret [(current_score, VNone)]
  | inr s =>
    if negb (fleb (fint 0) s && fleb s (fint 100)) then
      utter (Text msg_score_range) ;;;
      ret [(current_score, VNone)]
    else
      n <- lift (py_int (py_or (get_slot tracker number_of_courses) (VInt 0))) ;;
      idx <- lift (x <-r py_float (py_or (get_slot tracker current_course_index)
                                        (VInt 1)) ;;
                   int_of_float x) ;;
      credit <- lift (py_float (py_or (get_slot tracker current_credit)
                                      (VInt 0))) ;;
      let courses0 := py_or (get_slot tracker courses) (VList []) in
      let courses1 := match courses0 with VList l => l | _ => [] end in
      let courses2 := courses1 ++ [course_entry credit s] in
      let next_idx := idx + 1 in
      if next_idx <=? n then
        ret [(courses, VList courses2);
             (current_course_index, VInt next_idx);
             (current_credit, VNone);
             (current_score, VNone)]
      else
        ret [(courses, VList courses2); (current_score, VFloat s)]
  end.

(** The events both exits of [ActionCalculateGpa.run] return. *)
Definition gpa_reset : list event :=
  [SlotSet number_of_courses VNone;
   SlotSet current_course_index (VInt 1);
   SlotSet current_credit VNone;
   SlotSet current_score VNone;
   SlotSet courses (VList [])].

(** The loop of [ActionCalculateGpa.run] over [enumerate(courses, start=1)]:
    the running total of credits, of quality points, and the lines. *)
Fixpoint gpa_loop (items : list pyval) (i : Z)
         (total_credits total_points : float) (lines : list GradeLine)
  : result (float * float * list GradeLine) :=
  match items with
  | [] => inr (total_credits, total_points, lines)
  | c :: rest =>
    crv <-r py_getitem c (VStr k_credit) ;;
    cr <-r py_float crv ;;
    scv <-r py_getitem c (VStr k_score) ;;
    sc <-r py_float scv ;;
    let g := score_to_grade sc in
    gpa_loop rest (i + 1)
      (fadd total_credits cr)
      (fadd total_points (fmul cr (gpa g)))
      (lines ++ [{| line_index := i; line_credit := cr; line_score := sc;
                    line_letter := letter g; line_points := gpa g |}])
  end.

(** [ActionCalculateGpa.run] *)
Definition ActionCalculateGpa_run (tracker : Tracker) : Act (list event) :=
  let cs := py_or (get_slot tracker courses) (VList []) in
  if negb (truthy cs) then
    utter (Text msg_no_courses) ;;;
    ret gpa_reset
  else
    items <- lift (py_iter cs) ;;
    r <- lift (gpa_loop items 1 (S754_zero false) (S754_zero false) []) ;;
    let '(total_credits, total_points, lines) := r in
    let gpa :=
      if fltb (fint 0) total_credits then fdiv total_points total_credits
      else S754_zero false in
    utter (GpaReport lines total_credits gpa) ;;;
    ret gpa_reset.

(** ** The prompts of the GPA form *)

Definition ask_credit_text (idx : Z) : str :=
  u "📌 " ++ str_of_int idx ++ u "-р хичээл — кредит хэд вэ? (ж: 3кр)".

Definition ask_score_text (idx : Z) : str :=
  u "📝 " ++ str_of_int idx ++ u "-р хичээл — дүн хэд вэ? (0–100)".

(** [ActionAskCurrentCredit.run] *)
Definition ActionAskCurrentCredit_run (tracker : Tracker) : Act (list event) :=
  idx <- lift (x <-r py_float (py_or (get_slot tracker current_course_index)
                                    (VInt 1)) ;;
               int_of_float x) ;;
  utter (Text (ask_credit_text idx)) ;;;
  ret [].

(** [ActionAskCurrentScore.run] *)
Definition ActionAskCurrentScore_run (tracker : Tracker) : Act (list event) :=
  idx <- lift (x <-r py_float (py_or (get_slot tracker current_course_index)
                                    (VInt 1)) ;;
               int_of_float x) ;;
  utter (Text (ask_score_text idx)) ;;;
  ret [].


(* ===================================================================== *)
(** * Locations                                                          *)
(* ===================================================================== *)

Definition is_dash (c : char) : bool :=
  ((c =? 45) || (8208 <=? c) && (c <=? 8211) || (c =? 8212))%N.

Definition spaces : item := Rep is_space 0 None.

(** [^\s*(\d{1,2})\s*$] *)
Definition NUM_ONLY_RE : list item :=
  [Bos; spaces; Group is_digit 1 (Some 2%nat); spaces; Eos].

(** [^\s*(\d{1,2})\s*[-‐-–—]?\s*р?\s*байр\s*$], ignoring case *)
Definition BAIR_RE : list item :=
  [Bos; spaces; Group is_digit 1 (Some 2%nat); spaces;
   Rep is_dash 0 (Some 1%nat); spaces;
   Rep (ci (ch "р")) 0 (Some 1%nat); spaces;
   lit (ch "б"); lit (ch "а"); lit (ch "й"); lit (ch "р");
   spaces; Eos].

(** [(\d{1,2})\s*[-‐-–—]?\s*р?\s*бай[аa]р], ignoring case *)
Definition BAIR_LOOSE_RE : list item :=
  [Group is_digit 1 (Some 2%nat); spaces;
   Rep is_dash 0 (Some 1%nat); spaces;
   Rep (ci (ch "р")) 0 (Some 1%nat); spaces;
   lit (ch "б"); lit (ch "а"); lit (ch "й");
   Rep (fun x => ci (ch "а") x || ci (ch "a") x) 1 (Some 1%nat);
   lit (ch "р")].

Definition kind_dorm : str := u "dorm".
Definition kind_class : str := u "class".

Definition FORBIDDEN : list (str * Z) := [(kind_dorm, 4); (kind_class, 6)].

(** [(kind, num) in FORBIDDEN] *)
Definition forbidden (kind : str) (num : Z) : bool :=
  existsb (fun kn => str_eqb (fst kn) kind && (snd kn =? num)) FORBIDDEN.

(** [(kind, num) in FORBIDDEN] for a number of any type: a pair is found
    when its parts are equal to those of a member, and [4.0 == 4]. *)
Definition in_forbidden (kind : str) (num : pyval) : bool :=
  existsb (fun kn => str_eqb (fst kn) kind && py_eq num (VInt (snd kn)))
          FORBIDDEN.

(** [re.sub(r"\s+", " ", s)] *)
Fixpoint collapse_spaces (in_run : bool) (s : str) : str :=
  match s with
  | [] => []
  | c :: s' =>
    if is_space c
    then if in_run then collapse_spaces true s'
         else 32%N :: collapse_spaces true s'
    else c :: collapse_spaces false s'
  end.

Definition is_quote (c : char) : bool :=
  ((c =? 8220) || (c =? 8221) || (c =? 34) || (c =? 39) || (c =? 96))%N.

Definition is_bracket_or_punct (c : char) : bool :=
  ((c =? 44) || (c =? 46) || (c =? 40) || (c =? 41)
   || (c =? 91) || (c =? 93) || (c =? 123) || (c =? 125))%N.

(** [norm] *)
Definition norm (s : str) : str :=
  let s := str_lower (strip s) in
  let s := replace_char (ch "ё") (ch "е") s in
  let s := filter (fun c => negb (is_quote c)) s in
  let s := map (fun c => if is_bracket_or_punct c then 32%N else c) s in
  strip (collapse_spaces false s).

(** [detect_kind] *)
Definition detect_kind (text : str) : option str :=
  let t := norm text in
  if contains (u "дотуур") t || contains (u "dorm") t then Some kind_dorm
  else if contains (u "хичээл") t || contains (u "хичээлийн") t
          || contains (u "сургуулийн") t || contains (u "academic") t
  then Some kind_class
  else None.

(** [extract_number]. Group 1 is one or two digits, on which [int] does
    not raise. *)
Definition extract_number (text : str) : option Z :=
  let t := strip text in
  match re_match NUM_ONLY_RE t with
  | Some g => int_of_str g
  | None =>
    match re_match BAIR_RE t with
    | Some g => int_of_str g
    | None =>
      match re_search BAIR_LOOSE_RE t with
      | Some g => int_of_str g
      | None => None
      end
    end
  end.

(** [is_list_request] *)
Definition is_list_request (text : str) : bool :=
  let t := norm text in
  existsb (str_eqb t)
    [u "байршлууд"; u "жагсаалт"; u "locations"; u "list"; u "байршилууд"].

(** ** The catalog *)

(** A Python [dict] used as an index: keys in insertion order; assigning
    to a key already present replaces its value in place. *)
Fixpoint index_set {K} (eqb : K -> K -> bool) (k : K) (v : pydict)
         (d : list (K * pydict)) : list (K * pydict) :=
  match d with
  | [] => [(k, v)]
  | (k', v') :: d' =>
    if eqb k' k then (k', v) :: d' else (k', v') :: index_set eqb k v d'
  end.

(** [index.get(k)] *)
Fixpoint index_get {K} (eqb : K -> K -> bool) (k : K)
         (d : list (K * pydict)) : option pydict :=
  match d with
  | [] => None
  | (k', v) :: d' => if eqb k' k then Some v else index_get eqb k d'
  end.

Definition kn_eqb (a b : str * Z) : bool :=
  str_eqb (fst a) (fst b) && (snd a =? snd b).

(** What [load_places] returns. *)
Record Catalog := {
  alias_index : list (str * pydict);
  kind_num_index : list ((str * Z) * pydict);
  all_places : list pydict;
}.

Definition k_kind : str := u "kind".
Definition k_number : str := u "number".
Definition k_aliases : str := u "aliases".
Definition k_title : str := u "title".
Definition k_url : str := u "url".

Definition msg_not_available : str :=
  u "Уучлаарай, тэр байрны мэдээлэл энэ бот дээр байхгүй байна.".
Definition msg_number_not_found : str :=
  u "Уучлаарай, тэр дугаартай байршил олдсонгүй. Дахиад нэрээр нь бичээд үзээрэй.".
Definition msg_choose_kind : str :=
  u "“хичээлийн байр” эсвэл “дотуур байр” гэж хариулаарай 🙂".
Definition msg_place_not_found : str :=
  u "Уучлаарай, тэр байршлыг олсонгүй 😅 “байршлууд” гэж бичээд жагсаалтыг хараарай.".
Definition msg_link_missing : str :=
  u "(⚠️ Google Maps линк одоогоор locations.yml дээр байхгүй байна — линкээ нэмээд дахин туршаарай.)".
Definition msg_list_header : str := u "Боломжтой байршлууд:".
Definition newline : str := [10%N].

Section Locations.
Variable repr_of : pyval -> str.

(** The first loop of [load_places] on one raw entry: [None] when the
    entry is skipped. *)
Definition keep_place (p : pyval) : option pydict :=
  match p with
  | VDict d =>
    let kind := py_str repr_of (py_or (dict_get d k_kind VNone) (VStr [])) in
    let num := dict_get d k_number VNone in
    match as_int num with
    | Some n => if forbidden kind n then None else Some d
    | None => Some d
    end
  | _ => None
  end.

Fixpoint keep_places (raw : list pyval) : list pydict :=
  match raw with
  | [] => []
  | p :: raw' =>
    match keep_place p with
    | Some d => d :: keep_places raw'
    | None => keep_places raw'
    end
  end.

(** [for a in aliases: alias_index[norm(str(a))] = p] *)
Definition add_aliases (p : pydict) (aliases : list pyval)
           (ai : list (str * pydict)) : list (str * pydict) :=
  fold_left (fun ai a => index_set str_eqb (norm (py_str repr_of a)) p ai)
            aliases ai.

(** The registration of [p] in the index by kind and number. *)
Definition add_kind_num (p : pydict) (kni : list ((str * Z) * pydict))
  : list ((str * Z) * pydict) :=
  let kind := dict_get p k_kind VNone in
  let num := dict_get p k_number VNone in
  match as_int num with
  | Some n =>
    if truthy kind then index_set kn_eqb (py_str repr_of kind, n) p kni
    else kni
  | None => kni
  end.

(** The second loop of [load_places]. *)
Fixpoint build_indexes (places : list pydict)
         (ai : list (str * pydict)) (kni : list ((str * Z) * pydict))
  : result (list (str * pydict) * list ((str * Z) * pydict)) :=
  match places with
  | [] => inr (ai, kni)
  | p :: rest =>
    aliases <-r py_iter (py_or (dict_get p k_aliases (VList [])) (VList [])) ;;
    build_indexes rest (add_aliases p aliases ai) (add_kind_num p kni)
  end.

(** [load_places]; [data] is the document read from [locations.yml]. *)
Definition load_places (data : pyval) : result Catalog :=
  let raw_places :=
    match data with
    | VDict d => dict_get d (u "places") (VList [])
    | _ => VList []
    end in
  raw <-r py_iter raw_places ;;
  let places := keep_places raw in
  idx <-r build_indexes places [] [] ;;
  inr {| alias_index := fst idx;
         kind_num_index := snd idx;
         all_places := places |}.

(** [s.strip()] on a value: only a [str] has the method. *)
Definition strip_method (v : pyval) : result str :=
  match v with
  | VStr s => inr (strip s)
  | _ => inl AttributeError
  end.

(** [say_place] *)
Definition say_place (place : pydict) : Act unit :=
  let title := dict_get place k_title (VStr (u "Байршил")) in
  url <- lift (strip_method (py_or (dict_get place k_url VNone) (VStr []))) ;;
  if truthy (VStr url) then
    utter (Text (py_str repr_of title ++ newline ++ url))
  else
    utter (Text (py_str repr_of title ++ newline ++ msg_link_missing)).

(** [place_type if place_type in {"class", "dorm"} else None]: hashing
    a list or a mapping raises. *)
Definition kind_of_slot (v : pyval) : result (option str) :=
  match v with
  | VStr s =>
    inr (if str_eqb s kind_class || str_eqb s kind_dorm then Some s else None)
  | VList _ | VDict _ => inl TypeError
  | _ => inr None
  end.

(** The lines of the list reply. *)
Fixpoint title_lines (places : list pydict) : list str :=
  match places with
  | [] => []
  | p :: rest =>
    let title := dict_get p k_title VNone in
    if truthy title
    then (u "• " ++ py_str repr_of title) :: title_lines rest
    else title_lines rest
  end.

(** [for a_norm, p in _ALIAS_INDEX.items(): if a_norm and a_norm in ntext] *)
Fixpoint first_alias_in (ai : list (str * pydict)) (ntext : str)
  : option pydict :=
  match ai with
  | [] => None
  | (a_norm, p) :: rest =>
    if truthy (VStr a_norm) && contains a_norm ntext then Some p
    else first_alias_in rest ntext
  end.

(** [place = index.get(key)] followed by [if place:]. *)
Definition found (place : option pydict) : option pydict :=
  match place with
  | Some p => if truthy (VDict p) then Some p else None
  | None => None
  end.

(** [ActionSendLocation.run]; [cat] holds the three module-level
    indexes [_ALIAS_INDEX], [_KIND_NUM_INDEX] and [_ALL_PLACES]. *)
Definition ActionSendLocation_run (cat : Catalog) (tracker : Tracker)
  : Act (list event) :=
  let text := strip (match latest_text tracker with
                     | Some s => s
                     | None => []
                     end) in
  let intent := latest_intent tracker in
  let pending := get_slot tracker pending_number in
  let ptype := get_slot tracker place_type in
  if match intent with
     | Some i => str_eqb i (u "choose_place_type")
     | None => false
     end && truthy pending
  then
    chosen <- match detect_kind text with
              | Some k => ret (Some k)
              | None => lift (kind_of_slot ptype)
              end ;;
    match chosen with
    | None => utter (Text msg_choose_kind) ;;; ret []
    | Some chosen_kind =>
      let num := int_of_str (py_str repr_of pending) in
      let not_found :=
        utter (Text msg_number_not_found) ;;;
        ret [SlotSet pending_number VNone] in
      match num with
      | Some n =>
        if forbidden chosen_kind n then
          utter (Text msg_not_available) ;;;
          ret [SlotSet pending_number VNone;
               SlotSet place_type (VStr chosen_kind)]
        else
          match found (index_get kn_eqb (chosen_kind, n) (kind_num_index cat)) with
          | Some place =>
            say_place place ;;;
            ret [SlotSet pending_number VNone;
                 SlotSet place_type (VStr chosen_kind)]
          | None => not_found
          end
      | None => not_found
      end
    end
  else if is_list_request text then
    utter (Text (join newline (msg_list_header :: title_lines (all_places cat)))) ;;;
    ret []
  else
    let kind := detect_kind text in
    let num := extract_number text in
    let pattern_matches :=
      match re_match NUM_ONLY_RE text, re_match BAIR_RE text,
            re_search BAIR_LOOSE_RE text with
      | None, None, None => false
      | _, _, _ => true
      end in
    let alias_steps :=
      let ntext := norm text in
      match found (index_get str_eqb ntext (alias_index cat)) with
      | Some place => say_place place ;;; ret []
      | None =>
        match first_alias_in (alias_index cat) ntext with
        | Some p => say_place p ;;; ret []
        | None => utter (Text msg_place_not_found) ;;; ret []
        end
      end in
    match num, kind with
    | Some n, None =>
      if pattern_matches then
        utter (Response (u "utter_ask_place_type")) ;;;
        ret [SlotSet pending_number (VStr (str_of_int n))]
      else alias_steps
    | Some n, Some k =>
      if str_eqb k kind_class || str_eqb k kind_dorm then
        if forbidden k n then
          utter (Text msg_not_available) ;;;
          ret [SlotSet place_type (VStr k); SlotSet pending_number VNone]
        else
          match found (index_get kn_eqb (k, n) (kind_num_index cat)) with
          | Some place =>
            say_place place ;;;
            ret [SlotSet place_type (VStr k); SlotSet pending_number VNone]
          | None => utter (Text msg_number_not_found) ;;; ret []
          end
      else alias_steps
    | None, _ => alias_steps
    end.
End Locations.

(* ===================================================================== *)
(** * Sessions                                                           *)
(* ===================================================================== *)

(** A conversation that has just started: no slot is set. *)
Definition new_tracker (sender : str) : Tracker :=
  {| sender_id := sender;
     slots := fun _ => VNone;
     latest_text := None;
     latest_intent := None |}.

(** The tracker when the next user message arrives. *)
Definition with_message (t : Tracker) (text : str) (intent : option str)
  : Tracker :=
  {| sender_id := sender_id t;
     slots := slots t;
     latest_text := Some text;
     latest_intent := intent |}.

(** The tracker after an action: its events are applied when it returns,
    nothing changes when it raises. *)
Definition after_action (t : Tracker) (a : Act (list event)) : Tracker :=
  match fst a with
  | inr es => apply_events t es
  | inl _ => t
  end.

(** The tracker after a validation hook. *)
Definition after_validation (t : Tracker) (a : Act slot_dict) : Tracker :=
  match fst a with
  | inr d => apply_events t (events_of d)
  | inl _ => t
  end.

(** ** The GPA form *)

(** A course entry as the data model has it: a credit above 0 and a score
    between 0 and 100. *)
Definition entry_ok (v : pyval) : bool :=
  match v with
  | VDict [(k1, VFloat c); (k2, VFloat s)] =>
    str_eqb k1 k_credit && str_eqb k2 k_score
    && fltb (fint 0) c && fleb (fint 0) s && fleb s (fint 100)
  | _ => false
  end.

(** The course list of a session: not yet created, or a list of entries. *)
Definition courses_ok (v : pyval) : bool :=
  match v with
  | VNone => true
  | VList l => forallb entry_ok l
  | _ => false
  end.

(** A credit that credit validation accepted. *)
Definition credit_ok (v : pyval) : bool :=
  match v with
  | VFloat c => fltb (fint 0) c && fleb c (fint 30)
  | _ => false
  end.

(** A slot is filled when it is not [None]. *)
Definition filled (v : pyval) : bool :=
  match v with
  | VNone => false
  | _ => true
  end.

(** One step of a GPA session, with the hooks called in any order. *)
Inductive gpa_step : Tracker -> Tracker -> Prop :=
| free_count t v :
    gpa_step t (after_validation t (validate_number_of_courses v))
| free_credit t v :
    gpa_step t (after_validation t (validate_current_credit v))
| free_score t v :
    gpa_step t (after_validation t (validate_current_score v t))
| free_finalize t :
    gpa_step t (after_action t (ActionCalculateGpa_run t)).

(** Modelled from the spec: the order in which the form asks for its
    slots (the declaration of the form is not among the sources). The
    session goes from collecting the credit of a course to collecting its
    score: the score is asked for, and validated, only once the credit
    slot is filled. The count and the credit may be given at any time,
    and the calculator may run at any time. *)
Inductive form_step : Tracker -> Tracker -> Prop :=
| form_count t v :
    form_step t (after_validation t (validate_number_of_courses v))
| form_credit t v :
    form_step t (after_validation t (validate_current_credit v))
| form_score t v :
    filled (get_slot t current_credit) = true ->
    form_step t (after_validation t (validate_current_score v t))
| form_finalize t :
    form_step t (after_action t (ActionCalculateGpa_run t)).

(** The states a session reaches from a new conversation. *)
Inductive reachable (step : Tracker -> Tracker -> Prop) : Tracker -> Prop :=
| reach_new sender : reachable step (new_tracker sender)
| reach_step t t' : reachable step t -> step t t' -> reachable step t'.

(** ** The catalog *)

Section CatalogSpec.
Variable repr_of : pyval -> str.

(** The (kind, number) pair of a raw record is in [FORBIDDEN]. *)
Definition forbidden_record (p : pydict) : bool :=
  match as_int (dict_get p k_number VNone) with
  | Some n =>
    forbidden (py_str repr_of (py_or (dict_get p k_kind VNone) (VStr []))) n
  | None => false
  end.

(** [byKindNumber]: the lookup the resolver makes. *)
Definition by_kind_number (cat : Catalog) (kind : str) (num : Z)
  : option pydict :=
  found (index_get kn_eqb (kind, num) (kind_num_index cat)).
End CatalogSpec.

(** A [repr] to run examples with. *)
Definition repr_example (v : pyval) : str := u "<object>".

(** The decimal digits. *)
Definition digits : list char := [48; 49; 50; 51; 52; 53; 54; 55; 56; 57]%N.

(** The number a text of decimal digits denotes. *)
Definition digits_value (ds : str) : Z :=
  fold_left (fun acc d => 10 * acc + digit_value d) ds 0.

(** The breakpoint table read on whole scores. *)
Definition band (n : Z) : GradeMap :=
  if 90 <=? n then {| letter := u "A+"; gpa := dec 40 1 |}
  else if 85 <=? n then {| letter := u "A-"; gpa := dec 37 1 |}
  else if 80 <=? n then {| letter := u "B+"; gpa := dec 33 1 |}
  else if 75 <=? n then {| letter := u "B"; gpa := dec 30 1 |}
  else if 70 <=? n then {| letter := u "C-"; gpa := dec 19 1 |}
  else if 65 <=? n then {| letter := u "C"; gpa := dec 20 1 |}
  else if 60 <=? n then {| letter := u "D"; gpa := dec 10 1 |}
  else {| letter := u "F"; gpa := dec 0 1 |}.

Definition grade_eqb (a b : GradeMap) : bool :=
  str_eqb (letter a) (letter b)
  && match gpa a, gpa b with
     | S754_zero s1, S754_zero s2 => Bool.eqb s1 s2
     | S754_finite s1 m1 e1, S754_finite s2 m2 e2 =>
       Bool.eqb s1 s2 && Pos.eqb m1 m2 && (e1 =? e2)
     | _, _ => false
     end.

(** The whole numbers from [lo], [count] of them. *)
Fixpoint whole_numbers (lo : Z) (count : nat) : list Z :=
  match count with
  | O => []
  | S k => lo :: whole_numbers (lo + 1) k
  end.

(** A raw record whose aliases can be looped over. *)
Definition aliases_iterable (p : pydict) : Prop :=
  exists l, py_iter (py_or (dict_get p k_aliases (VList [])) (VList [])) = inr l.

(** The slots of a GPA session after finalization. *)
Definition session_cleared (t : Tracker) : Prop :=
  get_slot t number_of_courses = VNone
  /\ get_slot t current_course_index = VInt 1
  /\ get_slot t current_credit = VNone
  /\ get_slot t current_score = VNone
  /\ get_slot t courses = VList [].

(** A value of the course list that score validation wrote. *)
Definition is_course_entry (v : pyval) : Prop :=
  exists c s, v = course_entry c s.

(** The results of course-count validation. *)
Definition count_accepted (n : Z) : Act slot_dict :=
  (inr [(number_of_courses, VInt n);
        (current_course_index, VInt 1);
        (courses, VList [])], []).

Definition count_rejected (prompt : str) : Act slot_dict :=
  (inr [(number_of_courses, VNone)], [Text prompt]).

(** What the form keeps true: the course list is well formed, and a
    filled credit slot holds a credit that was accepted. *)
Definition form_invariant (t : Tracker) : Prop :=
  courses_ok (get_slot t courses) = true
  /\ (filled (get_slot t current_credit) = true ->
      credit_ok (get_slot t current_credit) = true).

Section TuitionSpec.
Variable repr_of : pyval -> str.

(** The row that a run saves. *)
Definition saved_row (tracker : Tracker) (gen_rate maj_rate : float)
           (uid : Z) : TuitionRun :=
  let gen_cr := float_or_zero repr_of (get_slot tracker general_credits) in
  let maj_cr := float_or_zero repr_of (get_slot tracker major_credits) in
  {| user_id := uid;
     run_admission_group := py_str repr_of (get_slot tracker admission_group);
     run_faculty := py_str repr_of (get_slot tracker faculty);
     run_general_credits := gen_cr;
     run_major_credits := maj_cr;
     run_general_rate := gen_rate;
     run_major_rate := maj_rate;
     total_tuition := fadd (fmul gen_cr gen_rate) (fmul maj_cr maj_rate) |}.

(** The breakdown message of a run, with the total in its last field. *)
Definition breakdown (tracker : Tracker) (gen_rate maj_rate : float)
  : message :=
  let gen_cr := float_or_zero repr_of (get_slot tracker general_credits) in
  let maj_cr := float_or_zero repr_of (get_slot tracker major_credits) in
  TuitionBreakdown
    (group_label (py_str repr_of (get_slot tracker admission_group)))
    (py_str repr_of (get_slot tracker faculty))
    gen_cr (rounded gen_rate) (rounded (fmul gen_cr gen_rate))
    maj_cr (rounded maj_rate) (rounded (fmul maj_cr maj_rate))
    (rounded (fadd (fmul gen_cr gen_rate) (fmul maj_cr maj_rate))).
End TuitionSpec.

(** What the persistence step adds to the reply. *)
Definition persistence_report (store : Store) : list message :=
  match store with
  | Online _ => []
  | Failing e => [DbFailure e]
  end.

(** ** Records and their index entries *)

(** The aliases of a raw record, as the second loop of [load_places]
    reads them. *)
Definition aliases_of (p : pydict) : result (list pyval) :=
  py_iter (py_or (dict_get p k_aliases (VList [])) (VList [])).

Section IndexSpec.
Variable repr_of : pyval -> str.

(** The record lists an alias whose normal form is [key]. *)
Definition lists_alias (p : pydict) (key : str) : Prop :=
  exists l a, aliases_of p = inr l /\ In a l /\ norm (py_str repr_of a) = key.

(** The record has a kind and an [int] number, which make [key]. *)
Definition has_kind_number (p : pydict) (key : str * Z) : Prop :=
  truthy (dict_get p k_kind VNone) = true
  /\ py_str repr_of (dict_get p k_kind VNone) = fst key
  /\ as_int (dict_get p k_number VNone) = Some (snd key).
End IndexSpec.

(** The index has the key. *)
Definition alias_present (key : str) (ai : list (str * pydict)) : Prop :=
  exists q, index_get str_eqb key ai = Some q.

Definition key_present (key : str * Z) (kni : list ((str * Z) * pydict))
  : Prop :=
  exists q, index_get kn_eqb key kni = Some q.

(** ** Patterns and replies *)

(** One or two decimal digits. *)
Definition short_number (g : str) : Prop :=
  (1 <= List.length g <= 2)%nat /\ forallb is_digit g = true.

(** Every group of the pattern is [(\d{1,2})]. *)
Definition digit_groups (p : list item) : Prop :=
  Forall (fun it =>
            match it with
            | Group c lo hi =>
              lo = 1%nat /\ hi = Some 2%nat /\ c = is_digit
            | _ => True
            end) p.

(** An event that sets one of the two location slots. *)
Definition location_event (e : event) : bool :=
  match e with
  | SlotSet pending_number _ | SlotSet place_type _ => true
  | SlotSet _ _ => false
  end.

(** An action that, when it returns, has set location slots only and has
    uttered one message. *)
Definition one_reply (a : Act (list event)) : Prop :=
  forall evs out,
    a = (inr evs, out) ->
    forallb location_event evs = true /\ exists m, out = [m].

(** ** The store *)

(** The constraints of the two tables: [sender_id] is unique in [users],
    so is [id], and the [user_id] of every run is the id of a user. *)
Definition database_ok (db : Database) : Prop :=
  NoDup (map snd (users db))
  /\ NoDup (map fst (users db))
  /\ Forall (fun row => In (user_id row) (map fst (users db)))
            (tuition_runs db).

(** The store after a turn holds a database. *)
Definition database_of (store : Store) (default : Database) : Database :=
  match store with
  | Online db => db
  | Failing _ => default
  end.

(** ** Scores between the bands *)

Definition grade_F : GradeMap := {| letter := u "F"; gpa := S754_zero false |}.


(** ** A complete GPA session *)

(** The user gives the credit and then the score of one course. *)
Definition enter_course (t : Tracker) (credit score : pyval) : Tracker :=
  let t1 := after_validation t (validate_current_credit credit) in
  after_validation t1 (validate_current_score score t1).

Fixpoint enter_courses (t : Tracker) (cs : list (float * float)) : Tracker :=
  match cs with
  | [] => t
  | (c, s) :: rest => enter_courses (enter_course t (VFloat c) (VFloat s)) rest
  end.

(** The user gives the number of courses, then each course in turn. *)
Definition gpa_session (t : Tracker) (cs : list (float * float)) : Tracker :=
  enter_courses
    (after_validation t
       (validate_number_of_courses (VInt (Z.of_nat (List.length cs)))))
    cs.

(** A credit and a score that the two validations accept. *)
Definition course_ok (p : float * float) : bool :=
  fltb (fint 0) (fst p) && fleb (fst p) (fint 30)
  && fleb (fint 0) (snd p) && fleb (snd p) (fint 100).

Definition entry_of (p : float * float) : pyval :=
  course_entry (fst p) (snd p).

(** The lines of the report for the courses, numbered from [i]. *)
Fixpoint report_lines (i : Z) (cs : list (float * float)) : list GradeLine :=
  match cs with
  | [] => []
  | (c, s) :: rest =>
    {| line_index := i; line_credit := c; line_score := s;
       line_letter := letter (score_to_grade s);
       line_points := gpa (score_to_grade s) |} :: report_lines (i + 1) rest
  end.

(** The running sums of the report, from left to right. *)
Definition sum_credits (cs : list (float * float)) : float :=
  fold_left (fun acc p => fadd acc (fst p)) cs (S754_zero false).

Definition sum_points (cs : list (float * float)) : float :=
  fold_left (fun acc p => fadd acc (fmul (fst p) (gpa (score_to_grade (snd p)))))
            cs (S754_zero false).


(** ** Normal forms *)

(** [count] characters from [lo] on. *)
Fixpoint chars_from (lo : char) (count : nat) : list char :=
  match count with
  | O => []
  | S k => lo :: chars_from (N.succ lo) k
  end.

(** The characters [lower] can change: all are below U+0530. *)
Definition low_chars : list char := chars_from 0%N 1328.

(** A character that [norm] leaves as it is. *)
Definition clean (c : char) : bool :=
  char_eqb (lower c) c && negb (char_eqb c (ch "ё"))
  && negb (is_quote c) && negb (is_bracket_or_punct c).

(** The steps of [norm] between the two [strip]s and before the white
    space is collapsed. *)
Definition letters (s : str) : str :=
  map (fun c => if is_bracket_or_punct c then 32%N else c)
      (filter (fun c => negb (is_quote c))
              (replace_char (ch "ё") (ch "е") (str_lower s))).

(** White space is single spaces: no other space character, no two in a
    row ([after_space] tells whether the previous character was one). *)
Fixpoint tidy (after_space : bool) (s : str) : bool :=
  match s with
  | [] => true
  | c :: s' =>
    if is_space c then (c =? 32)%N && negb after_space && tidy true s'
    else tidy false s'
  end.

(** Every class of the pattern ignores case. *)
Definition ignores_case (p : list item) : Prop :=
  Forall (fun it =>
            match it with
            | Rep c _ _ | Group c _ _ => forall x, c (lower x) = c x
            | Bos | Eos => True
            end) p.


(** ** Amounts *)

(** A value of a credit slot as credit validation leaves it: cleared, or
    a float that is not below 0. *)
Definition not_negative_credit (v : pyval) : bool :=
  match v with
  | VNone => true
  | VFloat x => negb (fltb x (fint 0))
  | _ => false
  end.


(** ** The order of the quality points *)

Definition points_of (n : Z) : float := gpa (score_to_grade (fint n)).

(** The one pair of bands in which a higher score earns fewer points. *)
Definition c_then_c_minus (a b : Z) : bool :=
  (65 <=? a) && (a <=? 69) && (70 <=? b) && (b <=? 74).


(* ===================================================================== *)
(** * Example sessions                                                   *)
(* ===================================================================== *)

(** A GPA session: two courses, 3 credits with score 95 and 2 credits
    with score 68, typed in by the user. *)
Definition gpa_example : Tracker :=
  let t0 := new_tracker (u "student") in
  let t1 := after_validation t0 (validate_number_of_courses (VStr (u "2"))) in
  let t2 := after_validation t1 (validate_current_credit (VStr (u "3"))) in
  let t3 := after_validation t2 (validate_current_score (VStr (u "95")) t2) in
  let t4 := after_validation t3 (validate_current_credit (VStr (u "2"))) in
  after_validation t4 (validate_current_score (VStr (u "68")) t4).

(** A GPA session in which a score arrives before any credit. *)
Definition gpa_score_first : Tracker :=
  let t0 := new_tracker (u "student") in
  let t1 := after_validation t0 (validate_number_of_courses (VStr (u "2"))) in
  after_validation t1 (validate_current_score (VStr (u "95")) t1).

(** A [locations.yml] with the two forbidden buildings in it. *)
Definition example_locations : pyval :=
  VDict [(u "places", VList [
    VDict [(k_kind, VStr kind_dorm); (k_number, VInt 4);
           (k_title, VStr (u "Дотуур байр 4"));
           (k_aliases, VList [VStr (u "4-р дотуур байр")])];
    VDict [(k_kind, VStr kind_class); (k_number, VInt 6);
           (k_title, VStr (u "Хичээлийн 6-р байр"));
           (k_aliases, VList [VStr (u "6-р байр")])];
    VStr (u "not a record");
    VDict [(k_kind, VStr kind_class); (k_number, VInt 2);
           (k_title, VStr (u "Хичээлийн 2-р байр"));
           (k_url, VStr (u "https://maps.example/2"));
           (k_aliases, VList [VStr (u "Хичээлийн 2-р байр");
                              VStr (u "номын сан")])]])].

Definition empty_catalog : Catalog :=
  {| alias_index := []; kind_num_index := []; all_places := [] |}.

Definition example_catalog : Catalog :=
  match load_places repr_example example_locations with
  | inr cat => cat
  | inl _ => empty_catalog
  end.

(** A [pricing.yml] with one admission group and one faculty. *)
Definition example_pricing : pyval :=
  VDict [(u "2024_2025",
          VDict [(u "БИЗНЕСИЙН СУРГУУЛЬ",
                  VDict [(u "general", VInt 1000); (u "major", VInt 2000)])])].

(** The tracker at the end of the tuition form. *)
Definition tuition_example : Tracker :=
  apply_events (new_tracker (u "student"))
    [SlotSet admission_group (VStr (u "2024_2025"));
     SlotSet faculty (VStr (u "БИЗНЕСИЙН СУРГУУЛЬ"));
     SlotSet general_credits (VFloat (fint 10));
     SlotSet major_credits (VFloat (fint 5))].

Definition empty_database : Database :=
  {| users := []; user_seq := 0; tuition_runs := [] |}.



(** A record of the fourth dormitory whose number is written [4.0]. *)
Definition float_number_record : pydict :=
  [(k_kind, VStr kind_dorm); (k_number, VFloat (fint 4));
   (k_title, VStr (u "Дотуур байр 4"));
   (k_url, VStr (u "https://maps.example/d4"));
   (k_aliases, VList [VStr (u "Дөрөвдүгээр дотуур байр")])].

Definition float_number_doc : pyval :=
  VDict [(u "places", VList [VDict float_number_record])].

Definition float_number_catalog : Catalog :=
  match load_places repr_example float_number_doc with
  | inr cat => cat
  | inl _ => empty_catalog
  end.

(** The row a run of [tuition_infinite] saves. *)
Definition infinite_row : TuitionRun :=
  {| user_id := 1;
     run_admission_group := u "2024_2025";
     run_faculty := u "БИЗНЕСИЙН СУРГУУЛЬ";
     run_general_credits := S754_infinity false;
     run_major_credits := fint 5;
     run_general_rate := fint 1000;
     run_major_rate := fint 2000;
     total_tuition := S754_infinity false |}.

(** The same form, with the text "inf" typed for the general credits. *)
Definition tuition_infinite : Tracker :=
  after_validation tuition_example
    (validate_general_credits repr_example (VStr (u "inf"))).

(* ===================================================================== *)
(** * Properties                                                         *)
(* ===================================================================== *)

(** ** Text *)

Lemma str_eqb_eq (a b : str) : str_eqb a b = true <-> a = b.
Proof.
  revert b; induction a as [|x a IH]; intros [|y b]; simpl;
    split; intro H; try reflexivity; try discriminate.
  - apply andb_true_iff in H as [Hc Hs].
    apply N.eqb_eq in Hc. apply IH in Hs. now subst.
  - injection H as -> ->. apply andb_true_iff; split.
    + apply N.eqb_refl.
    + now apply IH.
Qed.

Lemma str_eqb_refl (a : str) : str_eqb a a = true.
Proof. now apply str_eqb_eq. Qed.

Lemma is_digit_range (c : char) :
  is_digit c = true <-> (48 <= c <= 57)%N.
Proof.
  unfold is_digit. rewrite andb_true_iff, !N.leb_le. tauto.
Qed.

Lemma digit_cases (c : char) : is_digit c = true -> In c digits.
Proof.
  intros H. apply is_digit_range in H. unfold digits. simpl.
  assert (c = 48 \/ c = 49 \/ c = 50 \/ c = 51 \/ c = 52 \/ c = 53
          \/ c = 54 \/ c = 55 \/ c = 56 \/ c = 57)%N as E by lia.
  intuition auto.
Qed.

Ltac each_digit H :=
  apply digit_cases in H; unfold digits in H; simpl in H;
  repeat (destruct H as [H | H]; [subst | ]); try contradiction.

Lemma digit_not_space (c : char) : is_digit c = true -> is_space c = false.
Proof. intros H. each_digit H; reflexivity. Qed.

Lemma lstrip_spaces (ws s : str) :
  forallb is_space ws = true -> lstrip (ws ++ s) = lstrip s.
Proof.
  induction ws as [|c ws IH]; simpl; intros H.
  - reflexivity.
  - apply andb_true_iff in H as [Hc Hws]. rewrite Hc. now apply IH.
Qed.

Lemma lstrip_nonspace (c : char) (s : str) :
  is_space c = false -> lstrip (c :: s) = c :: s.
Proof. intros H. simpl. now rewrite H. Qed.

Lemma forallb_rev {A} (f : A -> bool) (l : list A) :
  forallb f (rev l) = forallb f l.
Proof.
  induction l as [|x l IH]; simpl.
  - reflexivity.
  - rewrite forallb_app, IH. simpl. rewrite andb_true_r. apply andb_comm.
Qed.

(** Stripping a text whose core begins and ends with a character that is
    not a space leaves the core. *)
Lemma strip_core (ws1 ws2 core : str) (a b : char) (mid pre : str) :
  forallb is_space ws1 = true -> forallb is_space ws2 = true ->
  core = a :: mid -> core = pre ++ [b] ->
  is_space a = false -> is_space b = false ->
  strip (ws1 ++ core ++ ws2) = core.
Proof.
  intros H1 H2 Hcore Hpre Ha Hb.
  unfold strip, rstrip.
  rewrite lstrip_spaces by assumption.
  assert (E1 : lstrip (core ++ ws2) = core ++ ws2).
  { rewrite Hcore. simpl. now rewrite Ha. }
  rewrite E1, rev_app_distr.
  rewrite lstrip_spaces by (now rewrite forallb_rev).
  assert (E2 : lstrip (rev core) = rev core).
  { rewrite Hpre, rev_app_distr. simpl. now rewrite Hb. }
  rewrite E2. apply rev_involutive.
Qed.

(** ** Numbers in a text *)

(** X1. A text that is a number of one or two digits between white space is
    read as that number: the first pattern of [extract_number]. *)
Theorem extract_number_bare (ws1 ws2 ds : str) :
  forallb is_space ws1 = true ->
  forallb is_space ws2 = true ->
  forallb is_digit ds = true ->
  (1 <= List.length ds <= 2)%nat ->
  extract_number (ws1 ++ ds ++ ws2) = Some (digits_value ds).
Proof.
  intros H1 H2 Hd Hlen.
  destruct ds as [|d1 [|d2 [|d3 ds]]]; simpl in Hlen; try lia.
  - simpl in Hd. rewrite andb_true_r in Hd.
    assert (Hs : is_space d1 = false) by now apply digit_not_space.
    unfold extract_number.
    rewrite (@strip_core ws1 ws2 [d1] d1 d1 [] []) by auto.
    clear - Hd. each_digit Hd; vm_compute; reflexivity.
  - simpl in Hd. rewrite andb_true_r in Hd.
    apply andb_true_iff in Hd as [Hd1 Hd2].
    assert (Hs1 : is_space d1 = false) by now apply digit_not_space.
    assert (Hs2 : is_space d2 = false) by now apply digit_not_space.
    unfold extract_number.
    rewrite (@strip_core ws1 ws2 [d1; d2] d1 d2 [d2] [d1]) by auto.
    clear - Hd1 Hd2. each_digit Hd1; each_digit Hd2; vm_compute; reflexivity.
Qed.

Lemma extract_number_bare_witness :
  extract_number (u " 12  ") = Some 12.
Proof.
  change (extract_number (u " " ++ u "12" ++ u "  ")
          = Some (digits_value (u "12"))).
  apply extract_number_bare;
    [reflexivity | reflexivity | reflexivity | simpl; lia].
Defined.

(** C2. The third, loose pattern of [extract_number] asks for the
    letters [бай], then [а] or [a], then [р]: the word [байр] itself does
    not match it. A building phrase between other words is therefore not
    read: for the text "манай 5 байр хаана" the loose pattern finds
    nothing and [extract_number] returns [None], although the anchored
    pattern reads the same phrase when it stands alone, and the loose
    pattern reads the misspelt "байар". *)
Theorem extract_number_loose_misses_bair :
  re_search BAIR_LOOSE_RE (u "манай 5 байр хаана") = None
  /\ extract_number (u "манай 5 байр хаана") = None
  /\ extract_number (u "5 байр") = Some 5
  /\ extract_number (u "манай 5 байар хаана") = Some 5.
Proof. vm_compute. repeat split; reflexivity. Qed.

(** ** Grades *)

(** C1. A score between two integer bands is graded F: 74.9 is a valid
    score (score validation accepts it) and is not below 70, yet
    [score_to_grade] maps it to F with quality point 0.0, not to C- with
    1.9, because the band of C- ends at 74. *)
Theorem score_74_9_is_graded_F :
  exists s : float,
    float_of_str (u "74.9") = Some s
    /\ fst (validate_current_score (VStr (u "74.9")) (new_tracker []))
       = inr [(courses, VList [course_entry (fint 0) s]);
              (current_score, VFloat s)]
    /\ fleb (fint 70) s = true
    /\ score_to_grade s = {| letter := u "F"; gpa := S754_zero false |}.
Proof.
  exists (dec 749 1). repeat split; vm_compute; reflexivity.
Qed.

(** ** The catalog *)

Lemma kn_eqb_eq (a b : str * Z) : kn_eqb a b = true <-> a = b.
Proof.
  destruct a as [ka na], b as [kb nb]. unfold kn_eqb. simpl.
  rewrite andb_true_iff, str_eqb_eq, Z.eqb_eq.
  split; [intros [-> ->]; reflexivity | intros [= -> ->]; auto].
Qed.

Lemma index_get_none {K} (eqb : K -> K -> bool) (k : K)
      (d : list (K * pydict)) :
  Forall (fun kv => eqb (fst kv) k = false) d -> index_get eqb k d = None.
Proof.
  induction 1 as [|[k' v] d Hk _ IH]; simpl.
  - reflexivity.
  - simpl in Hk. now rewrite Hk.
Qed.

(** Assigning to a key keeps a property of the items that holds for the
    new item and does not depend on the value replaced. *)
Lemma index_set_Forall {K} (eqb : K -> K -> bool) (P : K * pydict -> Prop)
      (k : K) (v : pydict) (d : list (K * pydict)) :
  Forall P d -> P (k, v) ->
  (forall k' v', P (k', v') -> eqb k' k = true -> P (k', v)) ->
  Forall P (index_set eqb k v d).
Proof.
  intros Hd Hnew Hrepl. induction Hd as [|[k' v'] d Hx Hd IH]; simpl.
  - constructor; [assumption | constructor].
  - destruct (eqb k' k) eqn:E.
    + constructor; [now apply Hrepl with v' | assumption].
    + constructor; assumption.
Qed.

Section CatalogProofs.
Variable repr_of : pyval -> str.

Let allowed (p : pydict) : Prop := forbidden_record repr_of p = false.

Let alias_allowed (ap : str * pydict) : Prop := allowed (snd ap).

Let key_allowed (kp : (str * Z) * pydict) : Prop :=
  forbidden (fst (fst kp)) (snd (fst kp)) = false /\ allowed (snd kp).

Lemma keep_place_allowed (p : pyval) (d : pydict) :
  keep_place repr_of p = Some d -> p = VDict d /\ allowed d.
Proof.
  unfold keep_place, allowed, forbidden_record.
  destruct p; try discriminate.
  destruct (as_int (dict_get items k_number VNone)) as [n|] eqn:A.
  - destruct (forbidden _ n) eqn:F; [discriminate|].
    intros [= <-]. rewrite A. auto.
  - intros [= <-]. rewrite A. auto.
Qed.

Lemma keep_places_allowed (raw : list pyval) :
  Forall allowed (keep_places repr_of raw).
Proof.
  induction raw as [|p raw IH]; simpl.
  - constructor.
  - destruct (keep_place repr_of p) as [d|] eqn:E; [|assumption].
    constructor; [|assumption]. now apply keep_place_allowed in E.
Qed.


Lemma add_aliases_allowed (p : pydict) (aliases : list pyval)
      (ai : list (str * pydict)) :
  allowed p -> Forall alias_allowed ai ->
  Forall alias_allowed (add_aliases repr_of p aliases ai).
Proof.
  intros Hp. unfold add_aliases. revert ai.
  induction aliases as [|a aliases IH]; simpl; intros ai Hai.
  - assumption.
  - apply IH. apply index_set_Forall; auto.
Qed.

Lemma add_kind_num_allowed (p : pydict) (kni : list ((str * Z) * pydict)) :
  allowed p -> Forall key_allowed kni ->
  Forall key_allowed (add_kind_num repr_of p kni).
Proof.
  intros Hp Hk. unfold add_kind_num.
  pose proof Hp as Hp'. unfold allowed, forbidden_record in Hp'.
  destruct (as_int (dict_get p k_number VNone)) as [n|]; [|assumption].
  destruct (truthy (dict_get p k_kind VNone)) eqn:T; [|assumption].
  unfold py_or in Hp'. rewrite T in Hp'.
  apply index_set_Forall.
  - assumption.
  - split; assumption.
  - intros k' v' [Hf _] _. split; assumption.
Qed.

Lemma build_indexes_allowed (places : list pydict) :
  forall ai kni ai' kni',
    Forall allowed places ->
    Forall alias_allowed ai -> Forall key_allowed kni ->
    build_indexes repr_of places ai kni = inr (ai', kni') ->
    Forall alias_allowed ai' /\ Forall key_allowed kni'.
Proof.
  induction places as [|p places IH]; simpl; intros ai kni ai' kni' Hp Ha Hk.
  - intros [= <- <-]. auto.
  - inversion Hp as [|? ? Hp1 Hp2]; subst.
    destruct (py_iter _) as [e|aliases]; simpl; [discriminate|].
    apply IH; auto.
    + now apply add_aliases_allowed.
    + now apply add_kind_num_allowed.
Qed.

Lemma key_allowed_misses (kni : list ((str * Z) * pydict))
      (kind : str) (num : Z) :
  Forall key_allowed kni -> forbidden kind num = true ->
  index_get kn_eqb (kind, num) kni = None.
Proof.
  intros Hk Hf. apply index_get_none.
  eapply Forall_impl; [|exact Hk].
  intros [[k n] v] [Hkn _]. simpl in *.
  destruct (kn_eqb (k, n) (kind, num)) eqn:E; [|reflexivity].
  apply kn_eqb_eq in E. injection E as -> ->. congruence.
Qed.

(** C3, as the code has it. Whatever document [load_places] reads, the
    catalog it returns holds no record whose number is an [int] and whose
    (kind, number) pair is forbidden: not in the list of places, not
    behind an alias, not in the index by kind and number; a lookup by a
    forbidden pair, (dorm, 4) and (class, 6) in particular, finds
    nothing. *)
Theorem catalog_excludes_forbidden (data : pyval) (cat : Catalog) :
  load_places repr_of data = inr cat ->
  by_kind_number cat kind_dorm 4 = None
  /\ by_kind_number cat kind_class 6 = None
  /\ (forall kind num, forbidden kind num = true ->
                       by_kind_number cat kind num = None)
  /\ Forall (fun p => forbidden_record repr_of p = false) (all_places cat)
  /\ Forall (fun ap => forbidden_record repr_of (snd ap) = false)
            (alias_index cat)
  /\ Forall (fun kp => forbidden_record repr_of (snd kp) = false)
            (kind_num_index cat).
Proof.
  unfold load_places. intros H.
  destruct (py_iter _) as [e|raw]; simpl in H; [discriminate|].
  destruct (build_indexes repr_of (keep_places repr_of raw) [] [])
    as [e|[ai kni]] eqn:B; simpl in H; [discriminate|].
  injection H as <-. simpl.
  pose proof (keep_places_allowed raw) as Hp.
  destruct (@build_indexes_allowed _ [] [] ai kni Hp
              (Forall_nil _) (Forall_nil _) B) as [Ha Hk].
  assert (Hmiss : forall kind num, forbidden kind num = true ->
                    by_kind_number
                      {| alias_index := ai; kind_num_index := kni;
                         all_places := keep_places repr_of raw |}
                      kind num = None).
  { intros kind num Hf. unfold by_kind_number. simpl.
    now rewrite (@key_allowed_misses kni kind num Hk Hf). }
  repeat split.
  - now apply Hmiss.
  - now apply Hmiss.
  - exact Hmiss.
  - exact Hp.
  - exact Ha.
  - eapply Forall_impl; [|exact Hk]. now intros kp [_ H].
Qed.
End CatalogProofs.

Lemma catalog_excludes_forbidden_witness :
  load_places repr_example example_locations = inr example_catalog
  /\ by_kind_number example_catalog kind_dorm 4 = None
  /\ by_kind_number example_catalog kind_class 6 = None
  /\ (forall kind num, forbidden kind num = true ->
                       by_kind_number example_catalog kind num = None)
  /\ Forall (fun p => forbidden_record repr_example p = false)
            (all_places example_catalog)
  /\ Forall (fun ap => forbidden_record repr_example (snd ap) = false)
            (alias_index example_catalog)
  /\ Forall (fun kp => forbidden_record repr_example (snd kp) = false)
            (kind_num_index example_catalog).
Proof.
  split; [vm_compute; reflexivity | ].
  apply (@catalog_excludes_forbidden repr_example example_locations).
  vm_compute; reflexivity.
Defined.

(** A record whose pair is in [FORBIDDEN] and whose number is not an
    [int] is not excluded: the fourth dormitory with its number written
    4.0 is in the list of places and behind its alias, and the resolver
    answers its alias with it. *)
Lemma forbidden_float_number_is_served :
  in_forbidden kind_dorm (dict_get float_number_record k_number VNone) = true
  /\ load_places repr_example float_number_doc = inr float_number_catalog
  /\ all_places float_number_catalog = [float_number_record]
  /\ index_get str_eqb (norm (u "Дөрөвдүгээр дотуур байр"))
                (alias_index float_number_catalog)
     = Some float_number_record
  /\ ActionSendLocation_run repr_example float_number_catalog
       (with_message (new_tracker (u "student"))
                     (u "дөрөвдүгээр дотуур байр") None)
     = (inr [], [Text (u "Дотуур байр 4" ++ newline
                         ++ u "https://maps.example/d4")]).
Proof. vm_compute. repeat split; reflexivity. Qed.

(** The example catalog: the two forbidden buildings are gone, the third
    building is found by kind and number. *)
Example example_catalog_content :
  List.length (all_places example_catalog) = 1%nat
  /\ option_map (fun p => dict_get p k_title VNone)
                (by_kind_number example_catalog kind_class 2)
     = Some (VStr (u "Хичээлийн 2-р байр")).
Proof. vm_compute. split; reflexivity. Qed.

(** ** The resolver *)

(** C4. The two turns of a disambiguation. In a new conversation the
    text "4" makes the resolver ask for the kind and set [pending_number]
    to the text "4", leaving [place_type] alone; the answer "дотуур байр"
    under the intent [choose_place_type] is classified as a dormitory,
    (dorm, 4) is forbidden, the reply is the not-available message and
    [pending_number] ends as [None]. This holds for every catalog. *)
Theorem disambiguation_round_trip
        (repr_of : pyval -> str) (cat : Catalog) (sender : str)
        (intent1 : option str) :
  let t1 := with_message (new_tracker sender) (u "4") intent1 in
  let a1 := ActionSendLocation_run repr_of cat t1 in
  let t2 := with_message (after_action t1 a1) (u "дотуур байр")
                         (Some (u "choose_place_type")) in
  let a2 := ActionSendLocation_run repr_of cat t2 in
  a1 = (inr [SlotSet pending_number (VStr (u "4"))],
        [Response (u "utter_ask_place_type")])
  /\ get_slot (after_action t1 a1) pending_number = VStr (u "4")
  /\ get_slot (after_action t1 a1) place_type = VNone
  /\ a2 = (inr [SlotSet pending_number VNone;
                SlotSet place_type (VStr kind_dorm)],
           [Text msg_not_available])
  /\ get_slot (after_action t2 a2) pending_number = VNone.
Proof.
  intros t1 a1 t2 a2.
  assert (E1 : a1 = (inr [SlotSet pending_number (VStr (u "4"))],
                     [Response (u "utter_ask_place_type")])).
  { subst a1 t1. unfold ActionSendLocation_run.
    cbn [latest_text latest_intent with_message new_tracker get_slot slots
         truthy].
    rewrite andb_false_r. vm_compute. reflexivity. }
  assert (E2 : a2 = (inr [SlotSet pending_number VNone;
                          SlotSet place_type (VStr kind_dorm)],
                     [Text msg_not_available])).
  { subst a2 t2. rewrite E1. vm_compute. reflexivity. }
  rewrite E1, E2. repeat split; reflexivity.
Qed.

(** ** The GPA calculator *)

Lemma course_entry_credit (c s : float) :
  py_getitem (course_entry c s) (VStr k_credit) = inr (VFloat c).
Proof. reflexivity. Qed.

Lemma course_entry_score (c s : float) :
  py_getitem (course_entry c s) (VStr k_score) = inr (VFloat s).
Proof. reflexivity. Qed.

(** The loop over a list of course entries does not raise. *)
Lemma gpa_loop_returns (items : list pyval) :
  Forall is_course_entry items ->
  forall i tc tp lines, exists r, gpa_loop items i tc tp lines = inr r.
Proof.
  induction 1 as [|v items [c [s ->]] _ IH]; intros i tc tp lines.
  - simpl. eauto.
  - cbn [gpa_loop]. rewrite course_entry_credit, course_entry_score.
    cbn [rbind py_float]. apply IH.
Qed.

Lemma apply_gpa_reset (t : Tracker) : session_cleared (apply_events t gpa_reset).
Proof. repeat split. Qed.

(** Whenever the calculator returns, it returns the five resets. *)
Lemma gpa_run_events (tracker : Tracker) (evs : list event)
      (out : list message) :
  ActionCalculateGpa_run tracker = (inr evs, out) -> evs = gpa_reset.
Proof.
  unfold ActionCalculateGpa_run.
  destruct (negb (truthy _)).
  - intros [= <- _]. reflexivity.
  - destruct (py_iter _) as [e|items]; [discriminate|].
    cbn [lift bind].
    destruct (gpa_loop _ _ _ _ _) as [e|[[tc tp] lines]]; [discriminate|].
    intros [= <- _]. reflexivity.
Qed.

(** On a course list written by score validation the calculator returns. *)
Lemma gpa_run_returns (tracker : Tracker) (l : list pyval) :
  get_slot tracker courses = VList l ->
  Forall is_course_entry l ->
  exists out, ActionCalculateGpa_run tracker = (inr gpa_reset, out).
Proof.
  intros Hc Hl. unfold ActionCalculateGpa_run. rewrite Hc.
  destruct l as [|v l].
  - simpl. eauto.
  - cbn [py_or truthy negb py_iter lift bind].
    destruct (@gpa_loop_returns (v :: l) Hl 1 (S754_zero false)
                                (S754_zero false) [])
      as [[[tc tp] lines] ->].
    simpl. eauto.
Qed.

(** C5, as the code computes it. The session with the courses
    (3 credits, score 95) and (2 credits, score 68) is reported with the
    letters A+ (4.0) and C (2.0), total credit 5 and the GPA
    (3*4.0 + 2*2.0)/5, which is 3.2 and is printed as 3.20. Every
    finalization of a course list written by score validation returns,
    and every finalization that returns resets the session: number of
    courses cleared, index 1, credit and score cleared, no courses. *)
Theorem gpa_finalization :
  ActionCalculateGpa_run gpa_example
  = (inr gpa_reset,
     [GpaReport
        [{| line_index := 1; line_credit := fint 3; line_score := fint 95;
            line_letter := u "A+"; line_points := dec 40 1 |};
         {| line_index := 2; line_credit := fint 2; line_score := fint 68;
            line_letter := u "C"; line_points := dec 20 1 |}]
        (fint 5)
        (fdiv (fadd (fmul (fint 3) (dec 40 1)) (fmul (fint 2) (dec 20 1)))
              (fint 5))])
  /\ fdiv (fadd (fmul (fint 3) (dec 40 1)) (fmul (fint 2) (dec 20 1))) (fint 5)
     = dec 32 1
  /\ format_fixed 2 (dec 32 1) = u "3.20"
  /\ (forall tracker l,
        get_slot tracker courses = VList l -> Forall is_course_entry l ->
        exists out, ActionCalculateGpa_run tracker = (inr gpa_reset, out))
  /\ (forall tracker evs out,
        ActionCalculateGpa_run tracker = (inr evs, out) ->
        evs = gpa_reset
        /\ session_cleared (after_action tracker (ActionCalculateGpa_run tracker))).
Proof.
  split; [vm_compute; reflexivity|].
  split; [vm_compute; reflexivity|].
  split; [vm_compute; reflexivity|].
  split.
  - exact gpa_run_returns.
  - intros tracker evs out H. split.
    + now apply gpa_run_events in H.
    + unfold after_action. rewrite H. simpl fst.
      apply gpa_run_events in H. subst evs. apply apply_gpa_reset.
Qed.

(** The GPA of the example session is 3.2, printed 3.20: it is not the
    2.80 of the worked example. *)
Lemma gpa_example_is_not_2_80 :
  ActionCalculateGpa_run gpa_example
  = (inr gpa_reset,
     [GpaReport
        [{| line_index := 1; line_credit := fint 3; line_score := fint 95;
            line_letter := u "A+"; line_points := dec 40 1 |};
         {| line_index := 2; line_credit := fint 2; line_score := fint 68;
            line_letter := u "C"; line_points := dec 20 1 |}]
        (fint 5) (dec 32 1)])
  /\ format_fixed 2 (dec 32 1) = u "3.20"
  /\ str_eqb (format_fixed 2 (dec 32 1)) (u "2.80") = false
  /\ SFeqb (dec 32 1) (dec 280 2) = false.
Proof. vm_compute. repeat split; reflexivity. Qed.

Lemma gpa_finalization_witness :
  get_slot gpa_example courses
  = VList [course_entry (fint 3) (fint 95); course_entry (fint 2) (fint 68)]
  /\ exists out, ActionCalculateGpa_run gpa_example = (inr gpa_reset, out).
Proof.
  split; [vm_compute; reflexivity|].
  apply (proj1 (proj2 (proj2 (proj2 gpa_finalization)))
           gpa_example
           [course_entry (fint 3) (fint 95); course_entry (fint 2) (fint 68)]).
  - vm_compute; reflexivity.
  - repeat constructor; unfold is_course_entry; eauto.
Defined.

(** C10. When the course list is missing or empty (any value that
    counts as false), finalization gives no breakdown and no GPA: it
    utters the restart prompt alone and resets the session with the same
    events as a finalization that reports. *)
Theorem gpa_finalization_without_courses (tracker : Tracker) :
  truthy (get_slot tracker courses) = false ->
  ActionCalculateGpa_run tracker = (inr gpa_reset, [Text msg_no_courses])
  /\ session_cleared (after_action tracker (ActionCalculateGpa_run tracker))
  /\ (forall tracker' evs out,
        ActionCalculateGpa_run tracker' = (inr evs, out) -> evs = gpa_reset).
Proof.
  intros H.
  assert (E : ActionCalculateGpa_run tracker
              = (inr gpa_reset, [Text msg_no_courses])).
  { unfold ActionCalculateGpa_run, py_or. rewrite H. reflexivity. }
  split; [exact E|]. split.
  - unfold after_action. rewrite E. apply apply_gpa_reset.
  - exact gpa_run_events.
Qed.

Lemma gpa_finalization_without_courses_witness :
  (truthy (get_slot (new_tracker (u "student")) courses) = false
   /\ ActionCalculateGpa_run (new_tracker (u "student"))
      = (inr gpa_reset, [Text msg_no_courses]))
  /\ (truthy (VList []) = false
      /\ ActionCalculateGpa_run
           (apply_events (new_tracker (u "student")) [SlotSet courses (VList [])])
         = (inr gpa_reset, [Text msg_no_courses])).
Proof.
  split; (split; [reflexivity|]).
  - apply (gpa_finalization_without_courses (new_tracker (u "student"))).
    reflexivity.
  - apply (gpa_finalization_without_courses
             (apply_events (new_tracker (u "student"))
                           [SlotSet courses (VList [])])).
    reflexivity.
Defined.

(** ** The GPA form *)

Lemma positive_is_truthy (c : float) :
  fltb (fint 0) c = true -> truthy (VFloat c) = true.
Proof. destruct c as [s| | |]; try reflexivity. destruct s; discriminate. Qed.

Lemma entry_ok_course_entry (c s : float) :
  entry_ok (course_entry c s)
  = fltb (fint 0) c && fleb (fint 0) s && fleb s (fint 100).
Proof. reflexivity. Qed.

Lemma invariant_new (sender : str) : form_invariant (new_tracker sender).
Proof. split; [reflexivity | discriminate]. Qed.

Lemma invariant_count (t : Tracker) (v : pyval) :
  form_invariant t ->
  form_invariant (after_validation t (validate_number_of_courses v)).
Proof.
  intros [Hc Hk]. unfold validate_number_of_courses.
  destruct (course_count_of v) as [e|n].
  - split; assumption.
  - destruct (negb _); split; first [assumption | reflexivity].
Qed.

Lemma invariant_credit (t : Tracker) (v : pyval) :
  form_invariant t ->
  form_invariant (after_validation t (validate_current_credit v)).
Proof.
  intros [Hc Hk]. unfold validate_current_credit.
  destruct (py_float v) as [e|c].
  - split; [assumption | discriminate].
  - destruct (fltb (fint 0) c && fleb c (fint 30)) eqn:E; cbn [negb].
    + split; [assumption|]. intros _. exact E.
    + split; [assumption | discriminate].
Qed.

(** The course list score validation starts from. *)
Lemma courses_read (v : pyval) :
  courses_ok v = true ->
  forallb entry_ok
    (match py_or v (VList []) with VList l => l | _ => [] end) = true.
Proof.
  destruct v as [| | | | |l|]; try discriminate; try reflexivity.
  destruct l; [reflexivity|]. intros H. exact H.
Qed.

(** Score validation keeps the course list well formed when the credit
    slot holds an accepted credit. *)
Lemma score_step_keeps_courses (t : Tracker) (v : pyval) :
  courses_ok (get_slot t courses) = true ->
  credit_ok (get_slot t current_credit) = true ->
  courses_ok (get_slot (after_validation t (validate_current_score v t))
                       courses) = true.
Proof.
  intros Hc Hk. unfold validate_current_score.
  destruct (py_float v) as [e|s]; [exact Hc|].
  destruct (fleb (fint 0) s && fleb s (fint 100)) eqn:Es; cbn [negb];
    [|exact Hc].
  destruct (get_slot t current_credit) as [| | |c| | |] eqn:Ec;
    try discriminate.
  cbn [credit_ok] in Hk. apply andb_true_iff in Hk as [Hpos _].
  unfold py_or at 3. rewrite (positive_is_truthy _ Hpos).
  cbn [py_float].
  destruct (py_int _) as [e|n]; [exact Hc|].
  destruct (x <-r py_float _ ;; int_of_float x) as [e|idx]; [exact Hc|].
  pose proof (courses_read _ Hc) as Hl.
  assert (Hnew : forallb entry_ok
            (match py_or (get_slot t courses) (VList []) with
             | VList l => l
             | _ => []
             end ++ [course_entry c s]) = true).
  { rewrite forallb_app, Hl. cbn [forallb].
    rewrite entry_ok_course_entry, Hpos.
    apply andb_true_iff in Es as [-> ->]. reflexivity. }
  cbn [lift bind]. destruct (idx + 1 <=? n); exact Hnew.
Qed.

Lemma invariant_score (t : Tracker) (v : pyval) :
  form_invariant t ->
  filled (get_slot t current_credit) = true ->
  form_invariant (after_validation t (validate_current_score v t)).
Proof.
  intros [Hc Hk] Hf. specialize (Hk Hf). split.
  - now apply score_step_keeps_courses.
  - unfold validate_current_score.
    destruct (py_float v) as [e|s]; [intros _; exact Hk|].
    destruct (negb _); [intros _; exact Hk|].
    destruct (py_int _) as [e|n]; [intros _; exact Hk|].
    destruct (x <-r py_float _ ;; int_of_float x) as [e|idx];
      [intros _; exact Hk|].
    destruct (py_float (py_or (get_slot t current_credit) (VInt 0)))
      as [e|c]; [intros _; exact Hk|].
    cbn [lift bind]. destruct (idx + 1 <=? n).
    + discriminate.
    + intros _. exact Hk.
Qed.

Lemma invariant_finalize (t : Tracker) :
  form_invariant t ->
  form_invariant (after_action t (ActionCalculateGpa_run t)).
Proof.
  intros H. unfold after_action.
  destruct (ActionCalculateGpa_run t) as [[e|evs] out] eqn:E; [exact H|].
  apply gpa_run_events in E. subst evs.
  split; [reflexivity | discriminate].
Qed.

(** C8, as the code has it. In every state a session reaches through
    the form, which asks for a score only once the credit slot is filled,
    every entry of the course list is a course entry with a credit above
    0 and a score between 0 and 100. *)
Theorem courses_well_formed (t : Tracker) :
  reachable form_step t -> courses_ok (get_slot t courses) = true.
Proof.
  intros H. enough (form_invariant t) as [Hc _] by exact Hc.
  induction H as [sender | t t' _ IH Hstep].
  - apply invariant_new.
  - destruct Hstep.
    + now apply invariant_count.
    + now apply invariant_credit.
    + now apply invariant_score.
    + now apply invariant_finalize.
Qed.

Lemma gpa_example_reachable : reachable form_step gpa_example.
Proof.
  unfold gpa_example. cbv zeta.
  eapply reach_step; [| apply form_score; vm_compute; reflexivity].
  eapply reach_step; [| apply form_credit].
  eapply reach_step; [| apply form_score; vm_compute; reflexivity].
  eapply reach_step; [| apply form_credit].
  eapply reach_step; [| apply form_count].
  apply reach_new.
Qed.

Lemma courses_well_formed_witness :
  reachable form_step gpa_example
  /\ courses_ok (get_slot gpa_example courses) = true.
Proof.
  split; [exact gpa_example_reachable|].
  apply (courses_well_formed gpa_example_reachable).
Defined.

(** With the hooks called in any order the course list may hold an entry
    of credit 0: a score validated while no credit is set is stored with
    the credit [float(None or 0)]. *)
Lemma score_before_credit_breaks_courses :
  reachable gpa_step gpa_score_first
  /\ get_slot gpa_score_first courses
     = VList [course_entry (S754_zero false) (fint 95)]
  /\ courses_ok (get_slot gpa_score_first courses) = false.
Proof.
  split.
  - unfold gpa_score_first. cbv zeta.
    eapply reach_step; [| apply free_score].
    eapply reach_step; [| apply free_count].
    apply reach_new.
  - vm_compute. split; reflexivity.
Qed.

(** ** Course counts *)

Lemma digits2_pos_bounds (m : positive) :
  2 ^ (Zpos (digits2_pos m) - 1) <= Zpos m < 2 ^ Zpos (digits2_pos m).
Proof.
  induction m as [m IH | m IH |]; cbn [digits2_pos].
  - rewrite Pos2Z.inj_succ.
    replace (Z.succ (Zpos (digits2_pos m)) - 1) with (Z.succ (Zpos (digits2_pos m) - 1)) by lia.
    rewrite !Z.pow_succ_r by lia. lia.
  - rewrite Pos2Z.inj_succ.
    replace (Z.succ (Zpos (digits2_pos m)) - 1) with (Z.succ (Zpos (digits2_pos m) - 1)) by lia.
    rewrite !Z.pow_succ_r by lia. lia.
  - simpl. lia.
Qed.

(** A valid finite float has a mantissa below 2^53, and of exactly 53
    bits unless its exponent is the least one. *)
Lemma valid_mantissa (s : bool) (m : positive) (e : Z) :
  valid_float (S754_finite s m e) = true ->
  Zpos m < 2 ^ 53 /\ -1074 <= e /\ (-1074 < e -> 2 ^ 52 <= Zpos m).
Proof.
  unfold valid_float, SpecFloat.valid_binary, bounded, canonical_mantissa, fexp, emin, prec, emax.
  intros H. apply andb_true_iff in H as [H _]. apply Z.eqb_eq in H.
  pose proof (digits2_pos_bounds m) as [Hlo Hhi].
  set (d := Zpos (digits2_pos m)) in *.
  assert (Hd : d <= 53) by lia.
  split.
  - apply Z.lt_le_trans with (2 ^ d); [assumption|].
    apply Z.pow_le_mono_r; lia.
  - split; [lia|]. intros He.
    assert (d = 53) by lia. subst d. rewrite H0 in Hlo. exact Hlo.
Qed.

Lemma fleb_finite (m1 : positive) (e1 : Z) (m2 : positive) (e2 : Z) :
  fleb (S754_finite false m1 e1) (S754_finite false m2 e2)
  = (e1 <? e2) || ((e1 =? e2) && (Zpos m1 <=? Zpos m2)).
Proof.
  unfold fleb, SFleb, SFcompare.
  destruct (Z.compare_spec e1 e2) as [-> | H | H].
  - rewrite Z.ltb_irrefl, Z.eqb_refl. cbn [orb andb].
    change (Pos.compare_cont Eq m1 m2) with (Pos.compare m1 m2).
    unfold Z.leb, Z.compare.
    destruct (Pos.compare m1 m2); reflexivity.
  - apply Z.ltb_lt in H. now rewrite H.
  - assert ((e1 <? e2) = false) as -> by (apply Z.ltb_ge; lia).
    assert ((e1 =? e2) = false) as -> by (apply Z.eqb_neq; lia).
    reflexivity.
Qed.

Lemma fltb_finite (m1 : positive) (e1 : Z) (m2 : positive) (e2 : Z) :
  fltb (S754_finite false m1 e1) (S754_finite false m2 e2)
  = (e1 <? e2) || ((e1 =? e2) && (Zpos m1 <? Zpos m2)).
Proof.
  unfold fltb, SFltb, SFcompare.
  destruct (Z.compare_spec e1 e2) as [-> | H | H].
  - rewrite Z.ltb_irrefl, Z.eqb_refl. cbn [orb andb].
    change (Pos.compare_cont Eq m1 m2) with (Pos.compare m1 m2).
    unfold Z.ltb, Z.compare.
    destruct (Pos.compare m1 m2); reflexivity.
  - apply Z.ltb_lt in H. now rewrite H.
  - assert ((e1 <? e2) = false) as -> by (apply Z.ltb_ge; lia).
    assert ((e1 =? e2) = false) as -> by (apply Z.eqb_neq; lia).
    reflexivity.
Qed.

(** The integer part of a valid float is between 1 and 50 exactly when
    the float is at least 1 and below 51. *)
Lemma integer_part_in_range (x : float) (n : Z) :
  valid_float x = true ->
  int_of_float x = inr n ->
  (1 <=? n) && (n <=? 50) = fleb (fint 1) x && fltb x (fint 51).
Proof.
  intros Hv Hn. destruct x as [s| s | |s m e]; try discriminate.
  - injection Hn as <-. destruct s; reflexivity.
  - cbn [int_of_float] in Hn. injection Hn as <-.
    destruct s.
    + cbn [cond_Zopp].
      assert (0 <= Z.shiftl (Zpos m) e) by (apply Z.shiftl_nonneg; lia).
      assert ((1 <=? - Z.shiftl (Zpos m) e) = false) as ->
          by (apply Z.leb_gt; lia).
      reflexivity.
    + cbn [cond_Zopp].
      apply valid_mantissa in Hv as (Hhi & Hemin & Hlo).
      change (fint 1) with (S754_finite false 4503599627370496 (-52)).
      change (fint 51) with (S754_finite false 7177611906121728 (-47)).
      rewrite fleb_finite, fltb_finite.
      change (2 ^ 53) with 9007199254740992 in Hhi.
      change (2 ^ 52) with 4503599627370496 in Hlo.
      set (n := Z.shiftl (Zpos m) e).
      assert (Hcases : e < -52 \/ (-52 <= e <= -47) \/ (-47 < e < 0) \/ 0 <= e)
        by lia.
      apply eq_true_iff_eq.
      rewrite !andb_true_iff, !orb_true_iff, !andb_true_iff,
        !Z.leb_le, !Z.ltb_lt, !Z.eqb_eq.
      destruct Hcases as [He | [He | [He | He]]].
      * assert (n = 0).
        { unfold n. rewrite Z.shiftl_div_pow2 by lia.
          apply Z.div_small. split; [lia|].
          apply Z.lt_le_trans with (2 ^ 53); [exact Hhi|].
          apply Z.pow_le_mono_r; lia. }
        lia.
      * assert (Hm : 4503599627370496 <= Zpos m) by (apply Hlo; lia).
        assert (e = -52 \/ e = -51 \/ e = -50 \/ e = -49 \/ e = -48 \/ e = -47)
          as Hc by lia.
        unfold n.
        destruct Hc as [-> | [-> | [-> | [-> | [-> | ->]]]]];
          rewrite Z.shiftl_div_pow2 by lia;
          match goal with
          | |- context [Zpos m / ?d] =>
            let d' := eval vm_compute in d in
            change d with d';
            pose proof (Z.div_mod (Zpos m) d' ltac:(lia));
            pose proof (Z.mod_pos_bound (Zpos m) d' ltac:(lia))
          end; lia.
      * assert (Hm : 4503599627370496 <= Zpos m) by (apply Hlo; lia).
        assert (64 <= n).
        { unfold n. rewrite Z.shiftl_div_pow2 by lia.
          apply Z.le_trans with (Zpos m / 2 ^ 46).
          - change (2 ^ 46) with 70368744177664.
            pose proof (Z.div_mod (Zpos m) 70368744177664 ltac:(lia)).
            pose proof (Z.mod_pos_bound (Zpos m) 70368744177664 ltac:(lia)).
            lia.
          - apply Z.div_le_compat_l; [lia|]. split.
            + apply Z.pow_pos_nonneg; lia.
            + apply Z.pow_le_mono_r; lia. }
        lia.
      * assert (Hm : 4503599627370496 <= Zpos m) by (apply Hlo; lia).
        assert (4503599627370496 <= n).
        { unfold n. rewrite Z.shiftl_mul_pow2 by lia.
          assert (1 <= 2 ^ e) by (apply (Z.pow_le_mono_r 2 0 e); lia).
          nia. }
        lia.
Qed.

(** C9, as the code has it. The course count is the integer part of the
    number given. An input that is not a number is rejected with the
    prompt for a number; a number [x] is accepted exactly when
    [1 <= x < 51], and then the count is set to the integer part of [x],
    the index to 1 and the course list to the empty list; any other
    number is rejected. Every rejection clears the slot and utters one
    prompt. *)
Theorem course_count_validation (v : pyval) :
  (forall e, py_float v = inl e ->
             validate_number_of_courses v = count_rejected msg_count_not_number)
  /\ (forall x, py_float v = inr x -> valid_float x = true ->
        if fleb (fint 1) x && fltb x (fint 51)
        then exists n, int_of_float x = inr n /\ 1 <= n <= 50
                       /\ validate_number_of_courses v = count_accepted n
        else validate_number_of_courses v
             = count_rejected (if is_finite x then msg_count_range
                               else msg_count_not_number)).
Proof.
  unfold validate_number_of_courses, course_count_of. split.
  - intros e ->. reflexivity.
  - intros x -> Hv. cbn [rbind].
    destruct (int_of_float x) as [e|n] eqn:En.
    + destruct x as [s|s| |s m e']; try discriminate.
      * assert (C : fleb (fint 1) (S754_infinity s)
                    && fltb (S754_infinity s) (fint 51) = false)
          by (destruct s; vm_compute; reflexivity).
        rewrite C. cbn [is_finite]. reflexivity.
      * assert (C : fleb (fint 1) S754_nan && fltb S754_nan (fint 51) = false)
          by (vm_compute; reflexivity).
        rewrite C. cbn [is_finite]. reflexivity.
    + rewrite <- (integer_part_in_range _ Hv En).
      assert (is_finite x = true) as -> by (destruct x; try discriminate; reflexivity).
      destruct ((1 <=? n) && (n <=? 50)) eqn:R; cbn [negb].
      * exists n. apply andb_true_iff in R as [R1 R2].
        apply Z.leb_le in R1. apply Z.leb_le in R2. auto.
      * reflexivity.
Qed.

Lemma course_count_validation_witness :
  (py_float (VStr (u "7.5")) = inr (dec 75 1)
   /\ valid_float (dec 75 1) = true)
  /\ exists n, int_of_float (dec 75 1) = inr n /\ 1 <= n <= 50
               /\ validate_number_of_courses (VStr (u "7.5")) = count_accepted n.
Proof.
  split; [split; vm_compute; reflexivity|].
  apply (proj2 (course_count_validation (VStr (u "7.5"))) (dec 75 1));
    vm_compute; reflexivity.
Defined.

(** The number 50.9 is not between 1 and 50, and it is accepted, with
    the course count 50. *)
Lemma count_50_9_is_accepted :
  py_float (VStr (u "50.9")) = inr (dec 509 1)
  /\ fleb (dec 509 1) (fint 50) = false
  /\ validate_number_of_courses (VStr (u "50.9")) = count_accepted 50
  /\ validate_number_of_courses (VFloat (dec 509 1)) = count_accepted 50.
Proof. vm_compute. repeat split; reflexivity. Qed.

(** ** Tuition *)

Lemma fadd_finite (x y : float) :
  is_finite (fadd x y) = true -> is_finite x = true /\ is_finite y = true.
Proof.
  destruct x as [sx|sx| |sx mx ex], y as [sy|sy| |sy my ey];
    try (intros _; split; reflexivity);
    try discriminate;
    destruct sx, sy; discriminate.
Qed.

Lemma fmul_finite (x y : float) :
  is_finite (fmul x y) = true -> is_finite x = true /\ is_finite y = true.
Proof.
  destruct x as [sx|sx| |sx mx ex], y as [sy|sy| |sy my ey];
    try (intros _; split; reflexivity);
    discriminate.
Qed.

Lemma fmt_finite (x : float) : is_finite x = true -> fmt x = inr (rounded x).
Proof. destruct x; try discriminate; reflexivity. Qed.

Section TuitionProofs.
Variable repr_of : pyval -> str.

(** A run whose selection is complete and priced and whose total is a
    finite number: the reply and the store. *)
Lemma tuition_run_finite (pricing_doc : pyval) (store : Store)
      (tracker : Tracker) (gen_rate maj_rate : float) :
  truthy (get_slot tracker admission_group) = true ->
  truthy (get_slot tracker faculty) = true ->
  lookup_rates (py_or pricing_doc (VDict []))
               (get_slot tracker admission_group) (get_slot tracker faculty)
  = inr (gen_rate, maj_rate) ->
  is_finite (total_tuition (saved_row repr_of tracker gen_rate maj_rate 0))
  = true ->
  ActionCalculateTuition_run repr_of pricing_doc store tracker
  = ((inr [],
      persistence_report store ++ [breakdown repr_of tracker gen_rate maj_rate]),
     snd (save_run store (sender_id tracker)
                   (saved_row repr_of tracker gen_rate maj_rate))).
Proof.
  intros Hg Hf Hr Htot. cbn [total_tuition saved_row] in Htot.
  pose proof (fadd_finite _ _ Htot) as [Hgen Hmaj].
  pose proof (fmul_finite _ _ Hgen) as [_ Hgr].
  pose proof (fmul_finite _ _ Hmaj) as [_ Hmr].
  unfold ActionCalculateTuition_run, breakdown.
  rewrite Hg, Hf, Hr. cbn [negb orb].
  rewrite (fmt_finite _ Hgr), (fmt_finite _ Hgen), (fmt_finite _ Hmr),
    (fmt_finite _ Hmaj), (fmt_finite _ Htot).
  destruct store as [db|e]; cbn [save_run persistence_report].
  - destruct (ensure_user db (sender_id tracker)) as [uid db1].
    reflexivity.
  - reflexivity.
Qed.

Lemma bind_utter {A} (m : message) (k : Act A) :
  (utter m ;;; k) = (fst k, m :: snd k).
Proof. destruct k as [r out]. reflexivity. Qed.

Lemma bind_ret_tt {A} (k : Act A) : (ret tt ;;; k) = k.
Proof. destruct k as [r out]. reflexivity. Qed.

(** The store after a priced run, whatever the reply. *)
Lemma tuition_run_store (pricing_doc : pyval) (store : Store)
      (tracker : Tracker) (gen_rate maj_rate : float) :
  truthy (get_slot tracker admission_group) = true ->
  truthy (get_slot tracker faculty) = true ->
  lookup_rates (py_or pricing_doc (VDict []))
               (get_slot tracker admission_group) (get_slot tracker faculty)
  = inr (gen_rate, maj_rate) ->
  snd (ActionCalculateTuition_run repr_of pricing_doc store tracker)
  = snd (save_run store (sender_id tracker)
                  (saved_row repr_of tracker gen_rate maj_rate)).
Proof.
  intros Hg Hf Hr. unfold ActionCalculateTuition_run.
  rewrite Hg, Hf, Hr. cbn [negb orb].
  fold (saved_row repr_of tracker gen_rate maj_rate).
  destruct (save_run store (sender_id tracker)
                     (saved_row repr_of tracker gen_rate maj_rate)).
  reflexivity.
Qed.

(** X22. The run fails with the missing-selection message when the
    admission group or the faculty is absent, and with the
    pricing-not-found message when [pricing[group][faculty]] has no
    [general] and [major] rates that [float] reads; neither failure
    touches the store. Otherwise the total is
    [general_credits * general_rate + major_credits * major_rate]: the
    saved row carries it, and the reply ends with the breakdown that
    shows it whenever it is a finite number. On the worked example
    (rates 1000 and 2000, credits 10 and 5) the total is 20000. *)
Theorem tuition_calculation (pricing_doc : pyval) (store : Store)
        (tracker : Tracker) :
  let group := get_slot tracker admission_group in
  let fac := get_slot tracker faculty in
  let priced := lookup_rates (py_or pricing_doc (VDict [])) group fac in
  let run := ActionCalculateTuition_run repr_of pricing_doc store tracker in
  (truthy group && truthy fac = false ->
   run = ((inr [], [Text msg_tuition_missing]), store))
  /\ (truthy group && truthy fac = true ->
      forall e, priced = inl e ->
      run = ((inr [], [Text msg_pricing_not_found]), store))
  /\ (truthy group && truthy fac = true ->
      forall gen_rate maj_rate, priced = inr (gen_rate, maj_rate) ->
      let gen_cr := float_or_zero repr_of (get_slot tracker general_credits) in
      let maj_cr := float_or_zero repr_of (get_slot tracker major_credits) in
      let total := fadd (fmul gen_cr gen_rate) (fmul maj_cr maj_rate) in
      (forall uid,
          total_tuition (saved_row repr_of tracker gen_rate maj_rate uid)
          = total)
      /\ snd run = snd (save_run store (sender_id tracker)
                                 (saved_row repr_of tracker gen_rate maj_rate))
      /\ (is_finite total = true ->
          fst run = (inr [],
                     persistence_report store
                     ++ [breakdown repr_of tracker gen_rate maj_rate])))
  /\ ActionCalculateTuition_run repr_of example_pricing
       (Online empty_database) tuition_example
     = ((inr [],
         [TuitionBreakdown (u "2024–2025") (u "БИЗНЕСИЙН СУРГУУЛЬ")
            (fint 10) 1000 10000 (fint 5) 2000 10000 20000]),
        Online {| users := [(1, u "student")];
                  user_seq := 1;
                  tuition_runs :=
                    [{| user_id := 1;
                        run_admission_group := u "2024_2025";
                        run_faculty := u "БИЗНЕСИЙН СУРГУУЛЬ";
                        run_general_credits := fint 10;
                        run_major_credits := fint 5;
                        run_general_rate := fint 1000;
                        run_major_rate := fint 2000;
                        total_tuition := fint 20000 |}] |}).
Proof.
  intros group fac priced run. subst group fac priced run.
  split; [|split; [|split]].
  - intros H. unfold ActionCalculateTuition_run.
    apply andb_false_iff in H as [-> | ->]; cbn [negb orb];
      [|rewrite orb_true_r]; reflexivity.
  - intros H e He. apply andb_true_iff in H as [Hg Hf].
    unfold ActionCalculateTuition_run.
    rewrite Hg, Hf, He. reflexivity.
  - intros H gen_rate maj_rate Hr. apply andb_true_iff in H as [Hg Hf].
    cbv zeta. split; [|split].
    + reflexivity.
    + now apply tuition_run_store.
    + intros Htot.
      now rewrite (tuition_run_finite pricing_doc store tracker Hg Hf Hr Htot).
  - vm_compute. reflexivity.
Qed.

(** X23. In a run whose total has been computed and is a finite number,
    a failure of the persistence step changes neither the store nor the
    rest of the turn: the exception is caught and reported in the reply,
    the turn returns, and the breakdown with the computed total is
    uttered after the report. Whatever the total, the reply is that of a
    run whose persistence worked, with the report put first. *)
Theorem persistence_failure_is_reported (pricing_doc : pyval)
        (tracker : Tracker) (e : exn) (gen_rate maj_rate : float) :
  truthy (get_slot tracker admission_group) = true ->
  truthy (get_slot tracker faculty) = true ->
  lookup_rates (py_or pricing_doc (VDict []))
               (get_slot tracker admission_group) (get_slot tracker faculty)
  = inr (gen_rate, maj_rate) ->
  let failed :=
    ActionCalculateTuition_run repr_of pricing_doc (Failing e) tracker in
  snd failed = Failing e
  /\ (forall db,
        let worked :=
          ActionCalculateTuition_run repr_of pricing_doc (Online db) tracker in
        fst failed = (fst (fst worked), DbFailure e :: snd (fst worked)))
  /\ (is_finite (total_tuition (saved_row repr_of tracker gen_rate maj_rate 0))
      = true ->
      fst failed = (inr [], [DbFailure e;
                             breakdown repr_of tracker gen_rate maj_rate])).
Proof.
  intros Hg Hf Hr failed. subst failed. split; [|split].
  - now rewrite (tuition_run_store pricing_doc (Failing e) tracker Hg Hf Hr).
  - intros db worked. subst worked. unfold ActionCalculateTuition_run.
    rewrite Hg, Hf, Hr. cbn [negb orb save_run].
    destruct (ensure_user db (sender_id tracker)) as [uid db1].
    cbn [fst snd]. now rewrite bind_utter, bind_ret_tt.
  - intros Htot.
    now rewrite (tuition_run_finite pricing_doc (Failing e) tracker
                                    Hg Hf Hr Htot).
Qed.
End TuitionProofs.

Lemma tuition_calculation_witness :
  (truthy (get_slot tuition_example admission_group)
   && truthy (get_slot tuition_example faculty) = true
   /\ lookup_rates (py_or example_pricing (VDict []))
                   (get_slot tuition_example admission_group)
                   (get_slot tuition_example faculty)
      = inr (fint 1000, fint 2000))
  /\ total_tuition (saved_row repr_example tuition_example
                              (fint 1000) (fint 2000) 1)
     = fint 20000
  /\ rounded (fint 20000) = 20000.
Proof.
  split; [split; vm_compute; reflexivity|].
  split; [|vm_compute; reflexivity].
  rewrite (proj1 (proj1 (proj2 (proj2 (tuition_calculation
             repr_example example_pricing (Online empty_database)
             tuition_example)))
           ltac:(vm_compute; reflexivity) (fint 1000) (fint 2000)
           ltac:(vm_compute; reflexivity)) 1).
  vm_compute. reflexivity.
Defined.

Lemma persistence_failure_is_reported_witness :
  (truthy (get_slot tuition_example admission_group) = true
   /\ truthy (get_slot tuition_example faculty) = true
   /\ lookup_rates (py_or example_pricing (VDict []))
                   (get_slot tuition_example admission_group)
                   (get_slot tuition_example faculty)
      = inr (fint 1000, fint 2000)
   /\ is_finite (total_tuition (saved_row repr_example tuition_example
                                          (fint 1000) (fint 2000) 0))
      = true)
  /\ ActionCalculateTuition_run repr_example example_pricing
       (Failing (OtherError (u "database is locked"))) tuition_example
     = ((inr [],
         [DbFailure (OtherError (u "database is locked"));
          TuitionBreakdown (u "2024–2025") (u "БИЗНЕСИЙН СУРГУУЛЬ")
            (fint 10) 1000 10000 (fint 5) 2000 10000 20000]),
        Failing (OtherError (u "database is locked"))).
Proof.
  split; [repeat split; vm_compute; reflexivity|].
  destruct (@persistence_failure_is_reported repr_example example_pricing
              tuition_example (OtherError (u "database is locked"))
              (fint 1000) (fint 2000)
              ltac:(vm_compute; reflexivity) ltac:(vm_compute; reflexivity)
              ltac:(vm_compute; reflexivity))
    as (Hstore & _ & Hreply).
  specialize (Hreply ltac:(vm_compute; reflexivity)).
  apply injective_projections; [rewrite Hreply | rewrite Hstore];
    vm_compute; reflexivity.
Defined.

(** C6. The claim fails on the code when the total is not a finite
    number. The text "inf" is accepted as a number of general credits;
    with the selection complete and priced (rates 1000 and 2000) the total
    is computed as infinity and saved in the row; then [fmt] raises
    [OverflowError] before anything is uttered: the turn returns no total
    and no reply. *)
Example tuition_infinite_credits_raise :
  validate_general_credits repr_example (VStr (u "inf"))
  = (inr [(general_credits, VFloat (S754_infinity false))], [])
  /\ truthy (get_slot tuition_infinite admission_group)
     && truthy (get_slot tuition_infinite faculty) = true
  /\ lookup_rates (py_or example_pricing (VDict []))
                  (get_slot tuition_infinite admission_group)
                  (get_slot tuition_infinite faculty)
     = inr (fint 1000, fint 2000)
  /\ fadd (fmul (S754_infinity false) (fint 1000)) (fmul (fint 5) (fint 2000))
     = S754_infinity false
  /\ ActionCalculateTuition_run repr_example example_pricing
       (Online empty_database) tuition_infinite
     = ((inl OverflowError, []),
        Online {| users := [(1, u "student")];
                  user_seq := 1;
                  tuition_runs := [infinite_row] |}).
Proof. vm_compute. repeat split; reflexivity. Qed.

(** C7. The claim fails on the code when the total is not a finite
    number. With the credits "inf" the total is computed (infinity); the
    failure of the persistence step is caught and reported, and then the
    turn stops with [OverflowError] in [fmt]: no breakdown follows the
    report. *)
Example persistence_failure_then_no_breakdown :
  lookup_rates (py_or example_pricing (VDict []))
               (get_slot tuition_infinite admission_group)
               (get_slot tuition_infinite faculty)
  = inr (fint 1000, fint 2000)
  /\ total_tuition (saved_row repr_example tuition_infinite
                              (fint 1000) (fint 2000) 1)
     = S754_infinity false
  /\ ActionCalculateTuition_run repr_example example_pricing
       (Failing (OtherError (u "database is locked"))) tuition_infinite
     = ((inl OverflowError, [DbFailure (OtherError (u "database is locked"))]),
        Failing (OtherError (u "database is locked"))).
Proof. vm_compute. repeat split; reflexivity. Qed.

(** ** Grades of whole scores *)

Lemma grade_eqb_eq (a b : GradeMap) : grade_eqb a b = true -> a = b.
Proof.
  destruct a as [la ga], b as [lb gb]. unfold grade_eqb. cbn [letter gpa].
  intros H. apply andb_true_iff in H as [Hl Hg].
  apply str_eqb_eq in Hl. subst lb. f_equal.
  destruct ga as [s1|s1| |s1 m1 e1], gb as [s2|s2| |s2 m2 e2];
    try discriminate.
  - apply Bool.eqb_prop in Hg. now subst.
  - apply andb_true_iff in Hg as [Hg He].
    apply andb_true_iff in Hg as [Hs Hm].
    apply Bool.eqb_prop in Hs. apply Pos.eqb_eq in Hm. apply Z.eqb_eq in He.
    now subst.
Qed.

Lemma whole_numbers_in (n lo : Z) (count : nat) :
  lo <= n < lo + Z.of_nat count -> In n (whole_numbers lo count).
Proof.
  revert lo. induction count as [|k IH]; intros lo H.
  - lia.
  - cbn [whole_numbers]. destruct (Z.eq_dec n lo) as [-> | Hne].
    + now left.
    + right. apply IH. lia.
Qed.

Lemma whole_score_table :
  forallb (fun k => grade_eqb (score_to_grade (fint k)) (band k))
          (whole_numbers 0 101) = true.
Proof. vm_compute; reflexivity. Qed.

(** X2. On the whole scores from 0 to 100 [score_to_grade] is the breakpoint
    table: the bands are inclusive and leave no whole score out. *)
Theorem score_to_grade_whole_scores (n : Z) :
  0 <= n <= 100 -> score_to_grade (fint n) = band n.
Proof.
  intros H. apply grade_eqb_eq.
  pose proof whole_score_table as A.
  rewrite forallb_forall in A. apply A. apply whole_numbers_in. lia.
Qed.

Lemma score_to_grade_whole_scores_witness :
  0 <= 70 <= 100
  /\ score_to_grade (fint 70) = {| letter := u "C-"; gpa := dec 19 1 |}.
Proof.
  split; [lia|]. apply (@score_to_grade_whole_scores 70). lia.
Defined.

(** ** Loading of the catalog *)

Section CatalogLoading.
Variable repr_of : pyval -> str.

Lemma build_indexes_returns (places : list pydict) :
  Forall aliases_iterable places ->
  forall ai kni, exists idx, build_indexes repr_of places ai kni = inr idx.
Proof.
  induction 1 as [|p places [l Hl] _ IH]; intros ai kni.
  - simpl. eauto.
  - cbn [build_indexes]. rewrite Hl. cbn [rbind]. apply IH.
Qed.

(** X3. [load_places] returns a catalog for every document whose [places] is
    a list and whose kept records have aliases that can be looped over;
    it also returns, with an empty catalog, when the document is not a
    mapping. *)
Theorem load_places_returns (data : pyval) :
  (forall d raw,
      data = VDict d -> dict_get d (u "places") (VList []) = VList raw ->
      Forall aliases_iterable (keep_places repr_of raw) ->
      exists ai kni,
        load_places repr_of data
        = inr {| alias_index := ai; kind_num_index := kni;
                 all_places := keep_places repr_of raw |})
  /\ ((forall d, data <> VDict d) ->
      load_places repr_of data = inr empty_catalog).
Proof.
  split.
  - intros d raw -> Hraw Hal. unfold load_places. rewrite Hraw.
    cbn [py_iter rbind].
    destruct (build_indexes_returns Hal [] []) as [[ai kni] ->].
    cbn [rbind fst snd]. eauto.
  - intros H. destruct data; try reflexivity. now destruct (H items).
Qed.
End CatalogLoading.

(** ** Agreement with the kernel's binary64 numbers *)

(** The literals and the arithmetic of the examples, computed with the
    kernel's own floating-point numbers, give the same values. *)
Example binary64_agreement :
  Prim2SF 74.9%float = dec 749 1
  /\ Prim2SF 50.9%float = dec 509 1
  /\ Prim2SF 3.7%float = dec 37 1
  /\ Prim2SF 1.9%float = dec 19 1
  /\ Prim2SF ((3 * 4.0 + 2 * 2.0) / 5)%float
     = fdiv (fadd (fmul (fint 3) (dec 40 1)) (fmul (fint 2) (dec 20 1)))
            (fint 5)
  /\ Prim2SF (10 * 1000 + 5 * 2000)%float = fint 20000
  /\ float_of_str (u "74.9") = Some (Prim2SF 74.9%float)
  /\ float_of_str (u " 1_0.5e-1 ") = Some (Prim2SF 1.05%float)
  /\ float_of_str (u "1e400") = Some (Prim2SF infinity)
  /\ float_of_str (u "5e-324") = Some (Prim2SF 5e-324%float).
Proof. vm_compute. repeat split; reflexivity. Qed.

(** [int] and [float] do not drop the separators U+001C to U+001F that
    [str.strip] drops: a text that starts with one is not a number, and
    [_to_float], which strips first, reads it. *)
Example number_white_space :
  int_of_str [28; 53]%N = None
  /\ float_of_str [28; 53]%N = None
  /\ int_of_str [32; 53; 160]%N = Some 5
  /\ strip [28; 53]%N = [53]%N
  /\ _to_float repr_example (VStr [28; 53]%N) = Some (fint 5).
Proof. vm_compute. repeat split; reflexivity. Qed.

(** A record whose number is not an [int] is not a forbidden pair for
    [load_places]: the building 4 written as the float 4.0 is kept in the
    list and behind its alias, and is in no index by kind and number. *)
Example float_number_is_kept :
  let doc :=
    VDict [(u "places", VList [
      VDict [(k_kind, VStr kind_dorm); (k_number, VFloat (fint 4));
             (k_title, VStr (u "Дотуур байр 4"));
             (k_aliases, VList [VStr (u "4-р дотуур байр")])]])] in
  exists cat,
    load_places repr_example doc = inr cat
    /\ List.length (all_places cat) = 1%nat
    /\ List.length (alias_index cat) = 1%nat
    /\ kind_num_index cat = [].
Proof.
  cbv zeta. eexists. split; [reflexivity|]. repeat split.
Qed.

(** ** The store of tuition runs *)

Lemma find_user_none (us : list (Z * str)) (sender : str) :
  find_user us sender = None -> ~ In sender (map snd us).
Proof.
  induction us as [|[i s] us IH]; simpl; [tauto|].
  destruct (str_eqb s sender) eqn:E; [discriminate|].
  intros H [Hs | Hin].
  - subst s. now rewrite str_eqb_refl in E.
  - now apply IH.
Qed.

Lemma find_user_some (us : list (Z * str)) (sender : str) (id : Z) :
  find_user us sender = Some id -> In (id, sender) us.
Proof.
  induction us as [|[i s] us IH]; simpl; [discriminate|].
  destruct (str_eqb s sender) eqn:E.
  - intros [= ->]. apply str_eqb_eq in E. subst. now left.
  - intros H. right. now apply IH.
Qed.

Lemma find_user_app (us : list (Z * str)) (sender : str) (id : Z)
      (more : list (Z * str)) :
  find_user us sender = Some id -> find_user (us ++ more) sender = Some id.
Proof.
  induction us as [|[i s] us IH]; simpl; [discriminate|].
  destruct (str_eqb s sender); [trivial | exact IH].
Qed.

Lemma find_user_new (us : list (Z * str)) (sender : str) (id : Z) :
  find_user us sender = None ->
  find_user (us ++ [(id, sender)]) sender = Some id.
Proof.
  induction us as [|[i s] us IH]; simpl.
  - now rewrite str_eqb_refl.
  - destruct (str_eqb s sender); [discriminate | exact IH].
Qed.

Lemma largest_id_bounds (us : list (Z * str)) :
  Forall (fun i => i <= fold_right (fun r m => Z.max (fst r) m) 0 us)
         (map fst us).
Proof.
  induction us as [|[i s] us IH]; cbn [map fst fold_right].
  - constructor.
  - constructor; [lia|].
    eapply Forall_impl; [|exact IH]. cbv beta. intros a Ha. lia.
Qed.

Lemma next_user_id_fresh (db : Database) :
  user_seq db < next_user_id db
  /\ Forall (fun i => i < next_user_id db) (map fst (users db)).
Proof.
  unfold next_user_id. split; [lia|].
  eapply Forall_impl; [|apply largest_id_bounds]. cbv beta. intros a Ha. lia.
Qed.

Lemma ensure_user_found (db : Database) (sender : str) :
  find_user (users (snd (ensure_user db sender))) sender
  = Some (fst (ensure_user db sender)).
Proof.
  unfold ensure_user.
  destruct (find_user (users db) sender) as [id|] eqn:F; cbn [fst snd users].
  - exact F.
  - apply find_user_new. exact F.
Qed.

Lemma ensure_user_runs (db : Database) (sender : str) :
  tuition_runs (snd (ensure_user db sender)) = tuition_runs db.
Proof.
  unfold ensure_user. destruct (find_user (users db) sender); reflexivity.
Qed.

(** X4. [ensure_user] registers a sender once and uses up an id at
    every call. It returns the id under which the sender is registered
    afterwards; a second call returns the same id and leaves the users as
    they are; every user registered before keeps its id, and no run is
    touched. The sequence of [users] moves forward at every call, also
    when the sender is known, so the id given to a new sender is above
    the sequence and above every id in the table: an id is never handed
    out twice. *)
Theorem ensure_user_registers (db : Database) (sender : str) :
  let id := fst (ensure_user db sender) in
  let db1 := snd (ensure_user db sender) in
  find_user (users db1) sender = Some id
  /\ (fst (ensure_user db1 sender) = id
      /\ users (snd (ensure_user db1 sender)) = users db1
      /\ user_seq db1 < user_seq (snd (ensure_user db1 sender)))
  /\ (forall other i, find_user (users db) other = Some i ->
                      find_user (users db1) other = Some i)
  /\ tuition_runs db1 = tuition_runs db
  /\ user_seq db < user_seq db1
  /\ Forall (fun i => i <= user_seq db1) (map fst (users db1))
  /\ (find_user (users db) sender = None ->
      user_seq db < id /\ Forall (fun i => i < id) (map fst (users db))).
Proof.
  destruct (next_user_id_fresh db) as [Hseq Hids].
  assert (Hle : Forall (fun i => i <= next_user_id db) (map fst (users db))).
  { eapply Forall_impl; [|exact Hids]. cbv beta. intros a Ha. lia. }
  cbv zeta. destruct (ensure_user db sender) as [id db1] eqn:E.
  unfold ensure_user in E. cbn [fst snd].
  destruct (find_user (users db) sender) as [uid|] eqn:F;
    injection E as <- <-; cbn [users user_seq tuition_runs].
  - split; [exact F|]. split.
    + unfold ensure_user. cbn [users]. rewrite F. cbn [fst snd users user_seq].
      split; [reflexivity|]. split; [reflexivity|].
      unfold next_user_id. cbn [users user_seq]. lia.
    + split; [auto|]. split; [reflexivity|]. split; [exact Hseq|].
      split; [exact Hle | discriminate].
  - pose proof (find_user_new _ _ (next_user_id db) F) as Hnew.
    split; [exact Hnew|]. split.
    + unfold ensure_user. cbn [users]. rewrite Hnew.
      cbn [fst snd users user_seq].
      split; [reflexivity|]. split; [reflexivity|].
      unfold next_user_id. cbn [users user_seq]. lia.
    + split; [intros other i H; now apply find_user_app|].
      split; [reflexivity|]. split; [exact Hseq|]. split.
      * rewrite map_app, Forall_app. split; [exact Hle|].
        cbn [map fst]. constructor; [lia | constructor].
      * intros _. split; [exact Hseq | exact Hids].
Qed.

(** Five calls for the senders a, b, a, c, d give the ids 1, 2, 1, 4, 5:
    the third call registers nobody and uses up the id 3. *)
Example ensure_user_sequence :
  let step := fun acc sender =>
                let '(id, db) := ensure_user (snd acc) sender in
                (fst acc ++ [id], db) in
  fold_left step [u "a"; u "b"; u "a"; u "c"; u "d"] ([], empty_database)
  = ([1; 2; 1; 4; 5],
     {| users := [(1, u "a"); (2, u "b"); (4, u "c"); (5, u "d")];
        user_seq := 5;
        tuition_runs := [] |}).
Proof. vm_compute. reflexivity. Qed.

Lemma NoDup_snoc {A} (l : list A) (x : A) :
  NoDup l -> ~ In x l -> NoDup (l ++ [x]).
Proof.
  induction 1 as [|y l Hy Hl IH]; simpl; intros Hx.
  - constructor; [tauto | constructor].
  - constructor.
    + rewrite in_app_iff. simpl. intuition congruence.
    + apply IH. tauto.
Qed.

Lemma ensure_user_ok (db : Database) (sender : str) :
  database_ok db -> database_ok (snd (ensure_user db sender)).
Proof.
  intros (Hs & Hi & Hr). unfold ensure_user.
  destruct (find_user (users db) sender) as [id|] eqn:F; cbn [snd].
  - unfold database_ok. cbn [users tuition_runs]. repeat split; assumption.
  - unfold database_ok. cbn [users tuition_runs].
    rewrite !map_app. cbn [map fst snd]. repeat split.
    + apply NoDup_snoc; [assumption | now apply find_user_none].
    + apply NoDup_snoc; [assumption|].
      intros Hin. pose proof (proj2 (next_user_id_fresh db)) as Hf.
      rewrite Forall_forall in Hf. specialize (Hf _ Hin). lia.
    + eapply Forall_impl; [|exact Hr]. simpl. intros row Hrow.
      apply in_or_app. now left.
Qed.

Lemma save_run_ok (db : Database) (sender : str) (row : Z -> TuitionRun) :
  (forall uid, user_id (row uid) = uid) ->
  database_ok db ->
  exists db',
    snd (save_run (Online db) sender row) = Online db'
    /\ database_ok db'
    /\ (exists uid, tuition_runs db' = tuition_runs db ++ [row uid]
                    /\ find_user (users db') sender = Some uid)
    /\ (exists new, users db' = users db ++ new).
Proof.
  intros Hrow Hok. cbn [save_run].
  pose proof (ensure_user_found db sender) as Hfind.
  pose proof (ensure_user_runs db sender) as Hruns.
  pose proof (ensure_user_ok sender Hok) as (Hs & Hi & Hr).
  assert (Hnew : exists new, users (snd (ensure_user db sender))
                             = users db ++ new).
  { unfold ensure_user. destruct (find_user (users db) sender); cbn [snd users].
    - exists []. now rewrite app_nil_r.
    - eauto. }
  destruct (ensure_user db sender) as [uid db1]. cbn [fst snd] in *.
  eexists. split; [reflexivity|]. unfold database_ok.
  cbn [users tuition_runs]. repeat split.
  - assumption.
  - assumption.
  - rewrite Forall_app. split; [assumption|].
    constructor; [|constructor]. rewrite Hrow.
    apply find_user_some in Hfind.
    apply (in_map fst) in Hfind. exact Hfind.
  - exists uid. now rewrite Hruns.
  - exact Hnew.
Qed.

Section StoreProofs.
Variable repr_of : pyval -> str.

(** X5. A turn of the tuition calculator keeps the constraints of the store
    and only ever appends: the users and the runs present before the turn
    are still there, in place; at most one run is added, and it belongs
    to the sender of the turn. *)
Theorem tuition_run_appends (pricing_doc : pyval) (db : Database)
        (tracker : Tracker) :
  database_ok db ->
  exists db',
    snd (ActionCalculateTuition_run repr_of pricing_doc (Online db) tracker)
    = Online db'
    /\ database_ok db'
    /\ (exists new, users db' = users db ++ new)
    /\ (tuition_runs db' = tuition_runs db
        \/ exists row,
             tuition_runs db' = tuition_runs db ++ [row]
             /\ find_user (users db') (sender_id tracker) = Some (user_id row)).
Proof.
  intros Hok. unfold ActionCalculateTuition_run.
  assert (Hsame : exists db', Online db = Online db' /\ database_ok db'
            /\ (exists new, users db' = users db ++ new)
            /\ (tuition_runs db' = tuition_runs db
                \/ exists row,
                     tuition_runs db' = tuition_runs db ++ [row]
                     /\ find_user (users db') (sender_id tracker)
                        = Some (user_id row))).
  { exists db. split; [reflexivity|]. split; [exact Hok|].
    split; [exists []; now rewrite app_nil_r | now left]. }
  destruct (negb _ || negb _); [exact Hsame|].
  destruct (lookup_rates _ _ _) as [e|[gen_rate maj_rate]]; [exact Hsame|].
  match goal with
  | |- context [save_run (Online db) ?s ?row] =>
    destruct (@save_run_ok db s row (fun _ => eq_refl) Hok)
      as (db' & Hstore & Hok' & (uid & Hruns & Hfind) & Hnew);
    destruct (save_run (Online db) s row) as [saved store'] eqn:Es
  end.
  cbn [snd] in *. subst store'. exists db'.
  split; [reflexivity|]. split; [exact Hok'|]. split; [exact Hnew|].
  right. eexists. split; [exact Hruns | exact Hfind].
Qed.

(** A store that fails is left as it is, whatever the turn does. *)
Theorem failing_store_is_untouched (pricing_doc : pyval) (e : exn)
        (tracker : Tracker) :
  snd (ActionCalculateTuition_run repr_of pricing_doc (Failing e) tracker)
  = Failing e.
Proof.
  unfold ActionCalculateTuition_run.
  destruct (negb _ || negb _); [reflexivity|].
  destruct (lookup_rates _ _ _) as [e'|[gen_rate maj_rate]]; reflexivity.
Qed.
End StoreProofs.

Lemma tuition_run_appends_witness :
  database_ok empty_database
  /\ exists db',
      snd (ActionCalculateTuition_run repr_example example_pricing
             (Online empty_database) tuition_example) = Online db'
      /\ database_ok db'
      /\ (exists new, users db' = users empty_database ++ new)
      /\ (tuition_runs db' = tuition_runs empty_database
          \/ exists row,
               tuition_runs db' = tuition_runs empty_database ++ [row]
               /\ find_user (users db') (sender_id tuition_example)
                  = Some (user_id row)).
Proof.
  assert (H : database_ok empty_database)
    by (split; [|split]; constructor).
  split; [exact H|].
  apply (@tuition_run_appends repr_example example_pricing empty_database
           tuition_example H).
Defined.

(** ** The indexes of the catalog *)

Section IndexLemmas.
Context {K : Type} (eqb : K -> K -> bool).
Hypothesis eqb_eq : forall a b, eqb a b = true <-> a = b.

Lemma eqb_same (k : K) : eqb k k = true.
Proof. now apply eqb_eq. Qed.

Lemma index_get_set_same (k : K) (v : pydict) (d : list (K * pydict)) :
  index_get eqb k (index_set eqb k v d) = Some v.
Proof.
  induction d as [|[k' v'] d IH]; simpl.
  - now rewrite eqb_same.
  - destruct (eqb k' k) eqn:E; simpl; rewrite E; [reflexivity | exact IH].
Qed.

Lemma index_get_set_other (k k' : K) (v : pydict) (d : list (K * pydict)) :
  k' <> k ->
  index_get eqb k' (index_set eqb k v d) = index_get eqb k' d.
Proof.
  intros Hne. induction d as [|[k2 v2] d IH]; simpl.
  - destruct (eqb k k') eqn:E; [|reflexivity].
    apply eqb_eq in E. congruence.
  - destruct (eqb k2 k) eqn:E; simpl.
    + apply eqb_eq in E. subst k2.
      destruct (eqb k k') eqn:E'; [|reflexivity].
      apply eqb_eq in E'. congruence.
    + destruct (eqb k2 k'); [reflexivity | exact IH].
Qed.

(** A key once set stays in the index. *)
Lemma index_set_keeps (k k' : K) (v : pydict) (d : list (K * pydict)) :
  (exists q, index_get eqb k' d = Some q) ->
  exists q, index_get eqb k' (index_set eqb k v d) = Some q.
Proof.
  intros H. destruct (eqb k' k) eqn:E.
  - apply eqb_eq in E. subst k'. rewrite index_get_set_same. eauto.
  - rewrite index_get_set_other; [exact H|].
    intros ->. now rewrite eqb_same in E.
Qed.

Lemma index_set_entries (k : K) (v : pydict) (d : list (K * pydict))
      (k' : K) (v' : pydict) :
  In (k', v') (index_set eqb k v d) ->
  (k' = k /\ v' = v) \/ In (k', v') d.
Proof.
  induction d as [|[k2 v2] d IH]; simpl.
  - intros [[= <- <-] | []]. now left.
  - destruct (eqb k2 k) eqn:E; simpl.
    + intros [[= <- <-] | H].
      * apply eqb_eq in E. now left.
      * right. now right.
    + intros [H | H]; [right; now left|].
      destruct (IH H) as [? | ?]; [now left | right; now right].
Qed.

Lemma index_get_entry (k : K) (v : pydict) (d : list (K * pydict)) :
  index_get eqb k d = Some v -> In (k, v) d.
Proof.
  induction d as [|[k2 v2] d IH]; simpl; [discriminate|].
  destruct (eqb k2 k) eqn:E.
  - intros [= ->]. apply eqb_eq in E. subst. now left.
  - intros H. right. now apply IH.
Qed.

Lemma index_set_keys (k : K) (v : pydict) (d : list (K * pydict)) :
  NoDup (map fst d) -> NoDup (map fst (index_set eqb k v d)).
Proof.
  induction d as [|[k2 v2] d IH]; simpl; intros H.
  - constructor; [tauto | constructor].
  - inversion H as [|? ? Hk Hd]; subst.
    destruct (eqb k2 k) eqn:E; simpl.
    + exact H.
    + constructor; [|now apply IH].
      intros Hin. apply in_map_iff in Hin as [[k3 v3] [Hk3 Hin]].
      simpl in Hk3. subst k3.
      apply index_set_entries in Hin as [[-> _] | Hin].
      * now rewrite eqb_same in E.
      * apply Hk. apply in_map_iff. now exists (k2, v3).
Qed.
End IndexLemmas.

Section CatalogIndexes.
Variable repr_of : pyval -> str.
Variable kept : list pydict.

Let alias_sound (ap : str * pydict) : Prop :=
  In (snd ap) kept /\ lists_alias repr_of (snd ap) (fst ap).

Let key_sound (kp : (str * Z) * pydict) : Prop :=
  In (snd kp) kept /\ has_kind_number repr_of (snd kp) (fst kp).

Lemma add_aliases_sound (p : pydict) (l : list pyval) :
  In p kept -> aliases_of p = inr l ->
  forall (some : list pyval) (ai : list (str * pydict)),
    incl some l -> Forall alias_sound ai ->
    Forall alias_sound (add_aliases repr_of p some ai).
Proof.
  intros Hp Hl. unfold add_aliases.
  induction some as [|a some IH]; intros ai Hincl Hai; simpl.
  - exact Hai.
  - apply IH.
    + intros x Hx. apply Hincl. now right.
    + apply index_set_Forall.
      * exact Hai.
      * split; [exact Hp|]. exists l, a. repeat split; auto.
        apply Hincl. now left.
      * intros k' v' _ E. apply str_eqb_eq in E. subst k'.
        split; [exact Hp|]. exists l, a. repeat split; auto.
        apply Hincl. now left.
Qed.

Lemma add_kind_num_sound (p : pydict) (kni : list ((str * Z) * pydict)) :
  In p kept -> Forall key_sound kni ->
  Forall key_sound (add_kind_num repr_of p kni).
Proof.
  intros Hp Hk. unfold add_kind_num.
  destruct (as_int (dict_get p k_number VNone)) as [n|] eqn:A; [|exact Hk].
  destruct (truthy (dict_get p k_kind VNone)) eqn:T; [|exact Hk].
  assert (Hnew : key_sound (py_str repr_of (dict_get p k_kind VNone), n, p)).
  { split; [exact Hp|]. repeat split; assumption. }
  apply index_set_Forall.
  - exact Hk.
  - exact Hnew.
  - intros k' v' _ E. apply kn_eqb_eq in E. now subst k'.
Qed.

Lemma build_indexes_sound (places : list pydict) :
  incl places kept ->
  forall ai kni ai' kni',
    Forall alias_sound ai -> Forall key_sound kni ->
    build_indexes repr_of places ai kni = inr (ai', kni') ->
    Forall alias_sound ai' /\ Forall key_sound kni'.
Proof.
  induction places as [|p places IH]; intros Hincl ai kni ai' kni' Ha Hk;
    cbn [build_indexes].
  - intros [= <- <-]. auto.
  - fold (aliases_of p).
    destruct (aliases_of p) as [e|l] eqn:Hl; cbn [rbind]; [discriminate|].
    assert (Hp : In p kept) by (apply Hincl; now left).
    apply IH.
    + intros x Hx. apply Hincl. now right.
    + apply add_aliases_sound with (l := l);
        [exact Hp | exact Hl | apply incl_refl | exact Ha].
    + now apply add_kind_num_sound.
Qed.
End CatalogIndexes.

Section CatalogComplete.
Variable repr_of : pyval -> str.

Lemma add_aliases_keeps (p : pydict) (l : list pyval) (key : str) :
  forall ai, alias_present key ai ->
             alias_present key (add_aliases repr_of p l ai).
Proof.
  unfold add_aliases. induction l as [|a l IH]; intros ai H; simpl.
  - exact H.
  - apply IH. apply index_set_keeps; [exact str_eqb_eq | exact H].
Qed.

Lemma add_aliases_complete (p : pydict) (l : list pyval) (a : pyval) :
  In a l ->
  forall ai, alias_present (norm (py_str repr_of a))
                           (add_aliases repr_of p l ai).
Proof.
  induction l as [|a0 l IH]; intros Hin ai; [contradiction|].
  destruct Hin as [-> | Hin].
  - change (add_aliases repr_of p (a :: l) ai)
      with (add_aliases repr_of p l
              (index_set str_eqb (norm (py_str repr_of a)) p ai)).
    apply add_aliases_keeps. exists p.
    apply index_get_set_same. exact str_eqb_eq.
  - change (add_aliases repr_of p (a0 :: l) ai)
      with (add_aliases repr_of p l
              (index_set str_eqb (norm (py_str repr_of a0)) p ai)).
    now apply IH.
Qed.

Lemma add_kind_num_keeps (p : pydict) (key : str * Z)
      (kni : list ((str * Z) * pydict)) :
  key_present key kni -> key_present key (add_kind_num repr_of p kni).
Proof.
  intros H. unfold add_kind_num.
  destruct (as_int _); [|exact H]. destruct (truthy _); [|exact H].
  apply index_set_keeps; [exact kn_eqb_eq | exact H].
Qed.

Lemma add_kind_num_complete (p : pydict) (key : str * Z)
      (kni : list ((str * Z) * pydict)) :
  has_kind_number repr_of p key ->
  key_present key (add_kind_num repr_of p kni).
Proof.
  intros (T & Hk & Hn). unfold add_kind_num. rewrite Hn, T, Hk.
  exists p. destruct key as [k n]. apply index_get_set_same. exact kn_eqb_eq.
Qed.

Lemma build_indexes_keeps (places : list pydict) :
  forall ai kni ai' kni',
    build_indexes repr_of places ai kni = inr (ai', kni') ->
    (forall key, alias_present key ai -> alias_present key ai')
    /\ (forall key, key_present key kni -> key_present key kni').
Proof.
  induction places as [|p places IH]; intros ai kni ai' kni';
    cbn [build_indexes].
  - intros [= <- <-]. auto.
  - destruct (py_iter _) as [e|l]; cbn [rbind]; [discriminate|].
    intros H. destruct (IH _ _ _ _ H) as [Ha Hk]. split.
    + intros key Hp. apply Ha. now apply add_aliases_keeps.
    + intros key Hp. apply Hk. now apply add_kind_num_keeps.
Qed.

Lemma build_indexes_complete (places : list pydict) :
  forall ai kni ai' kni',
    build_indexes repr_of places ai kni = inr (ai', kni') ->
    forall p, In p places ->
      (forall key, lists_alias repr_of p key -> alias_present key ai')
      /\ (forall key, has_kind_number repr_of p key -> key_present key kni').
Proof.
  induction places as [|p0 places IH]; intros ai kni ai' kni';
    cbn [build_indexes]; [contradiction|].
  fold (aliases_of p0).
  destruct (aliases_of p0) as [e|l] eqn:Hl; cbn [rbind]; [discriminate|].
  intros H p [<- | Hin].
  - destruct (build_indexes_keeps _ _ _ H) as [Ha Hk]. split.
    + intros key (l' & a & Hl' & Hin & <-).
      rewrite Hl in Hl'. injection Hl' as <-.
      apply Ha. now apply add_aliases_complete.
    + intros key Hkey. apply Hk. now apply add_kind_num_complete.
  - exact (IH _ _ _ _ H p Hin).
Qed.
End CatalogComplete.

Section CatalogExact.
Variable repr_of : pyval -> str.

Lemma add_aliases_keys (p : pydict) (l : list pyval) :
  forall ai, NoDup (map fst ai) ->
             NoDup (map fst (add_aliases repr_of p l ai)).
Proof.
  unfold add_aliases. induction l as [|a l IH]; intros ai H; simpl.
  - exact H.
  - apply IH. apply index_set_keys; [exact str_eqb_eq | exact H].
Qed.

Lemma add_kind_num_keys (p : pydict) (kni : list ((str * Z) * pydict)) :
  NoDup (map fst kni) -> NoDup (map fst (add_kind_num repr_of p kni)).
Proof.
  intros H. unfold add_kind_num.
  destruct (as_int _); [|exact H]. destruct (truthy _); [|exact H].
  apply index_set_keys; [exact kn_eqb_eq | exact H].
Qed.

Lemma build_indexes_keys (places : list pydict) :
  forall ai kni ai' kni',
    NoDup (map fst ai) -> NoDup (map fst kni) ->
    build_indexes repr_of places ai kni = inr (ai', kni') ->
    NoDup (map fst ai') /\ NoDup (map fst kni').
Proof.
  induction places as [|p places IH]; intros ai kni ai' kni' Ha Hk;
    cbn [build_indexes].
  - intros [= <- <-]. auto.
  - destruct (py_iter _) as [e|l]; cbn [rbind]; [discriminate|].
    apply IH; [now apply add_aliases_keys | now apply add_kind_num_keys].
Qed.

(** What [load_places] does when it returns. *)
Lemma load_places_inv (data : pyval) (cat : Catalog) :
  load_places repr_of data = inr cat ->
  exists raw,
    py_iter (match data with
             | VDict d => dict_get d (u "places") (VList [])
             | _ => VList []
             end) = inr raw
    /\ all_places cat = keep_places repr_of raw
    /\ build_indexes repr_of (keep_places repr_of raw) [] []
       = inr (alias_index cat, kind_num_index cat).
Proof.
  unfold load_places.
  destruct (py_iter _) as [e|raw]; cbn [rbind]; [discriminate|].
  destruct (build_indexes _ _ _ _) as [e|[ai kni]] eqn:B; cbn [rbind];
    [discriminate|].
  intros [= <-]. exists raw. auto.
Qed.



(** X7. The alias index has a key exactly when a kept record lists an alias
    with that normal form; what it returns for the key is a kept record
    that lists such an alias; no key occurs twice. *)
Theorem alias_index_exact (data : pyval) (cat : Catalog) :
  load_places repr_of data = inr cat ->
  (forall key,
      (exists q, index_get str_eqb key (alias_index cat) = Some q)
      <-> (exists p, In p (all_places cat) /\ lists_alias repr_of p key))
  /\ (forall key q,
        index_get str_eqb key (alias_index cat) = Some q ->
        In q (all_places cat) /\ lists_alias repr_of q key)
  /\ NoDup (map fst (alias_index cat)).
Proof.
  intros H. apply load_places_inv in H as (raw & _ & Hall & B).
  rewrite Hall.
  destruct (@build_indexes_sound repr_of (keep_places repr_of raw)
              (keep_places repr_of raw) (incl_refl _) [] []
              (alias_index cat) (kind_num_index cat)
              (Forall_nil _) (Forall_nil _) B) as [Hsound _].
  assert (Hs : forall key q,
             index_get str_eqb key (alias_index cat) = Some q ->
             In q (keep_places repr_of raw) /\ lists_alias repr_of q key).
  { intros key q Hq. apply index_get_entry in Hq; [|exact str_eqb_eq].
    rewrite Forall_forall in Hsound. exact (Hsound _ Hq). }
  split; [|split].
  - intros key. split.
    + intros [q Hq]. exists q. now apply Hs.
    + intros (p & Hin & Hal).
      now apply (@build_indexes_complete repr_of (keep_places repr_of raw)
                   [] [] _ _ B p Hin).
  - exact Hs.
  - now apply (@build_indexes_keys (keep_places repr_of raw) [] []
                 _ _ (NoDup_nil _) (NoDup_nil _) B).
Qed.

(** X8. A kept record with a kind and an [int] number is found by that kind
    and number; what a lookup by kind and number returns is a kept record
    with that kind and number; no pair occurs twice in the index. *)
Theorem kind_number_index_exact (data : pyval) (cat : Catalog) :
  load_places repr_of data = inr cat ->
  (forall p key,
      In p (all_places cat) -> has_kind_number repr_of p key ->
      exists q, by_kind_number cat (fst key) (snd key) = Some q)
  /\ (forall key q,
        by_kind_number cat (fst key) (snd key) = Some q ->
        In q (all_places cat) /\ has_kind_number repr_of q key)
  /\ NoDup (map fst (kind_num_index cat)).
Proof.
  intros H. apply load_places_inv in H as (raw & _ & Hall & B).
  rewrite Hall.
  destruct (@build_indexes_sound repr_of (keep_places repr_of raw)
              (keep_places repr_of raw) (incl_refl _) [] []
              (alias_index cat) (kind_num_index cat)
              (Forall_nil _) (Forall_nil _) B) as [_ Hsound].
  assert (Hs : forall key q,
             index_get kn_eqb key (kind_num_index cat) = Some q ->
             In q (keep_places repr_of raw) /\ has_kind_number repr_of q key).
  { intros key q Hq. apply index_get_entry in Hq; [|exact kn_eqb_eq].
    rewrite Forall_forall in Hsound. exact (Hsound _ Hq). }
  assert (Hfull : forall q key, has_kind_number repr_of q key ->
                                truthy (VDict q) = true).
  { intros q key (T & _). destruct q; [discriminate T | reflexivity]. }
  split; [|split].
  - intros p [k n] Hin Hkey.
    destruct (proj2 (@build_indexes_complete repr_of
                       (keep_places repr_of raw) [] [] _ _ B p Hin) _ Hkey)
      as [q Hq].
    exists q. unfold by_kind_number, found. cbn [fst snd]. rewrite Hq.
    destruct (Hs _ _ Hq) as [_ Hk]. now rewrite (Hfull _ _ Hk).
  - intros [k n] q. unfold by_kind_number, found. cbn [fst snd].
    destruct (index_get kn_eqb (k, n) (kind_num_index cat)) as [q'|] eqn:Hq;
      [|discriminate].
    destruct (truthy (VDict q')); [|discriminate].
    intros [= <-]. now apply Hs.
  - now apply (@build_indexes_keys (keep_places repr_of raw) [] []
                 _ _ (NoDup_nil _) (NoDup_nil _) B).
Qed.
End CatalogExact.


Lemma alias_index_exact_witness :
  load_places repr_example example_locations = inr example_catalog
  /\ (forall key q,
        index_get str_eqb key (alias_index example_catalog) = Some q ->
        In q (all_places example_catalog) /\ lists_alias repr_example q key).
Proof.
  split; [vm_compute; reflexivity|].
  apply (@alias_index_exact repr_example example_locations example_catalog).
  vm_compute; reflexivity.
Defined.

Lemma kind_number_index_exact_witness :
  load_places repr_example example_locations = inr example_catalog
  /\ (forall key q,
        by_kind_number example_catalog (fst key) (snd key) = Some q ->
        In q (all_places example_catalog)
        /\ has_kind_number repr_example q key).
Proof.
  split; [vm_compute; reflexivity|].
  apply (@kind_number_index_exact repr_example example_locations
           example_catalog).
  vm_compute; reflexivity.
Defined.

(** ** Stripping *)

Lemma lstrip_split (s : str) :
  exists pre, s = pre ++ lstrip s /\ forallb is_space pre = true.
Proof.
  induction s as [|c s (pre & Hs & Hpre)]; simpl.
  - exists []. auto.
  - destruct (is_space c) eqn:E.
    + exists (c :: pre). simpl. rewrite E, Hpre. split; [now f_equal | reflexivity].
    + exists []. auto.
Qed.

Lemma lstrip_head (s : str) (c : char) (t : str) :
  lstrip s = c :: t -> is_space c = false.
Proof.
  induction s as [|x s IH]; simpl; [discriminate|].
  destruct (is_space x) eqn:E; [exact IH|].
  intros [= <- <-]. exact E.
Qed.

Lemma lstrip_fixed (s : str) :
  match s with [] => True | c :: _ => is_space c = false end ->
  lstrip s = s.
Proof. destruct s as [|c s]; simpl; [reflexivity|]. now intros ->. Qed.

Lemma lstrip_idempotent (s : str) : lstrip (lstrip s) = lstrip s.
Proof.
  apply lstrip_fixed. destruct (lstrip s) as [|c t] eqn:E; [exact I|].
  eapply lstrip_head. exact E.
Qed.

Lemma rstrip_idempotent (s : str) : rstrip (rstrip s) = rstrip s.
Proof.
  unfold rstrip. now rewrite rev_involutive, lstrip_idempotent.
Qed.

(** [rstrip] keeps a first character that is not a space. *)
Lemma rstrip_head (c : char) (t : str) :
  is_space c = false -> exists t', rstrip (c :: t) = c :: t'.
Proof.
  intros Hc. unfold rstrip.
  destruct (lstrip_split (rev (c :: t))) as (pre & Hs & Hpre).
  assert (E : c :: t = rev (lstrip (rev (c :: t))) ++ rev pre).
  { rewrite <- rev_app_distr, <- Hs. now rewrite rev_involutive. }
  destruct (rev (lstrip (rev (c :: t)))) as [|x r].
  - simpl in E. assert (In c (rev pre)) by (rewrite <- E; now left).
    rewrite <- in_rev in H. rewrite forallb_forall in Hpre.
    rewrite (Hpre _ H) in Hc. discriminate.
  - simpl in E. injection E as <- _. eauto.
Qed.

(** [strip] is idempotent. *)
Lemma strip_idempotent (s : str) : strip (strip s) = strip s.
Proof.
  unfold strip.
  assert (E : lstrip (rstrip (lstrip s)) = rstrip (lstrip s)).
  { apply lstrip_fixed.
    destruct (lstrip s) as [|c t] eqn:L; [exact I|].
    assert (Hc : is_space c = false) by (eapply lstrip_head; exact L).
    destruct (@rstrip_head c t Hc) as [t' ->]. exact Hc. }
  rewrite E. apply rstrip_idempotent.
Qed.

(** ** The group of a match *)

Lemma try_lengths_some {R} (k lo : nat) (cont : nat -> option R) (r : R) :
  try_lengths k lo cont = Some r ->
  exists j, (lo <= j <= k)%nat /\ cont j = Some r.
Proof.
  induction k as [|k IH]; cbn [try_lengths].
  - destruct (Nat.ltb_spec 0 lo); [discriminate|].
    destruct (cont 0%nat) eqn:E; [|discriminate].
    intros [= <-]. exists 0%nat. split; [lia | exact E].
  - destruct (Nat.ltb_spec (S k) lo); [discriminate|].
    destruct (cont (S k)) eqn:E.
    + intros [= <-]. exists (S k). split; [lia | exact E].
    + intros Hk. destruct (IH Hk) as (j & Hj & Hc).
      exists j. split; [lia | exact Hc].
Qed.

Lemma count_prefix_firstn (c : char -> bool) (s : str) :
  forall hi k,
    (k <= count_prefix c hi s)%nat ->
    forallb c (firstn k s) = true /\ List.length (firstn k s) = k
    /\ match hi with Some h => (k <= h)%nat | None => True end.
Proof.
  induction s as [|x s IH]; intros hi k Hk.
  - assert (count_prefix c hi [] = 0%nat) as E
        by (destruct hi as [[|h]|]; reflexivity).
    rewrite E in Hk. assert (k = 0%nat) by lia. subst k.
    repeat split. destruct hi; [lia | exact I].
  - destruct k as [|k].
    { repeat split. destruct hi; [lia | exact I]. }
    destruct hi as [[|h]|]; cbn [count_prefix] in Hk.
    + lia.
    + destruct (c x) eqn:E; [|lia].
      cbn [option_map Nat.pred] in Hk.
      destruct (IH (Some h) k ltac:(lia)) as (Hall & Hlen & Hhi).
      cbn [firstn forallb List.length]. rewrite E, Hall, Hlen.
      repeat split. lia.
    + destruct (c x) eqn:E; [|lia].
      cbn [option_map] in Hk.
      destruct (IH None k ltac:(lia)) as (Hall & Hlen & _).
      cbn [firstn forallb List.length]. rewrite E, Hall, Hlen.
      repeat split.
Qed.

Lemma match_here_group (p : list item) :
  digit_groups p ->
  forall at_start g s r,
    match_here p at_start g s = Some r ->
    g = [] \/ short_number g -> r = [] \/ short_number r.
Proof.
  induction 1 as [|it p Hit Hp IH]; intros at_start g s r; cbn [match_here].
  - intros [= <-]. trivial.
  - destruct it as [| |c lo hi|c lo hi].
    + destruct at_start; [apply IH | discriminate].
    + destruct s as [|x [|y s]]; try discriminate; [apply IH|].
      destruct (x =? 10)%N; [apply IH | discriminate].
    + intros H Hg. apply try_lengths_some in H as (j & _ & H).
      eapply IH; [exact H | exact Hg].
    + destruct Hit as (-> & -> & ->).
      intros H _. apply try_lengths_some in H as (j & [Hlo Hhi] & H).
      eapply IH; [exact H|]. right.
      destruct (@count_prefix_firstn is_digit s (Some 2%nat) j Hhi)
        as (Hall & Hlen & Hmax).
      split; [lia | exact Hall].
Qed.

Lemma search_from_group (p : list item) :
  digit_groups p ->
  forall s at_start r,
    search_from p at_start s = Some r -> r = [] \/ short_number r.
Proof.
  intros Hp. induction s as [|x s IH]; intros at_start r; cbn [search_from].
  - destruct (match_here p at_start [] []) eqn:E; [|discriminate].
    intros [= <-]. eapply match_here_group; [exact Hp | exact E | now left].
  - destruct (match_here p at_start [] (x :: s)) eqn:E.
    + intros [= <-]. eapply match_here_group; [exact Hp | exact E | now left].
    + apply IH.
Qed.

Lemma short_number_value (g : str) :
  short_number g -> exists n, int_of_str g = Some n /\ 0 <= n <= 99.
Proof.
  intros [Hlen Hd].
  destruct g as [|d1 [|d2 [|d3 g]]]; simpl in Hlen; try lia.
  - simpl in Hd. rewrite andb_true_r in Hd.
    each_digit Hd; eexists; (split; [vm_compute; reflexivity | lia]).
  - simpl in Hd. rewrite andb_true_r in Hd.
    apply andb_true_iff in Hd as [Hd1 Hd2].
    each_digit Hd1; each_digit Hd2;
      eexists; (split; [vm_compute; reflexivity | lia]).
Qed.

Lemma patterns_have_digit_groups :
  digit_groups NUM_ONLY_RE /\ digit_groups BAIR_RE /\ digit_groups BAIR_LOOSE_RE.
Proof.
  unfold digit_groups, NUM_ONLY_RE, BAIR_RE, BAIR_LOOSE_RE, spaces, lit.
  repeat split; repeat constructor.
Qed.

(** The number [extract_number] returns is read from a group of one or
    two digits. *)
Lemma extract_number_group (text : str) (n : Z) :
  extract_number text = Some n ->
  exists g, short_number g /\ int_of_str g = Some n.
Proof.
  destruct patterns_have_digit_groups as (H1 & H2 & H3).
  assert (Hg : forall g, g = [] \/ short_number g ->
                         int_of_str g = Some n ->
                         exists g, short_number g /\ int_of_str g = Some n).
  { intros g [-> | Hs] Hn; [discriminate|]. eauto. }
  unfold extract_number, re_match, re_search.
  destruct (match_here NUM_ONLY_RE true [] (strip text)) as [g|] eqn:E1.
  { apply Hg. eapply match_here_group; [exact H1 | exact E1 | now left]. }
  destruct (match_here BAIR_RE true [] (strip text)) as [g|] eqn:E2.
  { apply Hg. eapply match_here_group; [exact H2 | exact E2 | now left]. }
  destruct (search_from BAIR_LOOSE_RE true (strip text)) as [g|] eqn:E3;
    [|discriminate].
  apply Hg. eapply search_from_group; [exact H3 | exact E3].
Qed.

(** X9. Whatever the text, the number [extract_number] reads from it is
    between 0 and 99. *)
Theorem extract_number_range (text : str) (n : Z) :
  extract_number text = Some n -> 0 <= n <= 99.
Proof.
  intros H. destruct (@extract_number_group text n H) as (g & Hs & Hn).
  destruct (@short_number_value g Hs) as (m & Hm & Hr).
  assert (m = n) by congruence. now subst.
Qed.

(** ** The replies of the resolver *)

Lemma one_reply_utter (m : message) (evs : list event) :
  forallb location_event evs = true -> one_reply (utter m ;;; ret evs).
Proof. intros H evs' out [= <- <-]. eauto. Qed.

Lemma one_reply_bind {A} (r : result A) (k : A -> Act (list event)) :
  (forall a, one_reply (k a)) -> one_reply (x <- lift r ;; k x).
Proof.
  intros H evs out. destruct r as [e|a]; cbn [lift bind]; [discriminate|].
  destruct (k a) as [r' out'] eqn:E. cbn [app].
  intros [= -> <-]. now apply (H a).
Qed.

Section ResolverProofs.
Variable repr_of : pyval -> str.

Lemma say_place_result (place : pydict) :
  (exists e, say_place repr_of place = (inl e, []))
  \/ (exists m, say_place repr_of place = (inr tt, [m])).
Proof.
  unfold say_place.
  destruct (strip_method _) as [e|url]; cbn [lift bind].
  - left. eauto.
  - right. destruct (truthy (VStr url)); cbn [utter app]; eauto.
Qed.

Lemma one_reply_say (place : pydict) (evs : list event) :
  forallb location_event evs = true ->
  one_reply (say_place repr_of place ;;; ret evs).
Proof.
  intros H evs' out.
  destruct (say_place_result place) as [[e ->] | [m ->]]; cbn [bind ret app].
  - discriminate.
  - intros [= <- <-]. eauto.
Qed.

(** X10. Whenever the resolver returns, it has uttered exactly one message,
    and the events it returns set [pending_number] or [place_type] and no
    other slot. *)
Theorem resolver_one_reply (cat : Catalog) (tracker : Tracker)
        (evs : list event) (out : list message) :
  ActionSendLocation_run repr_of cat tracker = (inr evs, out) ->
  forallb location_event evs = true /\ exists m, out = [m].
Proof.
  revert evs out. change (one_reply (ActionSendLocation_run repr_of cat tracker)).
  unfold ActionSendLocation_run.
  destruct (_ && truthy (get_slot tracker pending_number)).
  - assert (K : forall chosen : option str,
               one_reply
                 match chosen with
                 | None => utter (Text msg_choose_kind) ;;; ret []
                 | Some chosen_kind =>
                   match int_of_str (py_str repr_of (get_slot tracker pending_number)) with
                   | Some n =>
                     if forbidden chosen_kind n then
                       utter (Text msg_not_available) ;;;
                       ret [SlotSet pending_number VNone;
                            SlotSet place_type (VStr chosen_kind)]
                     else
                       match found (index_get kn_eqb (chosen_kind, n)
                                              (kind_num_index cat)) with
                       | Some place =>
                         say_place repr_of place ;;;
                         ret [SlotSet pending_number VNone;
                              SlotSet place_type (VStr chosen_kind)]
                       | None =>
                         utter (Text msg_number_not_found) ;;;
                         ret [SlotSet pending_number VNone]
                       end
                   | None =>
                     utter (Text msg_number_not_found) ;;;
                     ret [SlotSet pending_number VNone]
                   end
                 end).
    { intros [k|]; [|now apply one_reply_utter].
      destruct (int_of_str _) as [n|]; [|now apply one_reply_utter].
      destruct (forbidden k n); [now apply one_reply_utter|].
      destruct (found _); [now apply one_reply_say | now apply one_reply_utter]. }
    destruct (detect_kind _) as [k|].
    + apply (one_reply_bind (inr (Some k)) _ K).
    + apply (one_reply_bind _ _ K).
  - destruct (is_list_request _); [now apply one_reply_utter|].
    cbv zeta.
    assert (A : one_reply
                  match found (index_get str_eqb
                                 (norm (strip match latest_text tracker with
                                              | Some s => s
                                              | None => []
                                              end))
                                 (alias_index cat)) with
                  | Some place => say_place repr_of place ;;; ret []
                  | None =>
                    match first_alias_in (alias_index cat)
                            (norm (strip match latest_text tracker with
                                         | Some s => s
                                         | None => []
                                         end)) with
                    | Some p => say_place repr_of p ;;; ret []
                    | None => utter (Text msg_place_not_found) ;;; ret []
                    end
                  end).
    { destruct (found _); [now apply one_reply_say|].
      destruct (first_alias_in _ _);
        [now apply one_reply_say | now apply one_reply_utter]. }
    destruct (extract_number _) as [n|]; [|exact A].
    destruct (detect_kind _) as [k|].
    + destruct (str_eqb k kind_class || str_eqb k kind_dorm); [|exact A].
      clear A. destruct (forbidden k n); [now apply one_reply_utter|].
      destruct (found _); [now apply one_reply_say | now apply one_reply_utter].
    + match goal with
      | |- one_reply (if ?b then _ else _) => destruct b
      end; [now apply one_reply_utter | exact A].
Qed.
End ResolverProofs.

Lemma bind_ret {A B} (a : A) (k : A -> Act B) : (x <- ret a ;; k x) = k a.
Proof. unfold bind, ret. now destruct (k a). Qed.

Lemma extract_number_strip (s : str) :
  extract_number (strip s) = extract_number s.
Proof. unfold extract_number. now rewrite strip_idempotent. Qed.

(** The text stored in [pending_number] is read back as the number. *)
Lemma pending_round_trip (n : Z) :
  0 <= n <= 99 ->
  truthy (VStr (str_of_int n)) = true /\ int_of_str (str_of_int n) = Some n.
Proof.
  intros H.
  assert (A : forallb (fun k => truthy (VStr (str_of_int k))
                                && match int_of_str (str_of_int k) with
                                   | Some m => m =? k
                                   | None => false
                                   end)
                      (whole_numbers 0 100) = true)
    by (vm_compute; reflexivity).
  rewrite forallb_forall in A.
  specialize (A n (@whole_numbers_in n 0 100 ltac:(lia))).
  apply andb_true_iff in A as [A1 A2]. split; [exact A1|].
  destruct (int_of_str (str_of_int n)) as [m|]; [|discriminate].
  apply Z.eqb_eq in A2. now subst.
Qed.

Section Disambiguation.
Variable repr_of : pyval -> str.

(** X11. The two turns of a disambiguation, for any number and any kind. When
    no disambiguation is under way and the text gives a number but no
    kind (and is not a list request), the resolver asks for the kind and
    stores the number as text. When the next text names a kind under the
    intent [choose_place_type], the reply is the one for that kind and
    the stored number: not available if the pair is forbidden, the place
    the catalog has for the pair, or not found; in each case the stored
    number is cleared. *)
Theorem number_then_kind (cat : Catalog) (t : Tracker)
        (text1 text2 : str) (intent1 : option str) (n : Z) (k : str) :
  truthy (get_slot t pending_number) = false ->
  is_list_request (strip text1) = false ->
  detect_kind (strip text1) = None ->
  extract_number text1 = Some n ->
  detect_kind (strip text2) = Some k ->
  let t1 := with_message t text1 intent1 in
  let a1 := ActionSendLocation_run repr_of cat t1 in
  let t2 := with_message (after_action t1 a1) text2
                         (Some (u "choose_place_type")) in
  let a2 := ActionSendLocation_run repr_of cat t2 in
  a1 = (inr [SlotSet pending_number (VStr (str_of_int n))],
        [Response (u "utter_ask_place_type")])
  /\ a2 = (if forbidden k n then
             utter (Text msg_not_available) ;;;
             ret [SlotSet pending_number VNone; SlotSet place_type (VStr k)]
           else
             match by_kind_number cat k n with
             | Some place =>
               say_place repr_of place ;;;
               ret [SlotSet pending_number VNone; SlotSet place_type (VStr k)]
             | None =>
               utter (Text msg_number_not_found) ;;;
               ret [SlotSet pending_number VNone]
             end)
  /\ (forall evs out, a2 = (inr evs, out) ->
        get_slot (after_action t2 a2) pending_number = VNone).
Proof.
  intros Hpend Hlist Hkind Hnum Hkind2 t1 a1 t2 a2.
  assert (Hrange : 0 <= n <= 99).
  { destruct (@extract_number_group text1 n Hnum) as (g & Hs & Hn).
    destruct (@short_number_value g Hs) as (m & Hm & Hr).
    assert (m = n) by congruence. now subst. }
  destruct (@pending_round_trip n Hrange) as [Htruthy Hback].
  assert (E1 : a1 = (inr [SlotSet pending_number (VStr (str_of_int n))],
                     [Response (u "utter_ask_place_type")])).
  { subst a1 t1. unfold ActionSendLocation_run.
    cbn [latest_text latest_intent with_message get_slot slots].
    change (slots t pending_number) with (get_slot t pending_number).
    rewrite Hpend, andb_false_r, Hlist. cbv zeta.
    rewrite Hkind, extract_number_strip, Hnum.
    assert (Hm : match re_match NUM_ONLY_RE (strip text1),
                       re_match BAIR_RE (strip text1),
                       re_search BAIR_LOOSE_RE (strip text1) with
                 | None, None, None => false
                 | _, _, _ => true
                 end = true).
    { rewrite <- extract_number_strip in Hnum. unfold extract_number in Hnum.
      rewrite strip_idempotent in Hnum.
      destruct (re_match NUM_ONLY_RE (strip text1)); [reflexivity|].
      destruct (re_match BAIR_RE (strip text1)); [reflexivity|].
      destruct (re_search BAIR_LOOSE_RE (strip text1));
        [reflexivity | discriminate]. }
    rewrite Hm. reflexivity. }
  assert (E2 : a2 = (if forbidden k n then
             utter (Text msg_not_available) ;;;
             ret [SlotSet pending_number VNone; SlotSet place_type (VStr k)]
           else
             match by_kind_number cat k n with
             | Some place =>
               say_place repr_of place ;;;
               ret [SlotSet pending_number VNone; SlotSet place_type (VStr k)]
             | None =>
               utter (Text msg_number_not_found) ;;;
               ret [SlotSet pending_number VNone]
             end)).
  { subst a2 t2. rewrite E1. unfold ActionSendLocation_run.
    cbn [latest_text latest_intent with_message get_slot slots after_action
         fst apply_events fold_left apply_event slot_eqb].
    replace (str_eqb (u "choose_place_type") (u "choose_place_type"))
      with true by (vm_compute; reflexivity).
    rewrite Htruthy. cbn [andb]. rewrite Hkind2, bind_ret.
    cbn [py_str]. rewrite Hback. reflexivity. }
  split; [exact E1|]. split; [exact E2|].
  intros evs out Ha. unfold after_action. rewrite Ha. cbn [fst].
  rewrite E2 in Ha.
  destruct (forbidden k n).
  - injection Ha as <- _. reflexivity.
  - destruct (by_kind_number cat k n) as [place|].
    + destruct (say_place_result repr_of place) as [[e He] | [m He]];
        rewrite He in Ha; cbn [bind ret app] in Ha.
      * discriminate.
      * injection Ha as <- _. reflexivity.
    + injection Ha as <- _. reflexivity.
Qed.
End Disambiguation.

Lemma extract_number_range_witness :
  extract_number (u "12-р байр") = Some 12 /\ 0 <= 12 <= 99.
Proof.
  assert (H : extract_number (u "12-р байр") = Some 12)
    by (vm_compute; reflexivity).
  split; [exact H|]. exact (@extract_number_range (u "12-р байр") 12 H).
Defined.

Lemma resolver_one_reply_witness :
  ActionSendLocation_run repr_example example_catalog
    (with_message (new_tracker (u "student")) (u "номын сан") None)
  = (inr [], [Text (u "Хичээлийн 2-р байр" ++ newline
                      ++ u "https://maps.example/2")])
  /\ (forallb location_event [] = true
      /\ exists m,
          [Text (u "Хичээлийн 2-р байр" ++ newline
                   ++ u "https://maps.example/2")] = [m]).
Proof.
  assert (H : ActionSendLocation_run repr_example example_catalog
                (with_message (new_tracker (u "student")) (u "номын сан") None)
              = (inr [], [Text (u "Хичээлийн 2-р байр" ++ newline
                                  ++ u "https://maps.example/2")]))
    by (vm_compute; reflexivity).
  split; [exact H|].
  exact (@resolver_one_reply repr_example example_catalog _ _ _ H).
Defined.

Lemma number_then_kind_witness :
  (truthy (get_slot (new_tracker (u "student")) pending_number) = false
   /\ is_list_request (strip (u "2")) = false
   /\ detect_kind (strip (u "2")) = None
   /\ extract_number (u "2") = Some 2
   /\ detect_kind (strip (u "хичээлийн байр")) = Some kind_class)
  /\ ActionSendLocation_run repr_example example_catalog
       (with_message (new_tracker (u "student")) (u "2") None)
     = (inr [SlotSet pending_number (VStr (str_of_int 2))],
        [Response (u "utter_ask_place_type")]).
Proof.
  split; [repeat split; vm_compute; reflexivity|].
  apply (@number_then_kind repr_example example_catalog
           (new_tracker (u "student")) (u "2") (u "хичээлийн байр")
           None 2 kind_class); vm_compute; reflexivity.
Defined.

(** The example catalog answers the two turns "2", "хичээлийн байр" with
    the second academic building. *)
Example number_then_kind_example :
  let t1 := with_message (new_tracker (u "student")) (u "2") None in
  let a1 := ActionSendLocation_run repr_example example_catalog t1 in
  let t2 := with_message (after_action t1 a1) (u "хичээлийн байр")
                         (Some (u "choose_place_type")) in
  ActionSendLocation_run repr_example example_catalog t2
  = (inr [SlotSet pending_number VNone; SlotSet place_type (VStr kind_class)],
     [Text (u "Хичээлийн 2-р байр" ++ newline ++ u "https://maps.example/2")]).
Proof. vm_compute. reflexivity. Qed.

(** ** Scores between the bands *)

Ltac float_constants :=
  repeat match goal with
         | |- context [fint ?k] =>
           let v := eval vm_compute in (fint k) in
           change (fint k) with v
         | H : context [fint ?k] |- _ =>
           let v := eval vm_compute in (fint k) in
           change (fint k) with v in H
         end.

Ltac bool_to_prop H :=
  repeat first [ rewrite andb_true_iff in H | rewrite orb_true_iff in H
               | rewrite Z.ltb_lt in H | rewrite Z.leb_le in H
               | rewrite Z.eqb_eq in H ].

Ltac decide_comparisons :=
  repeat match goal with
         | |- context [(?a <? ?b)] =>
           destruct (Z.ltb_spec a b); try lia
         | |- context [(?a <=? ?b)] =>
           destruct (Z.leb_spec a b); try lia
         | |- context [(?a =? ?b)] =>
           destruct (Z.eqb_spec a b); try lia
         end.

(** X12. A score strictly between two bands of the table, that is between 64
    and 65, 69 and 70, 74 and 75, 79 and 80, 84 and 85 or 89 and 90, is
    graded F with quality point 0.0. *)
Theorem score_between_bands_is_F (s : float) (k : Z) :
  In k [64; 69; 74; 79; 84; 89] ->
  fltb (fint k) s = true -> fltb s (fint (k + 1)) = true ->
  score_to_grade s = grade_F.
Proof.
  intros Hk Hlo Hhi.
  destruct s as [sg|sg| |sg m e].
  - exfalso. simpl in Hk.
    repeat (destruct Hk as [<- | Hk]; [vm_compute in Hlo; discriminate|]).
    exact Hk.
  - exfalso. destruct sg.
    + simpl in Hk.
      repeat (destruct Hk as [<- | Hk]; [vm_compute in Hlo; discriminate|]).
      exact Hk.
    + simpl in Hk.
      repeat (destruct Hk as [<- | Hk]; [vm_compute in Hhi; discriminate|]).
      exact Hk.
  - exfalso. simpl in Hk.
    repeat (destruct Hk as [<- | Hk]; [vm_compute in Hlo; discriminate|]).
    exact Hk.
  - destruct sg.
    + exfalso. simpl in Hk.
      repeat (destruct Hk as [<- | Hk]; [vm_compute in Hlo; discriminate|]).
      exact Hk.
    + unfold score_to_grade. simpl in Hk.
      repeat (destruct Hk as [<- | Hk]);
        try contradiction;
        cbn [Z.add Pos.add Pos.succ] in Hhi;
        float_constants;
        rewrite fltb_finite in Hlo, Hhi;
        rewrite !fleb_finite;
        bool_to_prop Hlo; bool_to_prop Hhi;
        (assert (e = -46) by lia); subst e;
        decide_comparisons; reflexivity.
Qed.

(** ** A complete GPA session *)

Lemma index_read (k : Z) :
  1 <= k <= 50 ->
  (x <-r py_float (py_or (VInt k) (VInt 1)) ;; int_of_float x) = inr k.
Proof.
  intros H.
  assert (A : forallb (fun k =>
                 match (x <-r py_float (py_or (VInt k) (VInt 1)) ;;
                        int_of_float x) with
                 | inr n => n =? k
                 | inl _ => false
                 end) (whole_numbers 1 50) = true)
    by (vm_compute; reflexivity).
  rewrite forallb_forall in A.
  assert (I : In k (whole_numbers 1 50))
    by (apply whole_numbers_in; cbn; lia).
  specialize (A k I). cbv beta in A.
  destruct (x <-r py_float _ ;; int_of_float x) as [e|n]; [discriminate|].
  apply Z.eqb_eq in A. now subst.
Qed.

Lemma count_read (n : Z) : 1 <= n -> py_int (py_or (VInt n) (VInt 0)) = inr n.
Proof.
  intros H. unfold py_or. cbn [truthy].
  destruct (Z.eqb_spec n 0); [lia|]. reflexivity.
Qed.

Lemma course_count_int (n : Z) :
  1 <= n <= 50 -> course_count_of (VInt n) = inr n.
Proof.
  intros H. pose proof (index_read H) as A.
  unfold py_or in A. cbn [truthy] in A.
  destruct (Z.eqb_spec n 0); [lia|]. exact A.
Qed.

(** One course of a session: credit, then score. *)
Lemma enter_course_step (t : Tracker) (c s : float) (n : Z)
      (done : list pyval) :
  course_ok (c, s) = true ->
  get_slot t number_of_courses = VInt n ->
  get_slot t current_course_index = VInt (Z.of_nat (List.length done) + 1) ->
  get_slot t courses = VList done ->
  Z.of_nat (List.length done) + 1 <= n <= 50 ->
  let t' := enter_course t (VFloat c) (VFloat s) in
  get_slot t' number_of_courses = VInt n
  /\ get_slot t' courses = VList (done ++ [course_entry c s])
  /\ get_slot t' current_course_index
     = VInt (Z.min (Z.of_nat (List.length done) + 2) n).
Proof.
  intros Hok Hn Hi Hc Hb. unfold course_ok in Hok. cbn [fst snd] in Hok.
  apply andb_true_iff in Hok as [Hok Hs2].
  apply andb_true_iff in Hok as [Hok Hs1].
  apply andb_true_iff in Hok as [Hc1 Hc2].
  unfold enter_course, validate_current_credit. cbn [py_float].
  rewrite Hc1, Hc2. cbn [andb negb].
  set (t1 := after_validation t _).
  assert (Hn1 : get_slot t1 number_of_courses = VInt n) by exact Hn.
  assert (Hi1 : get_slot t1 current_course_index
                = VInt (Z.of_nat (List.length done) + 1)) by exact Hi.
  assert (Hk1 : get_slot t1 current_credit = VFloat c) by reflexivity.
  assert (Hl1 : get_slot t1 courses = VList done) by exact Hc.
  unfold validate_current_score. cbn [py_float].
  rewrite Hs1, Hs2. cbn [andb negb].
  rewrite Hn1, Hi1, Hk1, Hl1.
  rewrite count_read by lia. rewrite index_read by lia.
  assert (Hcr : py_float (py_or (VFloat c) (VInt 0)) = inr c)
    by (unfold py_or; rewrite (positive_is_truthy _ Hc1); reflexivity).
  rewrite Hcr.
  assert (Hd : match py_or (VList done) (VList []) with
               | VList l => l
               | _ => []
               end = done) by (destruct done; reflexivity).
  rewrite Hd. cbn [lift bind].
  destruct (Z.leb_spec (Z.of_nat (List.length done) + 1 + 1) n) as [L|L].
  - split; [exact Hn1|]. split; [reflexivity|].
    cbn. f_equal. lia.
  - split; [exact Hn1|]. split; [reflexivity|].
    change (get_slot t1 current_course_index
            = VInt (Z.min (Z.of_nat (List.length done) + 2) n)).
    rewrite Hi1. f_equal. lia.
Qed.

Lemma enter_courses_collects (cs : list (float * float)) :
  forall (t : Tracker) (n : Z) (done : list pyval),
    forallb course_ok cs = true ->
    get_slot t number_of_courses = VInt n ->
    get_slot t current_course_index
    = VInt (Z.min (Z.of_nat (List.length done) + 1) n) ->
    get_slot t courses = VList done ->
    Z.of_nat (List.length done) + Z.of_nat (List.length cs) <= n ->
    1 <= n <= 50 ->
    let t' := enter_courses t cs in
    get_slot t' number_of_courses = VInt n
    /\ get_slot t' courses = VList (done ++ map entry_of cs)
    /\ get_slot t' current_course_index
       = VInt (Z.min (Z.of_nat (List.length done)
                      + Z.of_nat (List.length cs) + 1) n).
Proof.
  induction cs as [|[c s] rest IH]; intros t n done Hok Hn Hi Hc Hlen Hb.
  - cbn [enter_courses map]. rewrite app_nil_r.
    split; [exact Hn|]. split; [exact Hc|].
    rewrite Hi. f_equal. cbn [List.length]. lia.
  - cbn [forallb] in Hok. apply andb_true_iff in Hok as [Hok Hrest].
    cbn [List.length] in Hlen.
    assert (Hi' : get_slot t current_course_index
                  = VInt (Z.of_nat (List.length done) + 1))
      by (rewrite Hi; f_equal; lia).
    destruct (@enter_course_step t c s n done Hok Hn Hi' Hc ltac:(lia))
      as (Hn2 & Hc2 & Hi2).
    cbn [enter_courses map].
    assert (E : done ++ entry_of (c, s) :: map entry_of rest
                = (done ++ [course_entry c s]) ++ map entry_of rest)
      by (rewrite <- app_assoc; reflexivity).
    rewrite E.
    assert (L : Z.of_nat (List.length done) + Z.of_nat (List.length ((c, s) :: rest)) + 1
                = Z.of_nat (List.length (done ++ [course_entry c s]))
                  + Z.of_nat (List.length rest) + 1)
      by (rewrite length_app; cbn [List.length]; lia).
    rewrite L.
    apply IH; try assumption.
    + rewrite Hi2. f_equal. rewrite length_app. cbn [List.length]. lia.
    + rewrite length_app. cbn [List.length]. lia.
Qed.

Lemma gpa_loop_lines (cs : list (float * float)) :
  forall i tc tp lines,
    gpa_loop (map entry_of cs) i tc tp lines
    = inr (fold_left (fun acc p => fadd acc (fst p)) cs tc,
           fold_left (fun acc p =>
                        fadd acc (fmul (fst p) (gpa (score_to_grade (snd p)))))
                     cs tp,
           lines ++ report_lines i cs).
Proof.
  induction cs as [|[c s] rest IH]; intros i tc tp lines.
  - cbn. rewrite app_nil_r. reflexivity.
  - cbn [map gpa_loop]. unfold entry_of at 1 2. cbn [fst snd].
    rewrite course_entry_credit, course_entry_score.
    cbn [rbind py_float]. rewrite IH. cbn [fold_left report_lines fst snd].
    rewrite <- app_assoc. reflexivity.
Qed.

(** X13. A complete session. From any state, the user gives the number of
    courses, between 1 and 50, and then that many courses, each with a
    credit and a score that are accepted. The course list then holds one
    entry for each course, in the order given, and the index has stopped at
    the number of courses. The calculator reports one line for each
    course, numbered from 1, with the letter and points of its score, the
    sum of the credits, and the sum of the points divided by the sum of
    the credits (0.0 when that sum is not above 0); it returns the five
    resets. *)
Theorem gpa_session_report (t : Tracker) (cs : list (float * float)) :
  (1 <= List.length cs <= 50)%nat ->
  forallb course_ok cs = true ->
  let t' := gpa_session t cs in
  get_slot t' courses = VList (map entry_of cs)
  /\ get_slot t' number_of_courses = VInt (Z.of_nat (List.length cs))
  /\ get_slot t' current_course_index = VInt (Z.of_nat (List.length cs))
  /\ ActionCalculateGpa_run t'
     = (inr gpa_reset,
        [GpaReport (report_lines 1 cs) (sum_credits cs)
                   (if fltb (fint 0) (sum_credits cs)
                    then fdiv (sum_points cs) (sum_credits cs)
                    else S754_zero false)]).
Proof.
  intros Hlen Hok. unfold gpa_session.
  unfold validate_number_of_courses.
  rewrite course_count_int by lia.
  set (n := Z.of_nat (List.length cs)).
  assert (R : negb ((1 <=? n) && (n <=? 50)) = false).
  { destruct (Z.leb_spec 1 n); [|lia]. destruct (Z.leb_spec n 50); [|lia].
    reflexivity. }
  rewrite R.
  set (t0 := after_validation t _).
  destruct (@enter_courses_collects cs t0 n [] Hok) as (Hn & Hc & Hi);
    try reflexivity; try (cbn [List.length]; unfold n; lia).
  { change (VInt 1 = VInt (Z.min (Z.of_nat (@List.length pyval []) + 1) n)).
    f_equal. cbn [List.length]. unfold n. lia. }
  cbn [app] in Hc. cbv zeta.
  split; [exact Hc|]. split; [exact Hn|].
  split; [rewrite Hi; f_equal; cbn [List.length]; unfold n; lia|].
  unfold ActionCalculateGpa_run. rewrite Hc.
  destruct cs as [|p rest]; [cbn [List.length] in Hlen; lia|].
  unfold py_or. cbn [map truthy negb py_iter lift bind].
  change (entry_of p :: map entry_of rest) with (map entry_of (p :: rest)).
  rewrite gpa_loop_lines. cbn [app bind]. reflexivity.
Qed.

Lemma gpa_session_report_witness :
  forallb course_ok [(fint 3, fint 95); (fint 2, fint 68)] = true
  /\ get_slot (gpa_session (new_tracker (u "u1"))
                 [(fint 3, fint 95); (fint 2, fint 68)]) courses
     = VList [course_entry (fint 3) (fint 95); course_entry (fint 2) (fint 68)].
Proof.
  split; [vm_compute; reflexivity|].
  apply (@gpa_session_report (new_tracker (u "u1"))
           [(fint 3, fint 95); (fint 2, fint 68)]).
  - cbn [List.length]. lia.
  - vm_compute; reflexivity.
Defined.


(** ** The prompts of the GPA form *)

(** X14. The prompts count the courses. In a session of accepted courses, the
    prompt for the credit of a course, and then the prompt for its score,
    carry the position of that course, counted from 1; neither prompt
    sets a slot. *)
Theorem prompts_number_courses (t : Tracker) (before after : list (float * float))
        (c s : float) :
  let cs := before ++ (c, s) :: after in
  (List.length cs <= 50)%nat ->
  forallb course_ok cs = true ->
  let t1 := enter_courses
              (after_validation t
                 (validate_number_of_courses (VInt (Z.of_nat (List.length cs)))))
              before in
  let t2 := after_validation t1 (validate_current_credit (VFloat c)) in
  ActionAskCurrentCredit_run t1
  = (inr [], [Text (ask_credit_text (Z.of_nat (List.length before) + 1))])
  /\ ActionAskCurrentScore_run t2
     = (inr [], [Text (ask_score_text (Z.of_nat (List.length before) + 1))]).
Proof.
  intros cs Hlen Hok.
  assert (Hcs : List.length cs = (List.length before + S (List.length after))%nat)
    by (unfold cs; rewrite length_app; reflexivity).
  unfold validate_number_of_courses.
  rewrite course_count_int by lia.
  set (n := Z.of_nat (List.length cs)).
  assert (R : negb ((1 <=? n) && (n <=? 50)) = false).
  { destruct (Z.leb_spec 1 n); [|lia]. destruct (Z.leb_spec n 50); [|lia].
    reflexivity. }
  rewrite R.
  set (t0 := after_validation t _).
  assert (Hb : forallb course_ok before = true).
  { unfold cs in Hok. rewrite forallb_app in Hok.
    now apply andb_true_iff in Hok as [Hok _]. }
  assert (Hc : course_ok (c, s) = true).
  { unfold cs in Hok. rewrite forallb_app in Hok.
    apply andb_true_iff in Hok as [_ Hok]. cbn [forallb] in Hok.
    now apply andb_true_iff in Hok as [Hok _]. }
  destruct (@enter_courses_collects before t0 n [] Hb) as (Hn & _ & Hi);
    try reflexivity; try (cbn [List.length]; unfold n; lia).
  { change (VInt 1 = VInt (Z.min (Z.of_nat (@List.length pyval []) + 1) n)).
    f_equal. cbn [List.length]. unfold n. lia. }
  cbv zeta in Hi. cbn [List.length] in Hi.
  assert (Hi' : get_slot (enter_courses t0 before) current_course_index
                = VInt (Z.of_nat (List.length before) + 1))
    by (rewrite Hi; f_equal; unfold n; lia).
  cbv zeta. split.
  - unfold ActionAskCurrentCredit_run. rewrite Hi'.
    rewrite index_read by (unfold n in *; lia). reflexivity.
  - unfold course_ok in Hc. cbn [fst snd] in Hc.
    apply andb_true_iff in Hc as [Hc _].
    apply andb_true_iff in Hc as [Hc _].
    unfold validate_current_credit. cbn [py_float]. rewrite Hc. cbn [negb].
    unfold ActionAskCurrentScore_run.
    change (get_slot (after_validation (enter_courses t0 before)
                        (ret [(current_credit, VFloat c)]))
                     current_course_index)
      with (get_slot (enter_courses t0 before) current_course_index).
    rewrite Hi'. rewrite index_read by (unfold n in *; lia). reflexivity.
Qed.

Lemma prompts_number_courses_witness :
  forallb course_ok ([(fint 3, fint 95)] ++ (fint 2, fint 68) :: []) = true
  /\ ActionAskCurrentCredit_run
       (enter_courses
          (after_validation (new_tracker (u "u1"))
             (validate_number_of_courses
                (VInt (Z.of_nat (List.length ([(fint 3, fint 95)]
                                              ++ (fint 2, fint 68) :: []))))))
          [(fint 3, fint 95)])
     = (inr [],
        [Text (ask_credit_text
                 (Z.of_nat (List.length [(fint 3, fint 95)]) + 1))]).
Proof.
  split; [vm_compute; reflexivity|].
  refine (proj1 (@prompts_number_courses (new_tracker (u "u1"))
                   [(fint 3, fint 95)] [] (fint 2) (fint 68) _ _)).
  - cbn. lia.
  - vm_compute; reflexivity.
Defined.

(** ** The choices of the tuition form *)

Lemma in_set_true (v : pyval) (names : list str) :
  in_set v names = inr true -> exists k, v = VStr k /\ In k names.
Proof.
  destruct v as [| | | |k| |]; try discriminate.
  cbn [in_set]. intros [= H]. exists k. split; [reflexivity|].
  apply existsb_exists in H as (x & Hin & Hx).
  apply str_eqb_eq in Hx. now subst.
Qed.

Lemma table_find_in (table : list (str * str)) (key g : str) :
  table_find table key = Some g -> In g (map snd table).
Proof.
  induction table as [|[k v] rest IH]; [discriminate|].
  cbn [table_find map snd]. destruct (str_eqb k key).
  - intros [= <-]. now left.
  - intros H. right. now apply IH.
Qed.

(** X15. Validation of the admission group. Whenever it returns, it sets the
    one slot [admission_group], either to one of the three group names
    and without a message, or to [None] with the prompt to use the
    buttons. A choice made by intent wins over the value of the slot,
    whatever that value is. *)
Theorem admission_group_validated (v : pyval) (t : Tracker) :
  (forall d out,
      validate_admission_group v t = (inr d, out) ->
      exists g, d = [(admission_group, g)]
                /\ ((g = VNone /\ out = [Text msg_choose_group])
                    \/ (exists name, g = VStr name /\ In name allowed
                                     /\ out = [])))
  /\ (forall intent g,
         latest_intent t = Some intent ->
         table_find intent_to_group intent = Some g ->
         validate_admission_group v t = (inr [(admission_group, VStr g)], [])).
Proof.
  split.
  - intros d out. unfold validate_admission_group.
    destruct (match latest_intent t with
              | Some intent => table_find intent_to_group intent
              | None => None
              end) as [g|] eqn:E.
    + intros [= <- <-]. exists (VStr g). split; [reflexivity|]. right.
      exists g. split; [reflexivity|]. split; [|reflexivity].
      destruct (latest_intent t) as [i|]; [|discriminate].
      apply table_find_in in E. exact E.
    + destruct (in_set v allowed) as [e|[|]] eqn:M; cbn [lift bind].
      * discriminate.
      * intros [= <- <-]. exists v. split; [reflexivity|]. right.
        apply in_set_true in M as (k & -> & Hin). exists k. auto.
      * intros [= <- <-]. exists VNone. split; [reflexivity|]. now left.
  - intros intent g Hi Hg. unfold validate_admission_group.
    rewrite Hi, Hg. reflexivity.
Qed.

Lemma dict_find_keys (d : pydict) (k : str) :
  existsb (str_eqb k) (map fst d) = true -> exists v, dict_find d k = Some v.
Proof.
  induction d as [|[k' v'] d IH]; [discriminate|].
  cbn [map fst existsb dict_find]. destruct (str_eqb k k') eqn:E.
  - apply str_eqb_eq in E. subst k'. rewrite str_eqb_refl. eauto.
  - cbn [orb]. intros H. destruct (str_eqb k' k); eauto.
Qed.

(** X16. Validation of the faculty. Whenever it returns, it sets the one slot
    [faculty]. When it keeps the value, the value is a name that the
    pricing document lists under the admission group of the session: the
    two lookups [pricing[group][faculty]] the calculator makes
    succeed. Otherwise it clears the slot and utters one prompt. *)
Theorem accepted_faculty_is_priced (pricing_doc v : pyval) (t : Tracker)
        (d : slot_dict) (out : list message) :
  validate_faculty pricing_doc v t = (inr d, out) ->
  (d = [(faculty, VNone)] /\ exists m, out = [Text m])
  \/ (d = [(faculty, v)] /\ out = []
      /\ exists name by_group rates,
          v = VStr name
          /\ py_getitem (py_or pricing_doc (VDict []))
                        (get_slot t admission_group) = inr (VDict by_group)
          /\ py_getitem (VDict by_group) v = inr rates).
Proof.
  unfold validate_faculty.
  destruct (if truthy (get_slot t admission_group)
            then py_in (get_slot t admission_group)
                       (py_or pricing_doc (VDict []))
            else inr false) as [e|[|]]; cbn [lift bind negb].
  - discriminate.
  - destruct (py_getitem _ _) as [e|by_group]; cbn [bind]; [discriminate|].
    destruct by_group as [| | | | | |bg]; cbn [keys_method bind];
      try discriminate.
    destruct (in_set v (map fst bg)) as [e|[|]] eqn:M; cbn [bind].
    + discriminate.
    + intros [= <- <-]. right. split; [reflexivity|]. split; [reflexivity|].
      destruct v as [| | | |name| |]; try discriminate.
      cbn [in_set] in M. injection M as M.
      apply dict_find_keys in M as [rates Hr].
      exists name, bg, rates. split; [reflexivity|]. split; [reflexivity|].
      cbn [py_getitem]. rewrite Hr. reflexivity.
    + intros [= <- <-]. left. split; [reflexivity|]. eauto.
  - intros [= <- <-]. left. split; [reflexivity|]. eauto.
Qed.

(** ** Normal forms *)

(** *** Characters *)

Lemma chars_from_in (c : char) (count : nat) :
  forall lo, (lo <= c < lo + N.of_nat count)%N -> In c (chars_from lo count).
Proof.
  induction count as [|k IH]; intros lo H.
  - lia.
  - cbn [chars_from]. destruct (N.eq_dec c lo) as [-> | Hne].
    + now left.
    + right. apply IH. lia.
Qed.

Lemma low_chars_in (c : char) : (c < 1328)%N -> In c low_chars.
Proof. intros H. apply chars_from_in. lia. Qed.

Ltac high_char :=
  repeat match goal with
         | |- context [(?a =? ?b)%N] =>
           replace (a =? b)%N with false by (symmetry; apply N.eqb_neq; lia)
         | |- context [(?c <=? ?b)%N] =>
           replace (c <=? b)%N with false by (symmetry; apply N.leb_gt; lia)
         end;
  rewrite ?andb_false_r; cbn [andb orb negb]; rewrite ?andb_false_r;
  cbn [andb orb negb].

Lemma high_char_classes (c : char) :
  (1328 <= c)%N -> lower c = c /\ is_bracket_or_punct c = false.
Proof.
  intros H. unfold lower, is_bracket_or_punct.
  split; high_char; reflexivity.
Qed.

Lemma char_cases (P : char -> bool) :
  forallb P low_chars = true ->
  (forall c, (1328 <= c)%N -> P c = true) ->
  forall c, P c = true.
Proof.
  intros Hlow Hhigh c. destruct (N.ltb_spec c 1328) as [L|L].
  - rewrite forallb_forall in Hlow. apply Hlow. now apply low_chars_in.
  - now apply Hhigh.
Qed.

Lemma lower_lower (c : char) : lower (lower c) = lower c.
Proof.
  apply N.eqb_eq. revert c.
  apply (char_cases (fun c => (lower (lower c) =? lower c)%N)).
  - vm_compute; reflexivity.
  - intros c H. destruct (high_char_classes H) as (-> & _).
    destruct (high_char_classes H) as (-> & _). apply N.eqb_refl.
Qed.

Lemma is_space_lower (c : char) : is_space (lower c) = is_space c.
Proof.
  apply eqb_prop. revert c.
  apply (char_cases (fun c => Bool.eqb (is_space (lower c)) (is_space c))).
  - vm_compute; reflexivity.
  - intros c H. destruct (high_char_classes H) as (-> & _).
    apply eqb_reflx.
Qed.

Lemma is_digit_lower (c : char) : is_digit (lower c) = is_digit c.
Proof.
  apply eqb_prop. revert c.
  apply (char_cases (fun c => Bool.eqb (is_digit (lower c)) (is_digit c))).
  - vm_compute; reflexivity.
  - intros c H. destruct (high_char_classes H) as (-> & _).
    apply eqb_reflx.
Qed.

Lemma is_dash_lower (c : char) : is_dash (lower c) = is_dash c.
Proof.
  apply eqb_prop. revert c.
  apply (char_cases (fun c => Bool.eqb (is_dash (lower c)) (is_dash c))).
  - vm_compute; reflexivity.
  - intros c H. destruct (high_char_classes H) as (-> & _).
    apply eqb_reflx.
Qed.

Lemma newline_lower (c : char) : (lower c =? 10)%N = (c =? 10)%N.
Proof.
  apply eqb_prop. revert c.
  apply (char_cases (fun c => Bool.eqb (lower c =? 10)%N (c =? 10)%N)).
  - vm_compute; reflexivity.
  - intros c H. destruct (high_char_classes H) as (-> & _).
    apply eqb_reflx.
Qed.

Lemma digit_lower (c : char) : is_digit c = true -> lower c = c.
Proof. intros H. each_digit H; reflexivity. Qed.

(** What the character steps of [norm] make of one character is clean. *)
Lemma letter_clean (c : char) :
  let c3 := if char_eqb (lower c) (ch "ё") then ch "е" else lower c in
  is_quote c3
  || clean (if is_bracket_or_punct c3 then 32%N else c3) = true.
Proof.
  revert c.
  apply (char_cases
           (fun c =>
              let c3 := if char_eqb (lower c) (ch "ё") then ch "е"
                        else lower c in
              is_quote c3
              || clean (if is_bracket_or_punct c3 then 32%N else c3))).
  - vm_compute; reflexivity.
  - intros c H. cbv zeta.
    destruct (high_char_classes H) as (Hl & Hp).
    rewrite Hl.
    assert (E : char_eqb c (ch "ё") = false).
    { apply N.eqb_neq. change (ch "ё") with 1105%N. lia. }
    rewrite E. destruct (is_quote c) eqn:Hq; [reflexivity|].
    cbn [orb]. rewrite Hp. unfold clean. rewrite Hl, E, Hq, Hp.
    unfold char_eqb. rewrite N.eqb_refl. reflexivity.
Qed.

Lemma clean_space : clean 32%N = true.
Proof. vm_compute; reflexivity. Qed.

(** *** The steps of [norm] *)

Lemma norm_steps (s : str) :
  norm s = strip (collapse_spaces false (letters (strip s))).
Proof. reflexivity. Qed.

Lemma letters_clean (s : str) : forallb clean (letters s) = true.
Proof.
  unfold letters, str_lower, replace_char.
  induction s as [|c s IH]; [reflexivity|].
  cbn [map filter].
  pose proof (letter_clean c) as H. cbv zeta in H.
  destruct (is_quote (if char_eqb (lower c) (ch "ё") then ch "е" else lower c));
    cbn [negb orb] in *.
  - exact IH.
  - cbn [map forallb]. apply andb_true_iff. split; [exact H | exact IH].
Qed.

Lemma letters_fixed (s : str) : forallb clean s = true -> letters s = s.
Proof.
  unfold letters, str_lower, replace_char.
  induction s as [|c s IH]; [reflexivity|].
  cbn [forallb]. intros H. apply andb_true_iff in H as [Hc Hs].
  unfold clean in Hc.
  apply andb_true_iff in Hc as [Hc Hp].
  apply andb_true_iff in Hc as [Hc Hq].
  apply andb_true_iff in Hc as [Hl He].
  apply N.eqb_eq in Hl.
  apply negb_true_iff in He, Hq, Hp.
  cbn [map filter]. rewrite Hl, He, Hq. cbn [negb map]. rewrite Hp.
  f_equal. now apply IH.
Qed.

Lemma letters_lower (s : str) : letters (str_lower s) = letters s.
Proof.
  unfold letters, str_lower. rewrite map_map.
  do 3 f_equal. apply map_ext. intros c. apply lower_lower.
Qed.

Lemma collapse_clean (s : str) :
  forallb clean s = true ->
  forall b, forallb clean (collapse_spaces b s) = true.
Proof.
  induction s as [|c s IH]; intros H b; [reflexivity|].
  cbn [forallb] in H. apply andb_true_iff in H as [Hc Hs].
  cbn [collapse_spaces]. destruct (is_space c).
  - destruct b; [now apply IH|].
    cbn [forallb]. rewrite clean_space. now apply IH.
  - cbn [forallb]. rewrite Hc. now apply IH.
Qed.

Lemma collapse_tidy (s : str) :
  forall b, tidy b (collapse_spaces b s) = true.
Proof.
  induction s as [|c s IH]; intros b; [reflexivity|].
  cbn [collapse_spaces]. destruct (is_space c) eqn:E.
  - destruct b; [apply IH|].
    cbn [tidy]. change (is_space 32%N) with true. cbn [negb andb].
    rewrite N.eqb_refl. apply IH.
  - cbn [tidy]. rewrite E. apply IH.
Qed.

Lemma tidy_fixed (s : str) :
  forall b, tidy b s = true -> collapse_spaces b s = s.
Proof.
  induction s as [|c s IH]; intros b H; [reflexivity|].
  cbn [tidy] in H. cbn [collapse_spaces]. destruct (is_space c).
  - apply andb_true_iff in H as [H Hs].
    apply andb_true_iff in H as [Hc Hb].
    apply N.eqb_eq in Hc. apply negb_true_iff in Hb. subst c b.
    f_equal. now apply IH.
  - f_equal. now apply IH.
Qed.

Lemma tidy_lstrip (s : str) :
  forall b, tidy b s = true -> tidy false (lstrip s) = true.
Proof.
  induction s as [|c s IH]; intros b H; [reflexivity|].
  cbn [tidy] in H. cbn [lstrip]. destruct (is_space c) eqn:E.
  - apply andb_true_iff in H as [_ Hs]. eapply IH. exact Hs.
  - cbn [tidy]. rewrite E. exact H.
Qed.

Lemma tidy_prefix (p q : str) :
  forall b, tidy b (p ++ q) = true -> tidy b p = true.
Proof.
  induction p as [|c p IH]; intros b H; [reflexivity|].
  cbn [app tidy] in *. destruct (is_space c).
  - apply andb_true_iff in H as [H Hs]. rewrite H. now apply IH.
  - now apply IH.
Qed.

Lemma rstrip_prefix (s : str) : exists ws, s = rstrip s ++ ws.
Proof.
  unfold rstrip. destruct (lstrip_split (rev s)) as (pre & Hs & _).
  exists (rev pre). rewrite <- rev_app_distr, <- Hs.
  now rewrite rev_involutive.
Qed.

Lemma forallb_app_r {A} (f : A -> bool) (p q : list A) :
  forallb f (p ++ q) = true -> forallb f q = true.
Proof. rewrite forallb_app. intros H. now apply andb_true_iff in H. Qed.

Lemma forallb_app_l {A} (f : A -> bool) (p q : list A) :
  forallb f (p ++ q) = true -> forallb f p = true.
Proof. rewrite forallb_app. intros H. now apply andb_true_iff in H. Qed.

Lemma strip_keeps (f : char -> bool) (s : str) :
  forallb f s = true -> forallb f (strip s) = true.
Proof.
  intros H. unfold strip.
  destruct (lstrip_split s) as (pre & Hs & _).
  rewrite Hs in H. apply forallb_app_r in H.
  destruct (rstrip_prefix (lstrip s)) as (ws & Hw).
  rewrite Hw in H. now apply forallb_app_l in H.
Qed.

Lemma strip_tidy (s : str) :
  tidy false s = true -> tidy false (strip s) = true.
Proof.
  intros H. unfold strip. apply tidy_lstrip in H.
  destruct (rstrip_prefix (lstrip s)) as (ws & Hw).
  rewrite Hw in H. now apply tidy_prefix in H.
Qed.

(** X17. The result of [norm] is a fixed point of [norm]: normalising twice is
    normalising once. *)
Theorem norm_idempotent (s : str) : norm (norm s) = norm s.
Proof.
  rewrite (norm_steps (norm s)).
  set (r := norm s).
  assert (Hs : strip r = r) by (unfold r; rewrite norm_steps; apply strip_idempotent).
  assert (Hc : forallb clean r = true).
  { unfold r. rewrite norm_steps. apply strip_keeps, collapse_clean.
    apply letters_clean. }
  assert (Ht : tidy false r = true).
  { unfold r. rewrite norm_steps. apply strip_tidy, collapse_tidy. }
  rewrite Hs, (letters_fixed _ Hc), (tidy_fixed _ _ Ht). exact Hs.
Qed.

(** *** Letter case *)

Lemma lstrip_lower (s : str) : lstrip (str_lower s) = str_lower (lstrip s).
Proof.
  unfold str_lower. induction s as [|c s IH]; [reflexivity|].
  cbn [map lstrip]. rewrite is_space_lower.
  destruct (is_space c); [exact IH | reflexivity].
Qed.

Lemma strip_lower (s : str) : strip (str_lower s) = str_lower (strip s).
Proof.
  unfold strip, rstrip. rewrite lstrip_lower.
  unfold str_lower at 1. rewrite <- map_rev.
  fold (str_lower (rev (lstrip s))). rewrite lstrip_lower.
  unfold str_lower. now rewrite map_rev.
Qed.

Lemma norm_lower (s : str) : norm (str_lower s) = norm s.
Proof. rewrite !norm_steps, strip_lower, letters_lower. reflexivity. Qed.

Lemma detect_kind_lower (s : str) : detect_kind (str_lower s) = detect_kind s.
Proof. unfold detect_kind. now rewrite norm_lower. Qed.

Lemma is_list_request_lower (s : str) :
  is_list_request (str_lower s) = is_list_request s.
Proof. unfold is_list_request. now rewrite norm_lower. Qed.

Lemma count_prefix_lower (c : char -> bool) :
  (forall x, c (lower x) = c x) ->
  forall s hi, count_prefix c hi (str_lower s) = count_prefix c hi s.
Proof.
  intros Hc. unfold str_lower. induction s as [|x s IH]; intros hi.
  - reflexivity.
  - destruct hi as [[|h]|]; cbn [map count_prefix]; try reflexivity;
      rewrite Hc, IH; reflexivity.
Qed.

Lemma try_lengths_map {A B} (f : A -> B) (k lo : nat)
      (c1 : nat -> option B) (c2 : nat -> option A) :
  (forall j, c1 j = option_map f (c2 j)) ->
  try_lengths k lo c1 = option_map f (try_lengths k lo c2).
Proof.
  intros H. induction k as [|k IH]; cbn [try_lengths].
  - destruct (Nat.ltb 0 lo); [reflexivity|].
    rewrite H. destruct (c2 0%nat); reflexivity.
  - destruct (Nat.ltb (S k) lo); [reflexivity|].
    rewrite H. destruct (c2 (S k)); [reflexivity | exact IH].
Qed.

Lemma match_here_lower (p : list item) :
  ignores_case p ->
  forall at_start g s,
    match_here p at_start (str_lower g) (str_lower s)
    = option_map str_lower (match_here p at_start g s).
Proof.
  induction 1 as [|it p Hit Hp IH]; intros at_start g s; cbn [match_here].
  - reflexivity.
  - destruct it as [| |c lo hi|c lo hi].
    + destruct at_start; [apply IH | reflexivity].
    + destruct s as [|x [|y s]]; cbn [str_lower map].
      * apply (IH at_start g []).
      * rewrite newline_lower. destruct (x =? 10)%N; [|reflexivity].
        apply (IH at_start g [x]).
      * reflexivity.
    + rewrite (@count_prefix_lower c Hit). apply try_lengths_map.
      intros j. change (skipn j (str_lower s)) with (skipn j (map lower s)).
      rewrite skipn_map. apply IH.
    + rewrite (@count_prefix_lower c Hit). apply try_lengths_map.
      intros j. change (skipn j (str_lower s)) with (skipn j (map lower s)).
      change (firstn j (str_lower s)) with (firstn j (map lower s)).
      rewrite skipn_map, firstn_map. apply IH.
Qed.

Lemma search_from_lower (p : list item) :
  ignores_case p ->
  forall s at_start,
    search_from p at_start (str_lower s)
    = option_map str_lower (search_from p at_start s).
Proof.
  intros Hp. induction s as [|x s IH]; intros at_start.
  - cbn [search_from str_lower map].
    change (@nil char) with (str_lower []) at 1 2.
    rewrite (@match_here_lower p Hp).
    destruct (match_here p at_start [] []); reflexivity.
  - cbn [search_from str_lower map].
    change (lower x :: map lower s) with (str_lower (x :: s)).
    change (@nil char) with (str_lower []) at 1.
    rewrite (@match_here_lower p Hp).
    destruct (match_here p at_start [] (x :: s)); [reflexivity|].
    apply IH.
Qed.

Lemma ci_lower (l x : char) : ci l (lower x) = ci l x.
Proof. unfold ci. now rewrite lower_lower. Qed.

Lemma patterns_ignore_case :
  ignores_case NUM_ONLY_RE /\ ignores_case BAIR_RE
  /\ ignores_case BAIR_LOOSE_RE.
Proof.
  unfold ignores_case, NUM_ONLY_RE, BAIR_RE, BAIR_LOOSE_RE, spaces, lit.
  repeat split;
    repeat (constructor;
            try first [ exact I | exact is_space_lower | exact is_digit_lower
                      | exact is_dash_lower | apply ci_lower
                      | (intros x; rewrite !ci_lower; reflexivity) ]).
Qed.

Lemma digits_lower (g : str) : forallb is_digit g = true -> str_lower g = g.
Proof.
  unfold str_lower. induction g as [|c g IH]; [reflexivity|].
  cbn [forallb map]. intros H. apply andb_true_iff in H as [Hc Hg].
  rewrite (digit_lower _ Hc). f_equal. now apply IH.
Qed.

Lemma group_lower (r : str) : r = [] \/ short_number r -> str_lower r = r.
Proof.
  intros [-> | [_ H]]; [reflexivity|]. now apply digits_lower.
Qed.

Lemma re_match_lower (p : list item) (s : str) :
  ignores_case p -> digit_groups p ->
  re_match p (str_lower s) = re_match p s.
Proof.
  intros Hi Hd. unfold re_match.
  change (@nil char) with (str_lower []) at 1.
  rewrite (@match_here_lower p Hi).
  destruct (match_here p true [] s) as [r|] eqn:E; [|reflexivity].
  cbn [option_map]. f_equal. apply group_lower.
  eapply match_here_group; [exact Hd | exact E | now left].
Qed.

Lemma re_search_lower (p : list item) (s : str) :
  ignores_case p -> digit_groups p ->
  re_search p (str_lower s) = re_search p s.
Proof.
  intros Hi Hd. unfold re_search. rewrite (@search_from_lower p Hi).
  destruct (search_from p true s) as [r|] eqn:E; [|reflexivity].
  cbn [option_map]. f_equal. apply group_lower.
  eapply search_from_group; [exact Hd | exact E].
Qed.

Lemma extract_number_lower (s : str) :
  extract_number (str_lower s) = extract_number s.
Proof.
  destruct patterns_ignore_case as (I1 & I2 & I3).
  destruct patterns_have_digit_groups as (D1 & D2 & D3).
  unfold extract_number. rewrite strip_lower.
  rewrite (@re_match_lower NUM_ONLY_RE _ I1 D1),
    (@re_match_lower BAIR_RE _ I2 D2),
    (@re_search_lower BAIR_LOOSE_RE _ I3 D3).
  reflexivity.
Qed.

Section CaseProofs.
Variable repr_of : pyval -> str.

Lemma resolver_lower (cat : Catalog) (t : Tracker) (text : str)
      (intent : option str) :
  ActionSendLocation_run repr_of cat (with_message t (str_lower text) intent)
  = ActionSendLocation_run repr_of cat (with_message t text intent).
Proof.
  destruct patterns_ignore_case as (I1 & I2 & I3).
  destruct patterns_have_digit_groups as (D1 & D2 & D3).
  unfold ActionSendLocation_run.
  cbn [latest_text latest_intent with_message get_slot slots].
  rewrite strip_lower.
  rewrite detect_kind_lower, is_list_request_lower, extract_number_lower,
    norm_lower.
  rewrite (@re_match_lower NUM_ONLY_RE _ I1 D1),
    (@re_match_lower BAIR_RE _ I2 D2),
    (@re_search_lower BAIR_LOOSE_RE _ I3 D3).
  reflexivity.
Qed.

(** X18. The resolver ignores letter case: two messages that differ in
    letter case only, in the same state of the conversation, get the same
    reply and set the same slots. *)
Theorem resolver_ignores_case (cat : Catalog) (t : Tracker)
        (text1 text2 : str) (intent : option str) :
  str_lower text1 = str_lower text2 ->
  ActionSendLocation_run repr_of cat (with_message t text1 intent)
  = ActionSendLocation_run repr_of cat (with_message t text2 intent).
Proof.
  intros H. rewrite <- (resolver_lower cat t text1), H.
  apply resolver_lower.
Qed.
End CaseProofs.

(** ** Amounts *)

Lemma round_aux_sign (sx : bool) (mx ex : Z) (lx : location) :
  is_finite (binary_round_aux prec emax sx mx ex lx) = true ->
  sign_bit (binary_round_aux prec emax sx mx ex lx) = sx.
Proof.
  unfold binary_round_aux.
  destruct (shr_fexp prec emax mx ex lx) as [mrs' e'].
  destruct (shr_fexp prec emax _ e' loc_Exact) as [mrs'' e''].
  destruct (shr_m mrs''); [reflexivity | | discriminate].
  destruct (e'' <=? emax - prec); [reflexivity | discriminate].
Qed.

Lemma fmul_sign (x y : float) :
  is_finite (fmul x y) = true ->
  sign_bit (fmul x y) = xorb (sign_bit x) (sign_bit y).
Proof.
  destruct x as [sx|sx| |sx mx ex], y as [sy|sy| |sy my ey];
    try discriminate; try reflexivity.
  apply round_aux_sign.
Qed.

Lemma fadd_sign (x y : float) :
  sign_bit x = false -> sign_bit y = false ->
  is_finite (fadd x y) = true ->
  sign_bit (fadd x y) = false.
Proof.
  destruct x as [sx|sx| |sx mx ex], y as [sy|sy| |sy my ey];
    cbn [sign_bit]; intros Hx Hy; subst; try discriminate; try reflexivity.
  unfold fadd, SFadd. cbn [cond_Zopp Z.add]. unfold binary_normalize, binary_round.
  destruct (shl_align _ _ (fexp prec emax _)) as [mz ez].
  apply round_aux_sign.
Qed.

Lemma rounded_not_negative (x : float) : sign_bit x = false -> 0 <= rounded x.
Proof.
  intros H. unfold rounded. rewrite H. cbn [cond_Zopp].
  destruct x as [s|s| |s m e]; cbn [scaled_round]; try lia.
  destruct (0 <=? e) eqn:E.
  - apply Z.leb_le in E. pose proof (Z.pow_nonneg 2 e ltac:(lia)). nia.
  - apply Z.leb_gt in E.
    assert (Hd : 0 < 2 ^ (- e)) by (apply Z.pow_pos_nonneg; lia).
    assert (Hq : 0 <= 1 * Zpos m / 2 ^ (- e)) by (apply Z.div_pos; lia).
    cbv zeta.
    destruct (2 * ((1 * Zpos m) mod 2 ^ (- e)) ?= 2 ^ (- e)); [|lia|lia].
    destruct (Z.even _); lia.
Qed.

Section AmountProofs.
Variable repr_of : pyval -> str.

Lemma float_or_zero_sign (v : pyval) :
  not_negative_credit v = true ->
  sign_bit (float_or_zero repr_of v) = false.
Proof.
  destruct v as [| | |x| | |]; try discriminate; [reflexivity|].
  cbn [not_negative_credit]. intros H. apply negb_true_iff in H.
  unfold float_or_zero, _to_float. cbn [py_float].
  destruct x as [s|s| |s m e]; try reflexivity;
    destruct s; try reflexivity; discriminate.
Qed.

(** Credit validation leaves a slot cleared or with a float that is not
    below 0. *)
Lemma credits_validated (v : pyval) :
  (exists x out,
      validate_general_credits repr_of v = (inr [(general_credits, x)], out)
      /\ not_negative_credit x = true)
  /\ (exists x out,
         validate_major_credits repr_of v = (inr [(major_credits, x)], out)
         /\ not_negative_credit x = true).
Proof.
  unfold validate_general_credits, validate_major_credits.
  destruct (_to_float repr_of v) as [x|].
  - destruct (fltb x (fint 0)) eqn:E; split; eexists; eexists;
      (split; [reflexivity|]); cbn [not_negative_credit];
      try reflexivity; now rewrite E.
  - split; eexists; eexists; (split; [reflexivity | reflexivity]).
Qed.

Lemma fmt_returns (x : float) (n : Z) : fmt x = inr n -> is_finite x = true.
Proof. destruct x; try discriminate; reflexivity. Qed.

(** A priced run that returns has a finite total. *)
Lemma tuition_run_returns (pricing_doc : pyval) (store : Store)
      (tracker : Tracker) (gen_rate maj_rate : float)
      (evs : list event) (out : list message) :
  truthy (get_slot tracker admission_group) = true ->
  truthy (get_slot tracker faculty) = true ->
  lookup_rates (py_or pricing_doc (VDict []))
               (get_slot tracker admission_group) (get_slot tracker faculty)
  = inr (gen_rate, maj_rate) ->
  fst (ActionCalculateTuition_run repr_of pricing_doc store tracker)
  = (inr evs, out) ->
  is_finite (total_tuition (saved_row repr_of tracker gen_rate maj_rate 0))
  = true.
Proof.
  intros Hg Hf Hr. unfold ActionCalculateTuition_run.
  rewrite Hg, Hf, Hr. cbn [negb orb total_tuition saved_row].
  destruct (save_run _ _ _) as [saved store'].
  cbn [fst].
  destruct (fmt (fadd _ _)) as [e|n] eqn:E.
  - destruct saved as [e0|[]];
      destruct (fmt gen_rate); cbn [lift bind utter ret]; try discriminate;
      destruct (fmt (fmul _ gen_rate)); cbn [lift bind]; try discriminate;
      destruct (fmt maj_rate); cbn [lift bind]; try discriminate;
      destruct (fmt (fmul _ maj_rate)); cbn [lift bind]; try discriminate.
  - intros _. eapply fmt_returns. exact E.
Qed.

(** X19. No amount of a breakdown is negative. When the credit slots hold
    what credit validation leaves in them and the two rates are not
    negative, a run that returns after pricing utters the breakdown, and
    the two rates, the two products and the total it shows are all 0 or
    more. *)
Theorem tuition_amounts_not_negative (pricing_doc : pyval) (store : Store)
        (tracker : Tracker) (gen_rate maj_rate : float)
        (evs : list event) (out : list message) :
  truthy (get_slot tracker admission_group) = true ->
  truthy (get_slot tracker faculty) = true ->
  lookup_rates (py_or pricing_doc (VDict []))
               (get_slot tracker admission_group) (get_slot tracker faculty)
  = inr (gen_rate, maj_rate) ->
  not_negative_credit (get_slot tracker general_credits) = true ->
  not_negative_credit (get_slot tracker major_credits) = true ->
  sign_bit gen_rate = false -> sign_bit maj_rate = false ->
  fst (ActionCalculateTuition_run repr_of pricing_doc store tracker)
  = (inr evs, out) ->
  exists label fac gen_cr gen_shown gen_amount maj_cr maj_shown maj_amount total,
    out = persistence_report store
          ++ [TuitionBreakdown label fac gen_cr gen_shown gen_amount
                               maj_cr maj_shown maj_amount total]
    /\ 0 <= gen_shown /\ 0 <= gen_amount
    /\ 0 <= maj_shown /\ 0 <= maj_amount /\ 0 <= total.
Proof.
  intros Hg Hf Hr Hgc Hmc Hgr Hmr Hrun.
  pose proof (tuition_run_returns pricing_doc store tracker Hg Hf Hr Hrun)
    as Htot.
  rewrite (tuition_run_finite repr_of pricing_doc store tracker Hg Hf Hr Htot)
    in Hrun.
  cbn [fst] in Hrun. injection Hrun as _ <-.
  cbn [total_tuition saved_row] in Htot.
  pose proof (fadd_finite _ _ Htot) as [Hgen Hmaj].
  pose proof (float_or_zero_sign _ Hgc) as Sg.
  pose proof (float_or_zero_sign _ Hmc) as Sm.
  pose proof (fmul_sign _ _ Hgen) as Sgen. rewrite Sg, Hgr in Sgen.
  pose proof (fmul_sign _ _ Hmaj) as Smaj. rewrite Sm, Hmr in Smaj.
  unfold breakdown. do 9 eexists. split; [reflexivity|].
  repeat split; apply rounded_not_negative; try assumption.
  now apply fadd_sign.
Qed.
End AmountProofs.

Lemma tuition_amounts_not_negative_witness :
  (truthy (get_slot tuition_example admission_group) = true
   /\ truthy (get_slot tuition_example faculty) = true
   /\ lookup_rates (py_or example_pricing (VDict []))
                   (get_slot tuition_example admission_group)
                   (get_slot tuition_example faculty)
      = inr (fint 1000, fint 2000)
   /\ not_negative_credit (get_slot tuition_example general_credits) = true
   /\ not_negative_credit (get_slot tuition_example major_credits) = true
   /\ sign_bit (fint 1000) = false /\ sign_bit (fint 2000) = false
   /\ fst (ActionCalculateTuition_run repr_example example_pricing
             (Online empty_database) tuition_example)
      = (inr [],
         [TuitionBreakdown (u "2024–2025") (u "БИЗНЕСИЙН СУРГУУЛЬ")
            (fint 10) 1000 10000 (fint 5) 2000 10000 20000]))
  /\ exists label fac gen_cr gen_shown gen_amount
            maj_cr maj_shown maj_amount total,
      [TuitionBreakdown (u "2024–2025") (u "БИЗНЕСИЙН СУРГУУЛЬ")
         (fint 10) 1000 10000 (fint 5) 2000 10000 20000]
      = persistence_report (Online empty_database)
        ++ [TuitionBreakdown label fac gen_cr gen_shown gen_amount
                             maj_cr maj_shown maj_amount total]
      /\ 0 <= gen_shown /\ 0 <= gen_amount
      /\ 0 <= maj_shown /\ 0 <= maj_amount /\ 0 <= total.
Proof.
  assert (H : fst (ActionCalculateTuition_run repr_example example_pricing
                     (Online empty_database) tuition_example)
              = (inr [],
                 [TuitionBreakdown (u "2024–2025") (u "БИЗНЕСИЙН СУРГУУЛЬ")
                    (fint 10) 1000 10000 (fint 5) 2000 10000 20000]))
    by (vm_compute; reflexivity).
  split; [repeat split; try (vm_compute; reflexivity); exact H|].
  exact (@tuition_amounts_not_negative repr_example example_pricing
           (Online empty_database) tuition_example (fint 1000) (fint 2000)
           [] _
           ltac:(vm_compute; reflexivity) ltac:(vm_compute; reflexivity)
           ltac:(vm_compute; reflexivity) ltac:(vm_compute; reflexivity)
           ltac:(vm_compute; reflexivity) ltac:(vm_compute; reflexivity)
           ltac:(vm_compute; reflexivity) H).
Defined.

(** ** Aliases *)

Section AliasProofs.
Variable repr_of : pyval -> str.

Lemma alias_lookup (data : pyval) (cat : Catalog) (p : pydict) (key : str) :
  load_places repr_of data = inr cat ->
  In p (all_places cat) -> lists_alias repr_of p key ->
  exists q, index_get str_eqb key (alias_index cat) = Some q
            /\ In q (all_places cat) /\ lists_alias repr_of q key.
Proof.
  intros H Hin Hal. apply load_places_inv in H as (raw & _ & Hall & B).
  rewrite Hall in *.
  destruct (proj1 (@build_indexes_complete repr_of (keep_places repr_of raw)
                     [] [] _ _ B p Hin) _ Hal) as [q Hq].
  exists q. split; [exact Hq|].
  destruct (@build_indexes_sound repr_of (keep_places repr_of raw)
              (keep_places repr_of raw) (incl_refl _) [] []
              (alias_index cat) (kind_num_index cat)
              (Forall_nil _) (Forall_nil _) B) as [Hsound _].
  apply index_get_entry in Hq; [|exact str_eqb_eq].
  rewrite Forall_forall in Hsound. exact (Hsound _ Hq).
Qed.

Lemma lists_alias_nonempty (q : pydict) (key : str) :
  lists_alias repr_of q key -> truthy (VDict q) = true.
Proof.
  intros (l & a & Hl & Hin & _). destruct q; [|reflexivity].
  unfold aliases_of in Hl. cbn in Hl. injection Hl as <-. destruct Hin.
Qed.

Lemma norm_strip (s : str) : norm (strip s) = norm s.
Proof. rewrite !norm_steps, strip_idempotent. reflexivity. Qed.

(** X20. A listed alias opens its place. When the message is an alias of a
    place of the catalog, up to letter case, quotes, punctuation and
    white space, and holds no number that [extract_number] reads, the
    resolver replies with a place of the catalog that lists this alias,
    and sets no slot: provided the turn is not the answer to the question
    about the kind of building and is not a request for the list. *)
Theorem alias_opens_place (data : pyval) (cat : Catalog) (t : Tracker)
        (p : pydict) (aliases : list pyval) (a : pyval)
        (text : str) (intent : option str) :
  load_places repr_of data = inr cat ->
  In p (all_places cat) ->
  aliases_of p = inr aliases -> In a aliases ->
  norm text = norm (py_str repr_of a) ->
  match intent with
  | Some i => str_eqb i (u "choose_place_type")
  | None => false
  end && truthy (get_slot t pending_number) = false ->
  is_list_request text = false ->
  extract_number text = None ->
  exists q,
    In q (all_places cat) /\ lists_alias repr_of q (norm text)
    /\ ActionSendLocation_run repr_of cat (with_message t text intent)
       = (say_place repr_of q ;;; ret []).
Proof.
  intros Hload Hin Hal Ha Hn Hturn Hlist Hnum.
  assert (Hp : lists_alias repr_of p (norm text))
    by (exists aliases, a; repeat split; auto).
  destruct (alias_lookup data Hload Hin Hp) as (q & Hq & Hqin & Hql).
  exists q. split; [exact Hqin|]. split; [exact Hql|].
  unfold ActionSendLocation_run.
  cbn [latest_text latest_intent with_message get_slot slots].
  change (slots t pending_number) with (get_slot t pending_number).
  rewrite Hturn.
  assert (E1 : is_list_request (strip text) = false).
  { unfold is_list_request in *. now rewrite norm_strip. }
  rewrite E1, extract_number_strip, Hnum, norm_strip, Hq.
  unfold found. rewrite (lists_alias_nonempty Hql). reflexivity.
Qed.
End AliasProofs.

Lemma alias_opens_place_witness :
  (load_places repr_example example_locations = inr example_catalog
   /\ is_list_request (u "  Номын Сан. ") = false
   /\ extract_number (u "  Номын Сан. ") = None)
  /\ exists q,
      In q (all_places example_catalog)
      /\ lists_alias repr_example q (norm (u "  Номын Сан. "))
      /\ ActionSendLocation_run repr_example example_catalog
           (with_message (new_tracker (u "student")) (u "  Номын Сан. ") None)
         = (say_place repr_example q ;;; ret []).
Proof.
  split; [repeat split; vm_compute; reflexivity|].
  refine (@alias_opens_place repr_example example_locations example_catalog
            (new_tracker (u "student"))
            [(k_kind, VStr kind_class); (k_number, VInt 2);
             (k_title, VStr (u "Хичээлийн 2-р байр"));
             (k_url, VStr (u "https://maps.example/2"));
             (k_aliases, VList [VStr (u "Хичээлийн 2-р байр");
                                VStr (u "номын сан")])]
            [VStr (u "Хичээлийн 2-р байр"); VStr (u "номын сан")]
            (VStr (u "номын сан")) (u "  Номын Сан. ") None
            _ _ _ _ _ _ _ _).
  - vm_compute; reflexivity.
  - vm_compute. auto.
  - vm_compute; reflexivity.
  - right; left; reflexivity.
  - vm_compute; reflexivity.
  - reflexivity.
  - vm_compute; reflexivity.
  - vm_compute; reflexivity.
Defined.

Lemma score_between_bands_is_F_witness :
  (fltb (fint 74) (dec 749 1) = true /\ fltb (dec 749 1) (fint (74 + 1)) = true)
  /\ score_to_grade (dec 749 1) = grade_F.
Proof.
  split; [split; vm_compute; reflexivity|].
  apply (@score_between_bands_is_F (dec 749 1) 74).
  - simpl. auto.
  - vm_compute; reflexivity.
  - vm_compute; reflexivity.
Defined.

Lemma accepted_faculty_is_priced_witness :
  validate_faculty example_pricing (VStr (u "БИЗНЕСИЙН СУРГУУЛЬ"))
                   tuition_example
  = (inr [(faculty, VStr (u "БИЗНЕСИЙН СУРГУУЛЬ"))], [])
  /\ (([(faculty, VStr (u "БИЗНЕСИЙН СУРГУУЛЬ"))] = [(faculty, VNone)]
       /\ exists m, @nil message = [Text m])
      \/ ([(faculty, VStr (u "БИЗНЕСИЙН СУРГУУЛЬ"))]
          = [(faculty, VStr (u "БИЗНЕСИЙН СУРГУУЛЬ"))]
          /\ @nil message = []
          /\ exists name by_group rates,
              VStr (u "БИЗНЕСИЙН СУРГУУЛЬ") = VStr name
              /\ py_getitem (py_or example_pricing (VDict []))
                            (get_slot tuition_example admission_group)
                 = inr (VDict by_group)
              /\ py_getitem (VDict by_group) (VStr (u "БИЗНЕСИЙН СУРГУУЛЬ"))
                 = inr rates)).
Proof.
  assert (H : validate_faculty example_pricing (VStr (u "БИЗНЕСИЙН СУРГУУЛЬ"))
                               tuition_example
              = (inr [(faculty, VStr (u "БИЗНЕСИЙН СУРГУУЛЬ"))], []))
    by (vm_compute; reflexivity).
  split; [exact H|].
  exact (@accepted_faculty_is_priced example_pricing
           (VStr (u "БИЗНЕСИЙН СУРГУУЛЬ")) tuition_example _ _ H).
Defined.

Lemma resolver_ignores_case_witness :
  str_lower (u "НОМЫН САН") = str_lower (u "номын сан")
  /\ ActionSendLocation_run repr_example example_catalog
       (with_message (new_tracker (u "student")) (u "НОМЫН САН") None)
     = ActionSendLocation_run repr_example example_catalog
         (with_message (new_tracker (u "student")) (u "номын сан") None).
Proof.
  assert (H : str_lower (u "НОМЫН САН") = str_lower (u "номын сан"))
    by (vm_compute; reflexivity).
  split; [exact H|].
  exact (@resolver_ignores_case repr_example example_catalog
           (new_tracker (u "student")) (u "НОМЫН САН") (u "номын сан")
           None H).
Defined.

(** ** The order of the quality points *)

(** X21. Quality points follow the score, with one exception. For whole
    scores [a <= b] between 0 and 100, the points of [a] are at most the
    points of [b] exactly when the pair is not a score of band C (65 to
    69, 2.0 points) followed by a score of band C- (70 to 74, 1.9
    points). *)
Theorem points_follow_scores (a b : Z) :
  0 <= a -> a <= b -> b <= 100 ->
  fleb (points_of a) (points_of b) = negb (c_then_c_minus a b).
Proof.
  intros Ha Hab Hb. unfold points_of.
  assert (G : forall n, 0 <= n <= 100 -> score_to_grade (fint n) = band n).
  { intros n Hn. apply grade_eqb_eq.
    pose proof whole_score_table as A.
    rewrite forallb_forall in A. apply A. apply whole_numbers_in. lia. }
  rewrite !G by lia.
  unfold band, c_then_c_minus.
  repeat match goal with
         | |- context [(?x <=? ?y)] => destruct (Z.leb_spec x y); try lia
         end;
    cbn [gpa andb negb]; vm_compute; reflexivity.
Qed.

Lemma points_follow_scores_witness :
  (0 <= 69 /\ 69 <= 70 /\ 70 <= 100)
  /\ fleb (points_of 69) (points_of 70) = negb (c_then_c_minus 69 70).
Proof.
  split; [lia|]. apply (@points_follow_scores 69 70); lia.
Defined.
